(** * A rolling-file hook for logrus: model and verification

    Shallow embedding of the Go package [rollingfile]
    (fsutils.go, rollingfile.go, rollingfile_time_hook.go).

    The Go code is imperative: it mutates the hook, the file system, the
    standard error stream and the logger's output target, and it reads the
    clock.  Every Go function is embedded as a state-passing function that
    keeps the Go name; a Go [error] result is an [option error] ([None] is
    [nil]).  The operating system is an explicit [World] that can be told
    to fail any system call.

    Contents: Go strings and errors; the world and its system calls;
    fsutils.go; the contracts of the packages [time] and [sort];
    rollingfile.go and rollingfile_time_hook.go; an implementation of each
    contract; runs of the hook; the vocabulary of the statements; the
    verification. *)

From Stdlib Require Import ZArith String Ascii List Lia Bool Permutation Sorted.
From stdpp Require Import gmap strings list fin_maps sorting.

Local Open Scope string_scope.
Local Open Scope list_scope.
Local Open Scope Z_scope.

(** ** Go strings *)

Module GoString.

(** [strings.HasPrefix(s, prefix)]. *)
Definition HasPrefix (s pre : string) : bool := String.prefix pre s.

(** The slice expression [s[n:]] for [n <= len(s)]. *)
Fixpoint slice_from (n : nat) (s : string) : string :=
  match n, s with
  | O, _ => s
  | S n', String _ r => slice_from n' r
  | S _, EmptyString => EmptyString
  end.

(** [len(s)] as a Go [int]. *)
Definition len (s : string) : Z := Z.of_nat (String.length s).

End GoString.

(** ** Errors *)

(** The error values that cross the package.  [ErrText] is an error made by
    [errors.New] or [fmt.Errorf]; the others are the sentinel errors of the
    packages [os] and [io]. *)
Inductive error : Type :=
| ErrInvalid          (* os.ErrInvalid: "invalid argument" *)
| ErrClosed           (* os.ErrClosed: "file already closed" *)
| ErrNotExist         (* os.ErrNotExist / ENOENT *)
| ErrPermission       (* os.ErrPermission / EACCES *)
| ErrIsDir            (* EISDIR *)
| ErrIO               (* EIO *)
| EOF                 (* io.EOF *)
| ErrText (msg : string).

#[export] Instance error_eq_dec : EqDecision error.
Proof. solve_decision. Defined.

Definition error_Error (e : error) : string :=
  match e with
  | ErrInvalid => "invalid argument"
  | ErrClosed => "file already closed"
  | ErrNotExist => "no such file or directory"
  | ErrPermission => "permission denied"
  | ErrIsDir => "is a directory"
  | ErrIO => "input/output error"
  | EOF => "EOF"
  | ErrText m => m
  end.

(** [os.IsNotExist(err)]; false on [nil]. *)
Definition os_IsNotExist (err : option error) : bool :=
  match err with
  | Some ErrNotExist => true
  | _ => false
  end.

Definition is_EOF (e : error) : bool :=
  match e with EOF => true | _ => false end.

(** ** The file system, the clock and the side channels *)

(** [os.FileMode] is a [uint32]; the type bits are those of Go's [os]
    package. *)
Definition ModeDir : Z := Z.shiftl 1 31.
Definition ModeSymlink : Z := Z.shiftl 1 27.
Definition ModeDevice : Z := Z.shiftl 1 26.
Definition ModeNamedPipe : Z := Z.shiftl 1 25.
Definition ModeSocket : Z := Z.shiftl 1 24.
Definition ModeCharDevice : Z := Z.shiftl 1 21.
Definition ModeIrregular : Z := Z.shiftl 1 19.
Definition ModeType : Z :=
  Eval cbv in
    Z.lor ModeDir (Z.lor ModeSymlink (Z.lor ModeNamedPipe
      (Z.lor ModeSocket (Z.lor ModeDevice (Z.lor ModeCharDevice ModeIrregular))))).

(** fsutils.go: permissions. *)
Definition defaultFilePermissions : Z := 438.       (* 0666 *)
Definition defaultDirectoryPermissions : Z := 503.  (* 0767 *)

(** [os.OpenFile] flags (Linux values). *)
Definition O_WRONLY : Z := 1.
Definition O_CREATE : Z := 64.
Definition O_TRUNC : Z := 512.
Definition O_APPEND : Z := 1024.

(** What a directory holds under one name. *)
Record Node : Type := mkNode {
  n_mode : Z;
  n_data : list Byte.byte
}.

(** [os.FileInfo], as far as the package looks at it. *)
Record FileInfo : Type := mkFileInfo {
  fi_Name : string;
  fi_Mode : Z
}.

Inductive Syscall : Type :=
| SysOpenDir
| SysGetwd
| SysReaddir (chunk : nat)
| SysClose
| SysRename
| SysRemove (name : string)
| SysMkdirAll
| SysOpenFile
| SysStat.

(** Calls that change the directory, in the order they were made, with
    their outcome. *)
Inductive Event : Type :=
| EvRename (oldname newname : string) (res : option error)
| EvRemove (name : string) (res : option error).

(** The world describes the one directory the hook works in
    ([currentDirPath]); [filepath.Join(currentDirPath, name)] is the entry
    [name] of it.  [w_fault] injects failures: a system call for which it
    answers [Some e] fails with [e]. *)
Record World : Type := mkWorld {
  w_dir : option (gmap string Node);  (* [None]: the directory is absent *)
  w_open : gmap nat string;           (* open descriptors and their file *)
  w_next : nat;                       (* next fresh descriptor *)
  w_out : option nat;                 (* [Logger.Out], when it is a file *)
  w_now : Z;                          (* wall clock, seconds *)
  w_ticks : list Z;                   (* readings the clock jumps to *)
  w_cwd : string;
  w_fault : Syscall -> option error;
  w_stderr : list string;
  w_trace : list Event;
  w_desc : gmap nat (Z * nat)         (* open flags and file offset of a descriptor *)
}.

Definition set_dir (d : option (gmap string Node)) (w : World) : World :=
  mkWorld d (w_open w) (w_next w) (w_out w) (w_now w) (w_ticks w) (w_cwd w)
          (w_fault w) (w_stderr w) (w_trace w)
          (w_desc w).
Definition set_open (o : gmap nat string) (w : World) : World :=
  mkWorld (w_dir w) o (w_next w) (w_out w) (w_now w) (w_ticks w) (w_cwd w)
          (w_fault w) (w_stderr w) (w_trace w)
          (w_desc w).
Definition set_next (n : nat) (w : World) : World :=
  mkWorld (w_dir w) (w_open w) n (w_out w) (w_now w) (w_ticks w) (w_cwd w)
          (w_fault w) (w_stderr w) (w_trace w)
          (w_desc w).
Definition set_out (o : option nat) (w : World) : World :=
  mkWorld (w_dir w) (w_open w) (w_next w) o (w_now w) (w_ticks w) (w_cwd w)
          (w_fault w) (w_stderr w) (w_trace w)
          (w_desc w).
Definition set_clock (t : Z) (ts : list Z) (w : World) : World :=
  mkWorld (w_dir w) (w_open w) (w_next w) (w_out w) t ts (w_cwd w)
          (w_fault w) (w_stderr w) (w_trace w)
          (w_desc w).
Definition set_fault (f : Syscall -> option error) (w : World) : World :=
  mkWorld (w_dir w) (w_open w) (w_next w) (w_out w) (w_now w) (w_ticks w) (w_cwd w)
          f (w_stderr w) (w_trace w)
          (w_desc w).
Definition log_stderr (line : string) (w : World) : World :=
  mkWorld (w_dir w) (w_open w) (w_next w) (w_out w) (w_now w) (w_ticks w) (w_cwd w)
          (w_fault w) (w_stderr w ++ [line]) (w_trace w)
          (w_desc w).
Definition log_event (ev : Event) (w : World) : World :=
  mkWorld (w_dir w) (w_open w) (w_next w) (w_out w) (w_now w) (w_ticks w) (w_cwd w)
          (w_fault w) (w_stderr w) (w_trace w ++ [ev])
          (w_desc w).

Definition set_desc (ds : gmap nat (Z * nat)) (w : World) : World :=
  mkWorld (w_dir w) (w_open w) (w_next w) (w_out w) (w_now w) (w_ticks w) (w_cwd w)
          (w_fault w) (w_stderr w) (w_trace w) ds.

Definition no_fault : Syscall -> option error := fun _ => None.

(** *** System calls *)

Module OS.

Definition isDir (n : Node) : bool := negb (Z.land (n_mode n) ModeDir =? 0)%Z.

(** [time.Now()]: the clock answers its next scheduled reading, and stays
    where it is when none is scheduled. *)
Definition Now (w : World) : Z * World :=
  match w_ticks w with
  | [] => (w_now w, w)
  | t :: ts => (t, set_clock t ts w)
  end.

(** [os.Open(dirPath)] on the directory: its listing, in directory
    order. *)
Definition OpenDir (w : World) : option (list FileInfo) * option error :=
  match w_fault w SysOpenDir with
  | Some e => (None, Some e)
  | None =>
      match w_dir w with
      | None => (None, Some ErrNotExist)
      | Some d =>
          (Some (map (fun kv => mkFileInfo (fst kv) (n_mode (snd kv))) (map_to_list d)), None)
      end
  end.

(** [f.Readdir(n)] for [n > 0] on what is left of a listing: at most [n]
    entries, and [io.EOF] with none at the end. *)
Definition Readdir (n : nat) (chunk : nat) (rest : list FileInfo) (w : World)
  : list FileInfo * option error * list FileInfo :=
  match w_fault w (SysReaddir chunk) with
  | Some e => ([], Some e, rest)
  | None =>
      match rest with
      | [] => ([], Some EOF, [])
      | _ => (firstn n rest, None, skipn n rest)
      end
  end.

(** [filepath.IsAbs(path)] on Unix. *)
Definition IsAbs (path : string) : bool := GoString.HasPrefix path "/".

(** [filepath.Join(dir, name)], for a clean [dir]. *)
Definition Join (dir name : string) : string := dir +:+ "/" +:+ name.

(** [filepath.Abs(path)] of a relative path: needs the working
    directory. *)
Definition Abs (path : string) (w : World) : string * option error :=
  match w_fault w SysGetwd with
  | Some e => ("", Some e)
  | None => (Join (w_cwd w) path, None)
  end.

(** [os.File.Close()]: [ErrInvalid] on a nil receiver, [ErrClosed] on
    a file closed before; a failing close still gives the descriptor
    up. *)
Definition Close (f : option nat) (w : World) : option error * World :=
  match f with
  | None => (Some ErrInvalid, w)
  | Some fd =>
      match w_open w !! fd with
      | None => (Some ErrClosed, w)
      | Some _ => (w_fault w SysClose, set_open (delete fd (w_open w)) w)
      end
  end.

(** [os.Rename(Join(dir, oldname), Join(dir, newname))]: replaces a file
    of the new name, refuses a directory of that name. *)
Definition Rename (oldname newname : string) (w : World) : option error * World :=
  let res_dir :=
    match w_fault w SysRename with
    | Some e => (Some e, w_dir w)
    | None =>
        match w_dir w with
        | None => (Some ErrNotExist, None)
        | Some d =>
            match d !! oldname with
            | None => (Some ErrNotExist, Some d)
            | Some n =>
                match d !! newname with
                | Some n' =>
                    if isDir n' then (Some ErrIsDir, Some d)
                    else (None, Some (<[newname := n]> (delete oldname d)))
                | None => (None, Some (<[newname := n]> (delete oldname d)))
                end
            end
        end
    end in
  (fst res_dir, log_event (EvRename oldname newname (fst res_dir)) (set_dir (snd res_dir) w)).

(** [os.Remove(Join(dir, name))]. *)
Definition Remove (name : string) (w : World) : option error * World :=
  let res_dir :=
    match w_fault w (SysRemove name) with
    | Some e => (Some e, w_dir w)
    | None =>
        match w_dir w with
        | None => (Some ErrNotExist, None)
        | Some d =>
            match d !! name with
            | None => (Some ErrNotExist, Some d)
            | Some _ => (None, Some (delete name d))
            end
        end
    end in
  (fst res_dir, log_event (EvRemove name (fst res_dir)) (set_dir (snd res_dir) w)).

(** [os.MkdirAll(dir, perm)]. *)
Definition MkdirAll (w : World) : option error * World :=
  match w_fault w SysMkdirAll with
  | Some e => (Some e, w)
  | None =>
      match w_dir w with
      | None => (None, set_dir (Some ∅) w)
      | Some _ => (None, w)
      end
  end.

(** [os.OpenFile(Join(dir, name), flag, perm)] for writing.  The
    descriptor remembers the flags it was opened with; its file offset
    starts at zero. *)
Definition OpenFile (name : string) (flag perm : Z) (w : World)
  : option nat * option error * World :=
  match w_fault w SysOpenFile with
  | Some e => (None, Some e, w)
  | None =>
      match w_dir w with
      | None => (None, Some ErrNotExist, w)
      | Some d =>
          let fd := w_next w in
          let opened (d' : gmap string Node) :=
            (Some fd, None,
             set_desc (<[fd := (flag, 0%nat)]> (w_desc w))
               (set_next (S fd)
                  (set_open (<[fd := name]> (w_open w)) (set_dir (Some d') w)))) in
          match d !! name with
          | None =>
              if (Z.land flag O_CREATE =? 0)%Z then (None, Some ErrNotExist, w)
              else opened (<[name := mkNode perm []]> d)
          | Some n =>
              if isDir n then (None, Some ErrIsDir, w)
              else if (Z.land flag O_TRUNC =? 0)%Z then opened d
              else opened (<[name := mkNode (n_mode n) []]> d)
          end
      end
  end.

(** [os.File.Stat()] followed by [Size()]. *)
Definition StatSize (fd : nat) (w : World) : Z * option error :=
  match w_fault w SysStat with
  | Some e => (0, Some e)
  | None =>
      match w_open w !! fd with
      | None => (0, Some ErrClosed)
      | Some name =>
          match w_dir w with
          | None => (0, None)
          | Some d =>
              match d !! name with
              | None => (0, None)
              | Some n => (Z.of_nat (length (n_data n)), None)
              end
          end
      end
  end.

(** What a file holds after [b] has been written at offset [off]: the
    bytes from [off] on are overwritten, and a gap behind the end of the
    file reads as zeros. *)
Definition write_at (off : nat) (b data : list Byte.byte) : list Byte.byte :=
  take off data ++ replicate (off - length data) Byte.x00 ++ b
  ++ drop (off + length b) data.

(** [os.File.Write(b)].  A descriptor opened with [O_APPEND] writes at
    the end of the file, whatever its offset; any other descriptor writes
    at its offset.  The offset then stands behind what was written. *)
Definition Write (f : option nat) (b : list Byte.byte) (w : World) : option error * World :=
  match f with
  | None => (Some ErrInvalid, w)
  | Some fd =>
      match w_open w !! fd with
      | None => (Some ErrClosed, w)
      | Some name =>
          match w_dir w with
          | None => (None, w)
          | Some d =>
              match d !! name with
              | None => (None, w)
              | Some n =>
                  let flag := fst (default (0, 0%nat) (w_desc w !! fd)) in
                  let off := snd (default (0, 0%nat) (w_desc w !! fd)) in
                  let data :=
                    if (Z.land flag O_APPEND =? 0)%Z then write_at off b (n_data n)
                    else n_data n ++ b in
                  let off' :=
                    if (Z.land flag O_APPEND =? 0)%Z then (off + length b)%nat
                    else length data in
                  (None,
                   set_desc (<[fd := (flag, off')]> (w_desc w))
                     (set_dir (Some (<[name := mkNode (n_mode n) data]> d)) w))
              end
          end
      end
  end.

End OS.

#[global] Arguments OS.Now : simpl never.
#[global] Arguments OS.OpenDir : simpl never.
#[global] Arguments OS.Readdir : simpl never.
#[global] Arguments OS.Abs : simpl never.
#[global] Arguments OS.Close : simpl never.
#[global] Arguments OS.Rename : simpl never.
#[global] Arguments OS.Remove : simpl never.
#[global] Arguments OS.MkdirAll : simpl never.
#[global] Arguments OS.OpenFile : simpl never.
#[global] Arguments OS.StatSize : simpl never.
#[global] Arguments OS.Write : simpl never.

(** ** fsutils.go *)

Definition isRegular (m : Z) : bool := (Z.land m ModeType =? 0)%Z.

(** The read buffer size, [rbs := 2 << 5]. *)
Definition rbs : nat := Z.to_nat (Z.shiftl 2 5).

(** The body of the inner [for _, fi := range fis] loop. *)
Definition collect_chunk (absDirPath : string) (fpFilter : option (string -> bool))
  (pathIsName : bool) (fis : list FileInfo) (filePaths : list string) : list string :=
  fold_left
    (fun acc fi =>
       if isRegular (fi_Mode fi) then
         let fp := if pathIsName then fi_Name fi else OS.Join absDirPath (fi_Name fi) in
         match fpFilter with
         | Some flt => if flt fp then acc ++ [fp] else acc
         | None => acc ++ [fp]
         end
       else acc)
    fis filePaths.

(** The loop labelled [L]: one [Readdir] per turn.  [fuel] bounds the number
    of turns; [read_loop_total] below shows that one more than the number
    of entries is always enough. *)
Fixpoint read_loop (fuel : nat) (absDirPath : string) (fpFilter : option (string -> bool))
  (pathIsName : bool) (chunk : nat) (rest : list FileInfo) (filePaths : list string)
  (w : World) : option (list string * option error) :=
  match fuel with
  | O => None
  | S fuel' =>
      match OS.Readdir rbs chunk rest w with
      | (fis, None, rest') =>
          read_loop fuel' absDirPath fpFilter pathIsName (S chunk) rest'
                    (collect_chunk absDirPath fpFilter pathIsName fis filePaths) w
      | (_, Some e, _) =>
          if is_EOF e then Some (filePaths, None) else Some ([], Some e)
      end
  end.

Definition getDirFilePaths (dirPath : string) (fpFilter : option (string -> bool))
  (pathIsName : bool) (w : World) : list string * option error :=
  match OS.OpenDir w with
  | (_, Some _) => ([], Some (ErrText ("Cannot open directory " +:+ dirPath)))
  | (None, None) => ([], Some (ErrText ("Cannot open directory " +:+ dirPath)))
  | (Some dfi, None) =>
      let abs :=
        if negb (OS.IsAbs dirPath) then OS.Abs dirPath w else (dirPath, None) in
      match abs with
      | (_, Some err) =>
          ([], Some (ErrText ("cannot get absolute path of directory: " +:+ error_Error err)))
      | (absDirPath, None) =>
          match read_loop (S (length dfi)) absDirPath fpFilter pathIsName 0 dfi [] w with
          | Some r => r
          | None => ([], Some ErrIO)  (* out of turns: never, by [read_loop_total] *)
          end
      end
  end.

(** [tryRemoveFile] gives a try removing the file, only ignoring an error
    when the file does not exist. *)
Definition tryRemoveFile (filePath : string) (w : World) : option error * World :=
  let '(err, w') := OS.Remove filePath w in
  if os_IsNotExist err then (None, w') else (err, w').

#[global] Arguments getDirFilePaths : simpl never.
#[global] Arguments tryRemoveFile : simpl never.

(** ** The packages [time] and [sort]

    Both are Go's, not this repository's.  The hook is verified against
    their contracts; [GoTime] and [GoSort] further down implement them, so
    that everything below runs. *)

(** An instant is a [Z]: seconds since the Unix epoch.  [time_Format t
    layout] is [t.Format(layout)]; [time_ParseInLocation layout value] is
    [time.ParseInLocation(layout, value, time.Local)], [None] when it
    returns an error (the [Time] it returns then is the zero [Time]). *)
Class TimePkg : Type := {
  time_Format : Z -> string -> string;
  time_ParseInLocation : string -> string -> option Z
}.

(** The zero [Time]: January 1, year 1, 00:00:00 UTC. *)
Definition zeroTime : Z := -62135596800.

(** [t.Before(u)]. *)
Definition time_Before (t u : Z) : bool := t <? u.

(** [sort.Interface]. *)
Record Interface (T : Type) : Type := mkInterface {
  Len : T -> nat;
  Less : T -> nat -> nat -> bool;
  Swap : T -> nat -> nat -> T
}.
Arguments mkInterface {T} _ _ _.
Arguments Len {T} _ _.
Arguments Less {T} _ _ _ _.
Arguments Swap {T} _ _ _ _.

(** What [sort.Sort] asks of its argument, read through a [view] of the
    collection as a list: [Len], [Less] and [Swap] act on positions of that
    list, and the order is one the documentation of [sort.Interface]
    allows ("if both Less(i, j) and Less(j, k) are true, then Less(i, k)
    must be true as well; if both are false, then Less(i, k) must be
    false as well"). *)
Record Lawful {T E : Type} (I : Interface T) (view : T -> list E)
  (lt : E -> E -> bool) : Prop := mkLawful {
  law_len : forall d, Len I d = length (view d);
  law_less : forall d i j x y,
      view d !! i = Some x -> view d !! j = Some y -> Less I d i j = lt x y;
  law_swap : forall d i j x y,
      view d !! i = Some x -> view d !! j = Some y ->
      view (Swap I d i j) = <[i := y]> (<[j := x]> (view d));
  law_irrefl : forall x, lt x x = false;
  law_trans : forall x y z, lt x y = true -> lt y z = true -> lt x z = true;
  law_negtrans : forall x y z, lt x y = false -> lt y z = false -> lt x z = false
}.

(** Ascending: no element must sort before one that stands earlier. *)
Definition ascending {E : Type} (lt : E -> E -> bool) (l : list E) : Prop :=
  forall i j x y, (i < j)%nat -> l !! i = Some x -> l !! j = Some y -> lt y x = false.

(** [sort.Sort]: "sorts data in ascending order as determined by the Less
    method. [...] The sort is not guaranteed to be stable." *)
Class SortPkg : Type := {
  sort_Sort : forall {T : Type}, Interface T -> T -> T
}.

(** The contract: given a lawful interface, the result holds the same
    elements and is ascending.  Nothing is promised on the order of
    elements neither of which must sort before the other. *)
Definition SortContract (SP : SortPkg) : Prop :=
  forall T E (I : Interface T) (view : T -> list E) lt,
    Lawful I view lt ->
    forall d, Permutation (view (sort_Sort I d)) (view d)
              /\ ascending lt (view (sort_Sort I d)).

(** ** rollingfile.go: the data *)

Definition rollingLogHistoryDelimiter : string := ".".

Inductive rollingType : Type := rollingTypeSize | rollingTypeTime.

(** [int64] arithmetic wraps around. *)
Definition wrap_int64 (z : Z) : Z := (z + 2 ^ 63) mod 2 ^ 64 - 2 ^ 63.

(** The struct [rollingFile].  [currentFile] is the descriptor behind the
    [*os.File], [None] for nil.  The field [self] is left out: its one
    value is the time hook, whose methods are called directly.  [maxRolls]
    is a Go [int]. *)
Record rollingFile : Type := mkRollingFile {
  fileName : string;
  currentDirPath : string;
  currentFile : option nat;
  currentName : string;
  currentFileSize : Z;
  rollingKind : rollingType;
  maxRolls : Z
}.

(** rollingfile_time_hook.go: [RollingFileTimeHook] with its embedded
    [*rollingFile]. *)
Record RollingFileTimeHook : Type := mkHook {
  rf : rollingFile;
  timePattern : string;
  currentTimeFileName : string
}.

Definition set_currentFile (f : option nat) (r : rollingFile) : rollingFile :=
  mkRollingFile (fileName r) (currentDirPath r) f (currentName r)
                (currentFileSize r) (rollingKind r) (maxRolls r).
Definition set_currentName (n : string) (r : rollingFile) : rollingFile :=
  mkRollingFile (fileName r) (currentDirPath r) (currentFile r) n
                (currentFileSize r) (rollingKind r) (maxRolls r).
Definition set_currentFileSize (z : Z) (r : rollingFile) : rollingFile :=
  mkRollingFile (fileName r) (currentDirPath r) (currentFile r) (currentName r)
                z (rollingKind r) (maxRolls r).
Definition set_rf (r : rollingFile) (h : RollingFileTimeHook) : RollingFileTimeHook :=
  mkHook r (timePattern h) (currentTimeFileName h).
Definition set_currentTimeFileName (n : string) (h : RollingFileTimeHook)
  : RollingFileTimeHook :=
  mkHook (rf h) (timePattern h) n.

(** [rollTimeFileTailsSlice] and its three methods. *)
Record rollTimeFileTailsSlice : Type := mkTails {
  data : list string;
  pattern : string
}.

(** The logging framework, as far as [Fire] touches it: the entry's logger
    has a formatter, and an output target that lives in the world
    ([w_out]). *)
Record Logger : Type := mkLogger {
  Formatter_Format : string -> list Byte.byte * option error
}.
Record Entry : Type := mkEntry {
  entry_Logger : Logger;
  entry_Message : string
}.

(** [filepath.Split(path)] on Unix: after the final slash. *)
Fixpoint filepath_Split (path : string) : string * string :=
  match path with
  | EmptyString => (EmptyString, EmptyString)
  | String c r =>
      let '(d, f) := filepath_Split r in
      if String.eqb d EmptyString then
        if Ascii.eqb c "/"%char then (String c EmptyString, r)
        else (EmptyString, String c r)
      else (String c d, f)
  end.

Definition newRollingFile (fpath : string) (rtype : rollingType) (maxr : Z)
  : rollingFile * option error :=
  let '(dir, file) := filepath_Split fpath in
  let dir := if (GoString.len dir =? 0) then "." else dir in
  (mkRollingFile file dir None "" 0 rtype maxr, None).

Definition NewRollingFileTimeHook (fpath timePattern : string) (maxroll : Z)
  : option RollingFileTimeHook * option error :=
  match newRollingFile fpath rollingTypeTime maxroll with
  | (_, Some err) => (None, Some err)
  | (r, None) => (Some (mkHook r timePattern ""), None)
  end.

(** The hook and the world it runs in. *)
Definition State : Type := RollingFileTimeHook * World.

Section Hook.

Context {TP : TimePkg} {SP : SortPkg}.

(** *** rollingfile_time_hook.go: the time policy *)

Definition needsToRoll (st : State) : bool * State :=
  let '(h, w) := st in
  let '(now, w) := OS.Now w in
  let newName := time_Format now (timePattern h) in
  if String.eqb (currentTimeFileName h) "" then
    (* first run; capture the current name *)
    (false, (set_currentTimeFileName newName h, w))
  else
    (negb (String.eqb newName (currentTimeFileName h)), (h, w)).

Definition isFileRollNameValid (h : RollingFileTimeHook) (rname : string) : bool :=
  if (GoString.len rname =? 0) then false
  else
    match time_ParseInLocation (timePattern h) rname with
    | Some _ => true
    | None => false
    end.

(** [t, _ := time.ParseInLocation(...)]: the error is dropped, the zero
    [Time] stands for what did not parse. *)
Definition parse_ignoring_error (pat s : string) : Z :=
  match time_ParseInLocation pat s with
  | Some t => t
  | None => zeroTime
  end.

Definition rollTimeFileTailsSlice_Len (p : rollTimeFileTailsSlice) : nat := length (data p).

(** [p.data[i]] panics out of range; [sort.Sort] stays in range, and the
    model answers [false] there. *)
Definition rollTimeFileTailsSlice_Less (p : rollTimeFileTailsSlice) (i j : nat) : bool :=
  match data p !! i, data p !! j with
  | Some si, Some sj =>
      let t1 := parse_ignoring_error (pattern p) si in
      let t2 := parse_ignoring_error (pattern p) sj in
      time_Before t1 t2
  | _, _ => false
  end.

Definition rollTimeFileTailsSlice_Swap (p : rollTimeFileTailsSlice) (i j : nat) : rollTimeFileTailsSlice :=
  match data p !! i, data p !! j with
  | Some si, Some sj => mkTails (<[i := sj]> (<[j := si]> (data p))) (pattern p)
  | _, _ => p
  end.

Definition tails_Interface : Interface rollTimeFileTailsSlice :=
  mkInterface rollTimeFileTailsSlice_Len rollTimeFileTailsSlice_Less rollTimeFileTailsSlice_Swap.

Definition sortFileRollNamesAsc (h : RollingFileTimeHook) (fs : list string)
  : list string * option error :=
  let ss := mkTails fs (timePattern h) in
  let ss := sort_Sort tails_Interface ss in
  (data ss, None).

Definition getNewHistoryRollFileName (otherHistoryFiles : list string) (st : State)
  : string * State :=
  let '(h, w) := st in
  let newFileName := currentTimeFileName h in
  let '(now, w) := OS.Now w in
  (newFileName, (set_currentTimeFileName (time_Format now (timePattern h)) h, w)).

Definition getCurrentFileName (h : RollingFileTimeHook) : string := fileName (rf h).

(** *** rollingfile.go: the rotation core *)

Definition hasRollName (r : rollingFile) (file : string) : bool :=
  let rname := fileName r +:+ rollingLogHistoryDelimiter in
  GoString.HasPrefix file rname.

Definition getFileRollName (r : rollingFile) (fileName' : string) : string :=
  GoString.slice_from (String.length (fileName r +:+ rollingLogHistoryDelimiter)) fileName'.

Definition createFullFileName (originalName rollname : string) : string :=
  originalName +:+ rollingLogHistoryDelimiter +:+ rollname.

(** The first loop of [getSortedLogHistory]. *)
Definition collect_validRollNames (h : RollingFileTimeHook) (files : list string)
  : list string :=
  fold_left
    (fun validRollNames file =>
       if hasRollName (rf h) file then
         let rname := getFileRollName (rf h) file in
         if isFileRollNameValid h rname then validRollNames ++ [rname]
         else validRollNames
       else validRollNames)
    files [].

Definition getSortedLogHistory (st : State) : list string * option error :=
  let '(h, w) := st in
  match getDirFilePaths (currentDirPath (rf h)) None true w with
  | (_, Some err) => ([], Some err)
  | (files, None) =>
      let validRollNames := collect_validRollNames h files in
      match sortFileRollNamesAsc h validRollNames with
      | (_, Some err) => ([], Some err)
      | (sortedTails, None) =>
          (map (createFullFileName (fileName (rf h))) sortedTails, None)
      end
  end.

(** The body of the loop of [deleteOldRolls], for one [i]. *)
Definition delete_one (history : list string) (w : World) (i : nat) : World :=
  match history !! i with
  | None => w
  | Some name =>
      match tryRemoveFile name w with
      | (Some err, w') =>
          log_stderr ("logrus rolling file hook internal error: "
                        +:+ error_Error err +:+ String "010"%char "") w'
      | (None, w') => w'
      end
  end.

Definition deleteOldRolls (r : rollingFile) (history : list string) (w : World)
  : option error * World :=
  if (maxRolls r <=? 0) then (None, w)
  else
    let rollsToDelete := Z.of_nat (length history) - maxRolls r in
    if (rollsToDelete <=? 0) then (None, w)
    else
      (* Try best to delete files without breaking the loop. *)
      (None, fold_left (delete_one history) (seq 0 (Z.to_nat rollsToDelete)) w).

Definition roll (st : State) : option error * State :=
  let '(h, w) := st in
  (* First, close current file. *)
  match OS.Close (currentFile (rf h)) w with
  | (Some err, w) => (Some err, (h, w))
  | (None, w) =>
      let h := set_rf (set_currentFile None (rf h)) h in
      match getSortedLogHistory (h, w) with
      | (_, Some err) => (Some err, (h, w))
      | (history, None) =>
          let '(rollname, (h, w)) := getNewHistoryRollFileName history (h, w) in
          let newHistoryName := createFullFileName (fileName (rf h)) rollname in
          match OS.Rename (currentName (rf h)) newHistoryName w with
          | (Some err, w) => (Some err, (h, w))
          | (None, w) =>
              let history := history ++ [newHistoryName] in
              if (Z.of_nat (length history) >? maxRolls (rf h)) then
                match deleteOldRolls (rf h) history w with
                | (Some err, w) => (Some err, (h, w))
                | (None, w) => (None, (h, w))
                end
              else (None, (h, w))
          end
      end
  end.

Definition createFileAndFolderIfNeeded (st : State) : option error * State :=
  let '(h, w) := st in
  let mk :=
    if negb (GoString.len (currentDirPath (rf h)) =? 0) then OS.MkdirAll w
    else (None, w) in
  match mk with
  | (Some err, w) => (Some err, (h, w))
  | (None, w) =>
      let h := set_rf (set_currentName (getCurrentFileName h) (rf h)) h in
      (* This will either open the existing file (without truncating it)
         or create if necessary. *)
      match OS.OpenFile (currentName (rf h))
              (Z.lor O_WRONLY (Z.lor O_APPEND O_CREATE)) defaultFilePermissions w with
      | (f, Some err, w) => (Some err, (set_rf (set_currentFile f (rf h)) h, w))
      | (None, None, w) => (Some ErrInvalid, (set_rf (set_currentFile None (rf h)) h, w))
      | (Some fd, None, w) =>
          let h := set_rf (set_currentFile (Some fd) (rf h)) h in
          match OS.StatSize fd w with
          | (_, Some err) =>
              let '(_, w) := OS.Close (Some fd) w in
              (Some err, (set_rf (set_currentFile None (rf h)) h, w))
          | (size, None) =>
              (None, (set_rf (set_currentFileSize size (rf h)) h, w))
          end
      end
  end.

Definition Close (st : State) : option error * State :=
  let '(h, w) := st in
  match currentFile (rf h) with
  | Some fd =>
      match OS.Close (Some fd) w with
      | (Some e, w) => (Some e, (h, w))
      | (None, w) => (None, (set_rf (set_currentFile None (rf h)) h, w))
      end
  | None => (None, (h, w))
  end.

(** *** rollingfile_time_hook.go: [Fire] *)

(** Lines 37 to 43: first time or rolling file. *)
Definition open_if_unset (st : State) : option error * State :=
  let '(h, w) := st in
  match currentFile (rf h) with
  | None =>
      match createFileAndFolderIfNeeded (h, w) with
      | (Some err, st) => (Some err, st)
      | (None, (h, w)) => (None, (h, set_out (currentFile (rf h)) w))
      end
  | Some _ => (None, (h, w))
  end.

(** Lines 45 to 51: the size bookkeeping. *)
Definition count_serialized (e : Entry) (st : State) : option error * State :=
  let '(h, w) := st in
  match Formatter_Format (entry_Logger e) (entry_Message e) with
  | (_, Some err) => (Some err, (h, w))
  | (serialized, None) =>
      let size := wrap_int64 (currentFileSize (rf h) + Z.of_nat (length serialized)) in
      (None, (set_rf (set_currentFileSize size (rf h)) h, w))
  end.

(** [Fire]; the lock [rollLock] it holds throughout has no counterpart in
    a sequential model. *)
Definition Fire (e : Entry) (st : State) : option error * State :=
  let '(need, st) := needsToRoll st in
  let rolled := if need then roll st else (None, st) in
  match rolled with
  | (Some err, st) => (Some err, st)
  | (None, st) =>
      match open_if_unset st with
      | (Some err, st) => (Some err, st)
      | (None, st) => count_serialized e st
      end
  end.

End Hook.

#[global] Arguments needsToRoll : simpl never.
#[global] Arguments sortFileRollNamesAsc : simpl never.
#[global] Arguments getNewHistoryRollFileName : simpl never.
#[global] Arguments getSortedLogHistory : simpl never.
#[global] Arguments deleteOldRolls : simpl never.
#[global] Arguments roll : simpl never.
#[global] Arguments createFileAndFolderIfNeeded : simpl never.
#[global] Arguments open_if_unset : simpl never.
#[global] Arguments count_serialized : simpl never.
#[global] Arguments Fire : simpl never.

(** ** An implementation of [sort.Sort]

    [quickSort] of Go's package [sort] (through Go 1.18) handles a range of
    at most 12 elements by one pass with gap 6 followed by
    [insertionSort]; both are transcribed on [sort.Interface].  The pair
    sorts a range of any length, which makes it an implementation of the
    contract for every input. *)

Module GoSort.

(** The inner loop of [insertionSort]:
    [for j := i; j > a && data.Less(j, j-1); j-- { data.Swap(j, j-1) }]. *)
Fixpoint insert_down {T : Type} (I : Interface T) (a j : nat) (d : T) : T :=
  match j with
  | O => d
  | S j' =>
      if (a <? j)%nat && Less I d j j' then insert_down I a j' (Swap I d j j')
      else d
  end.

(** [for i := a + 1; i < b; i++]. *)
Definition insertionSort {T : Type} (I : Interface T) (a b : nat) (d : T) : T :=
  fold_left (fun d i => insert_down I a i d) (seq (S a) (b - S a)) d.

(** [for i := a + 6; i < b; i++ { if data.Less(i, i-6) { data.Swap(i, i-6) } }]. *)
Definition gap_pass {T : Type} (I : Interface T) (a b : nat) (d : T) : T :=
  fold_left (fun d i => if Less I d i (i - 6) then Swap I d i (i - 6) else d)
            (seq (a + 6) (b - (a + 6))) d.

Definition Sort {T : Type} (I : Interface T) (d : T) : T :=
  let n := Len I d in
  if (1 <? n - 0)%nat then insertionSort I 0 n (gap_pass I 0 n d) else d.

End GoSort.

#[export] Instance GoSortPkg : SortPkg := {| sort_Sort := @GoSort.Sort |}.

(** ** An implementation of [time] for numeric layouts

    Layouts made of the reference-time elements [2006] (year), [01]
    (month), [02] (day), [15] (hour) and [04] (minute), separated by
    characters that start no layout element and are not spaces; the local
    time zone is UTC. *)

Module GoTime.

Inductive chunk : Type :=
| stdLongYear | stdZeroMonth | stdZeroDay | stdHour | stdZeroMinute
| literal (c : ascii).

Definition is2 (c1 c2 : ascii) (a b : ascii) : bool := Ascii.eqb c1 a && Ascii.eqb c2 b.

Fixpoint layout_chunks (layout : string) : list chunk :=
  match layout with
  | EmptyString => []
  | String c1 r1 =>
      match r1 with
      | EmptyString => [literal c1]
      | String c2 r2 =>
          if is2 c1 c2 "0" "1" then stdZeroMonth :: layout_chunks r2
          else if is2 c1 c2 "0" "2" then stdZeroDay :: layout_chunks r2
          else if is2 c1 c2 "1" "5" then stdHour :: layout_chunks r2
          else if is2 c1 c2 "0" "4" then stdZeroMinute :: layout_chunks r2
          else
            match r2 with
            | String c3 (String c4 r4) =>
                if is2 c1 c2 "2" "0" && is2 c3 c4 "0" "6"
                then stdLongYear :: layout_chunks r4
                else literal c1 :: layout_chunks r1
            | _ => literal c1 :: layout_chunks r1
            end
      end
  end.

(** The civil calendar (proleptic Gregorian), days counted from
    1970-01-01. *)
Definition days_from_civil (y m d : Z) : Z :=
  let y := if m <=? 2 then y - 1 else y in
  let era := y / 400 in
  let yoe := y - era * 400 in
  let doy := (153 * (if m >? 2 then m - 3 else m + 9) + 2) / 5 + d - 1 in
  let doe := yoe * 365 + yoe / 4 - yoe / 100 + doy in
  era * 146097 + doe - 719468.

Definition civil_from_days (z : Z) : Z * Z * Z :=
  let z := z + 719468 in
  let era := z / 146097 in
  let doe := z - era * 146097 in
  let yoe := (doe - doe / 1460 + doe / 36524 - doe / 146096) / 365 in
  let y := yoe + era * 400 in
  let doy := doe - (365 * yoe + yoe / 4 - yoe / 100) in
  let mp := (5 * doy + 2) / 153 in
  let d := doy - (153 * mp + 2) / 5 + 1 in
  let m := if mp <? 10 then mp + 3 else mp - 9 in
  (if m <=? 2 then y + 1 else y, m, d).

Definition isLeap (y : Z) : bool :=
  (y mod 4 =? 0) && (negb (y mod 100 =? 0) || (y mod 400 =? 0)).

Definition daysIn (m y : Z) : Z :=
  if m =? 2 then (if isLeap y then 29 else 28)
  else if (m =? 4) || (m =? 6) || (m =? 9) || (m =? 11) then 30
  else 31.

Definition digit_char (n : Z) : ascii := ascii_of_nat (48 + Z.to_nat (n mod 10)).

Definition digit_val (c : ascii) : option Z :=
  let n := Z.of_nat (nat_of_ascii c) in
  if (48 <=? n) && (n <=? 57) then Some (n - 48) else None.

Fixpoint digits (fuel : nat) (n : Z) (acc : string) : string :=
  match fuel with
  | O => acc
  | S fuel' =>
      let acc' := String (digit_char n) acc in
      if n / 10 =? 0 then acc' else digits fuel' (n / 10) acc'
  end.

Fixpoint zero_pad (k : nat) (s : string) : string :=
  match k with
  | O => s
  | S k' => String "0"%char (zero_pad k' s)
  end.

(** [appendInt(b, x, width)]. *)
Definition appendInt (x : Z) (width : nat) : string :=
  let s := digits (S (Z.to_nat (Z.log2 (Z.abs x)))) (Z.abs x) "" in
  let s := zero_pad (width - String.length s) s in
  if x <? 0 then String "-"%char s else s.

Definition format_chunk (t : Z) (c : chunk) : string :=
  let '(y, m, d) := civil_from_days (t / 86400) in
  let secs := t mod 86400 in
  match c with
  | stdLongYear => appendInt y 4
  | stdZeroMonth => appendInt m 2
  | stdZeroDay => appendInt d 2
  | stdHour => appendInt (secs / 3600) 2
  | stdZeroMinute => appendInt (secs mod 3600 / 60) 2
  | literal ch => String ch ""
  end.

Definition Format (t : Z) (layout : string) : string :=
  fold_right (fun c acc => format_chunk t c +:+ acc) "" (layout_chunks layout).

(** [getnum(s, fixed)]: one or two digits, two when [fixed]. *)
Definition getnum (s : string) (fixed : bool) : option (Z * string) :=
  match s with
  | String c1 r1 =>
      match digit_val c1 with
      | None => None
      | Some d1 =>
          match r1 with
          | String c2 r2 =>
              match digit_val c2 with
              | Some d2 => Some (d1 * 10 + d2, r2)
              | None => if fixed then None else Some (d1, r1)
              end
          | EmptyString => if fixed then None else Some (d1, r1)
          end
      end
  | EmptyString => None
  end.

Definition get4 (s : string) : option (Z * string) :=
  match s with
  | String c1 (String c2 (String c3 (String c4 r))) =>
      match digit_val c1, digit_val c2, digit_val c3, digit_val c4 with
      | Some d1, Some d2, Some d3, Some d4 =>
          Some (d1 * 1000 + d2 * 100 + d3 * 10 + d4, r)
      | _, _, _, _ => None
      end
  | _ => None
  end.

(** The fields a value has set so far; what the layout leaves out is zero
    or, when zero is impossible, one. *)
Record fields : Type := mkFields {
  f_year : Z; f_month : Z; f_day : Z; f_hour : Z; f_min : Z
}.

Fixpoint parse_chunks (cs : list chunk) (value : string) (f : fields) : option fields :=
  match cs with
  | [] => if String.eqb value "" then Some f else None
  | c :: cs' =>
      match c with
      | stdLongYear =>
          match get4 value with
          | Some (y, rest) =>
              parse_chunks cs' rest (mkFields y (f_month f) (f_day f) (f_hour f) (f_min f))
          | None => None
          end
      | stdZeroMonth =>
          match getnum value true with
          | Some (m, rest) =>
              if (m <=? 0) || (12 <? m) then None
              else parse_chunks cs' rest (mkFields (f_year f) m (f_day f) (f_hour f) (f_min f))
          | None => None
          end
      | stdZeroDay =>
          match getnum value true with
          | Some (d, rest) =>
              parse_chunks cs' rest (mkFields (f_year f) (f_month f) d (f_hour f) (f_min f))
          | None => None
          end
      | stdHour =>
          match getnum value false with
          | Some (h, rest) =>
              if (24 <=? h) then None
              else parse_chunks cs' rest (mkFields (f_year f) (f_month f) (f_day f) h (f_min f))
          | None => None
          end
      | stdZeroMinute =>
          match getnum value true with
          | Some (mi, rest) =>
              if (60 <=? mi) then None
              else parse_chunks cs' rest (mkFields (f_year f) (f_month f) (f_day f) (f_hour f) mi)
          | None => None
          end
      | literal ch =>
          match value with
          | String v rest => if Ascii.eqb v ch then parse_chunks cs' rest f else None
          | EmptyString => None
          end
      end
  end.

Definition ParseInLocation (layout value : string) : option Z :=
  match parse_chunks (layout_chunks layout) value (mkFields 0 1 1 0 0) with
  | None => None
  | Some f =>
      if (f_day f <? 1) || (daysIn (f_month f) (f_year f) <? f_day f) then None
      else Some (days_from_civil (f_year f) (f_month f) (f_day f) * 86400
                 + f_hour f * 3600 + f_min f * 60)
  end.

End GoTime.

#[export] Instance GoTimePkg : TimePkg :=
  {| time_Format := GoTime.Format; time_ParseInLocation := GoTime.ParseInLocation |}.

(** ** Runs of the hook *)

(** After the hooks the framework serializes the entry once more and writes
    it to [Logger.Out]. *)
Definition Logger_write (e : Entry) (w : World) : World :=
  match Formatter_Format (entry_Logger e) (entry_Message e) with
  | (serialized, None) => snd (OS.Write (w_out w) serialized w)
  | (_, Some _) => w
  end.

(** One log call at time [t]: the environment moves the clock to [t], the
    framework fires the hook and writes the entry. *)
Definition emit_at {TP : TimePkg} {SP : SortPkg} (e : Entry) (t : Z) (st : State)
  : option error * State :=
  let '(err, (h, w)) := Fire e (fst st, set_clock t [] (snd st)) in
  (err, (h, Logger_write e w)).

(** One log call during which the clock moves on: the readings of
    [time.Now()] inside the call are [ts], one after the other. *)
Definition emit_over {TP : TimePkg} {SP : SortPkg} (e : Entry) (ts : list Z) (st : State)
  : option error * State :=
  let '(err, (h, w)) := Fire e (fst st, set_clock (w_now (snd st)) ts (snd st)) in
  (err, (h, Logger_write e w)).

Fixpoint emit_all {TP : TimePkg} {SP : SortPkg} (es : list (Z * Entry)) (st : State)
  : list (option error) * State :=
  match es with
  | [] => ([], st)
  | (t, e) :: es' =>
      let '(err, st) := emit_at e t st in
      let '(errs, st) := emit_all es' st in
      (err :: errs, st)
  end.

(** The renames and removals that succeeded, and the removals that were
    attempted, in the order of the calls. *)
Definition renamed (tr : list Event) : list (string * string) :=
  omap (fun ev => match ev with EvRename o n None => Some (o, n) | _ => None end) tr.

Definition removed (tr : list Event) : list string :=
  omap (fun ev => match ev with EvRemove n None => Some n | _ => None end) tr.

Definition remove_attempts (tr : list Event) : list string :=
  omap (fun ev => match ev with EvRemove n _ => Some n | _ => None end) tr.

(** The buckets a sequence of labels passes through: runs of equal labels
    count once. *)
Fixpoint runs (labels : list string) : list string :=
  match labels with
  | [] => []
  | x :: r =>
      match r with
      | [] => [x]
      | y :: _ => if String.eqb x y then runs r else x :: runs r
      end
  end.

(** A sort is stable when elements of equal key come out in the order they
    went in. *)
Definition stable_on {A : Type} (key : A -> Z) (input output : list A) : Prop :=
  forall k, filter (fun a => key a = k) output = filter (fun a => key a = k) input.

(** The names a directory holds, in directory order. *)
Definition listing (w : World) : list string :=
  match w_dir w with
  | Some d => map fst (map_to_list d)
  | None => []
  end.

(** Worlds and entries to run the hook on. *)
Definition regular (content : string) : Node :=
  mkNode defaultFilePermissions (String.list_byte_of_string content).

Definition subdirectory : Node := mkNode (Z.lor ModeDir defaultDirectoryPermissions) [].

Definition world_at (d : option (gmap string Node)) (t : Z) : World :=
  mkWorld d ∅ 3 None t [] "/srv/app" no_fault [] [] ∅.

Definition failing (s : Syscall) (e : error) : Syscall -> option error :=
  fun s' =>
    match s, s' with
    | SysOpenDir, SysOpenDir | SysGetwd, SysGetwd | SysClose, SysClose
    | SysRename, SysRename | SysMkdirAll, SysMkdirAll
    | SysOpenFile, SysOpenFile | SysStat, SysStat => Some e
    | SysReaddir a, SysReaddir b => if (a =? b)%nat then Some e else None
    | SysRemove a, SysRemove b => if String.eqb a b then Some e else None
    | _, _ => None
    end.

Definition text_entry (msg : string) : Entry :=
  mkEntry (mkLogger (fun m => (String.list_byte_of_string (m +:+ String "010"%char ""), None)))
          msg.

(** The hook [NewRollingFileTimeHook] returns (it never fails). *)
Definition new_hook (fpath timePattern : string) (maxroll : Z) : RollingFileTimeHook :=
  match NewRollingFileTimeHook fpath timePattern maxroll with
  | (Some h, _) => h
  | (None, _) => mkHook (mkRollingFile "" "" None "" 0 rollingTypeTime maxroll) timePattern ""
  end.

(** Noon of 2024-01-01, and the length of a day. *)
Definition day1 : Z := 1704110400.
Definition day : Z := 86400.

(** One log call a day on three days in a fresh directory, with [maxroll]
    history files allowed; and the fourth day has come. *)
Definition after_three_days (maxroll : Z) : State :=
  snd (emit_all [(day1, text_entry "one"); (day1 + day, text_entry "two");
                 (day1 + 2 * day, text_entry "three")]
                (new_hook "./test.log" "2006-01-02" maxroll, world_at None day1)).

Definition fourth_day (maxroll : Z) : State :=
  (fst (after_three_days maxroll),
   set_clock (day1 + 3 * day) [] (snd (after_three_days maxroll))).

(** The same hook with another retention limit. *)
Definition with_maxRolls (maxroll : Z) (h : RollingFileTimeHook) : RollingFileTimeHook :=
  set_rf (mkRollingFile (fileName (rf h)) (currentDirPath (rf h)) (currentFile (rf h))
                        (currentName (rf h)) (currentFileSize (rf h)) (rollingKind (rf h))
                        maxroll) h.

(** A first log call on day one; on day two the directory cannot be opened
    when the hook rolls, and the log call fails; after that the file system
    is in order again. *)
Definition after_failed_scan : State :=
  let st1 := snd (emit_at (text_entry "one") day1
                          (new_hook "./test.log" "2006-01-02" 5, world_at None day1)) in
  let st2 := snd (emit_at (text_entry "two") (day1 + day)
                          (fst st1, set_fault (failing SysOpenDir ErrPermission) (snd st1))) in
  (fst st2, set_fault no_fault (snd st2)).

(** ** Vocabulary of the statements *)

Section Vocabulary.

Context {TP : TimePkg} {SP : SortPkg}.

(** What a directory holds under a name; nothing when it is absent. *)
Definition entry (w : World) (name : string) : option Node :=
  match w_dir w with
  | Some d => d !! name
  | None => None
  end.

(** The line [deleteOldRolls] prints for a failed removal. *)
Definition stderr_line (err : error) : string :=
  "logrus rolling file hook internal error: " +:+ error_Error err +:+ String "010"%char "".

(** The failures among the removals of a trace that [tryRemoveFile] does
    not forgive. *)
Definition remove_failures (tr : list Event) : list error :=
  omap (fun ev =>
          match ev with
          | EvRemove _ (Some e) => if os_IsNotExist (Some e) then None else Some e
          | _ => None
          end) tr.

(** One turn of the loop of [deleteOldRolls], on the name it removes. *)
Definition remove_step (w : World) (name : string) : World :=
  match tryRemoveFile name w with
  | (Some err, w') => log_stderr (stderr_line err) w'
  | (None, w') => w'
  end.

(** The directory after a removal that answered [res]. *)
Definition dir_after_remove (res : option error) (name : string)
  (dir : option (gmap string Node)) : option (gmap string Node) :=
  match res with
  | Some _ => dir
  | None => delete name <$> dir
  end.

(** The names [deleteOldRolls] tries to remove: the
    first [len(history) - maxRolls] of the history. *)
Definition to_delete (r : rollingFile) (history : list string) : list string :=
  if maxRolls r <=? 0 then []
  else take (Z.to_nat (Z.of_nat (length history) - maxRolls r)) history.

(** Two worlds with the same directory, side channels and failures; they
    may differ in descriptors, clock and output target. *)
Definition same_files (w w' : World) : Prop :=
  w_dir w' = w_dir w /\ w_trace w' = w_trace w /\ w_stderr w' = w_stderr w
  /\ w_fault w' = w_fault w /\ w_cwd w' = w_cwd w.

(** The directory after a rename that answered [res]. *)
Definition dir_after_rename (res : option error) (oldname newname : string)
  (dir : option (gmap string Node)) : option (gmap string Node) :=
  match res, dir with
  | None, Some d =>
      match d !! oldname with
      | Some n => Some (<[newname := n]> (delete oldname d))
      | None => Some d
      end
  | _, _ => dir
  end.

(** Two failure plans that agree on every call but [os.Remove]. *)
Definition agree_off_removals (f g : Syscall -> option error) : Prop :=
  forall s, (forall n, s <> SysRemove n) -> f s = g s.

(** Exchanging two positions of a list. *)
Definition swap_list {E : Type} (l : list E) (i j : nat) : list E :=
  match l !! i, l !! j with
  | Some x, Some y => <[i := y]> (<[j := x]> l)
  | _, _ => l
  end.

(** The slice as [sort.Sort] sees it: every suffix with the pattern it is
    parsed under. *)
Definition tails_view (p : rollTimeFileTailsSlice) : list (string * string) :=
  map (pair (pattern p)) (data p).

(** The order of [Less] on the elements of [tails_view]. *)
Definition tails_lt (a b : string * string) : bool :=
  time_Before (parse_ignoring_error (fst a) (snd a)) (parse_ignoring_error (fst b) (snd b)).

(** The first loop of [getSortedLogHistory], as a map over the files. *)
Definition validRollName (h : RollingFileTimeHook) (file : string) : option string :=
  if hasRollName (rf h) file then
    if isFileRollNameValid h (getFileRollName (rf h) file)
    then Some (getFileRollName (rf h) file) else None
  else None.

(** A file of the directory is a history file of the policy when it has the
    roll name prefix and a valid suffix. *)
Definition is_history (h : RollingFileTimeHook) (file : string) : Prop :=
  is_Some (validRollName h file).

(** The key the policy orders a history file by. *)
Definition history_key (h : RollingFileTimeHook) (name : string) : Z :=
  parse_ignoring_error (timePattern h) (getFileRollName (rf h) name).

(** What a completed roll has pruned: the history list is the
    reconstructed history, ascending by key, followed by the new history
    name; when it is longer than the limit, the entries in front of the
    last [maxRolls] have been removed, one successful removal each, all of
    them from the reconstructed history, and the last [maxRolls] entries
    are on disk. *)
Definition pruned_front (h : RollingFileTimeHook) (w w' : World) : Prop :=
  let newHistoryName := createFullFileName (fileName (rf h)) (currentTimeFileName h) in
  exists history,
    getSortedLogHistory (h, w) = (history, None)
    /\ (forall i j a b, (i < j)%nat -> history !! i = Some a -> history !! j = Some b ->
                        history_key h a <= history_key h b)
    /\ let all := history ++ [newHistoryName] in
       let k := (length all - Z.to_nat (maxRolls (rf h)))%nat in
       (Z.of_nat (length all) > maxRolls (rf h) ->
        removed (w_trace w') = removed (w_trace w) ++ take k all
        /\ take k all = take k history
        /\ length (take k all) = k
        /\ length (drop k all) = Z.to_nat (maxRolls (rf h))
        /\ NoDup all
        /\ (forall name, name ∈ take k all -> entry w' name = None)
        /\ (forall name, name ∈ drop k all -> is_Some (entry w' name))).

(** The node the active file is after [os.OpenFile] with
    [O_WRONLY|O_APPEND|O_CREATE]: the one that was there, or a new empty
    one. *)
Definition opened_node (existing : option Node) : Node :=
  match existing with
  | Some n => n
  | None => mkNode defaultFilePermissions []
  end.

(** The descriptor was opened with [O_APPEND]: what is written through
    it goes behind the end of the file. *)
Definition appends (w : World) (fd : nat) : bool :=
  match w_desc w !! fd with
  | Some (flag, _) => negb (Z.land flag O_APPEND =? 0)
  | None => false
  end.

(** Two hooks with the same configuration. *)
Definition same_config (h h' : RollingFileTimeHook) : Prop :=
  fileName (rf h') = fileName (rf h)
  /\ currentDirPath (rf h') = currentDirPath (rf h)
  /\ maxRolls (rf h') = maxRolls (rf h)
  /\ timePattern h' = timePattern h.

(** A file system the hook can work on: no call fails, the hook has a
    directory path, and nothing that stands where the active file or a
    history file goes is a directory. *)
Definition healthy (h : RollingFileTimeHook) (w : World) : Prop :=
  (forall s, w_fault w s = None)
  /\ currentDirPath (rf h) <> ""
  /\ (forall name n,
         entry w name = Some n ->
         name = fileName (rf h) \/ hasRollName (rf h) name = true ->
         OS.isDir n = false).

(** A hook that has not been fired yet. *)
Definition fresh (h : RollingFileTimeHook) : Prop :=
  currentFile (rf h) = None /\ currentTimeFileName h = "".

(** A hook that is writing the bucket of label [c]. *)
Definition writing (c : string) (h : RollingFileTimeHook) (w : World) : Prop :=
  exists fd,
    currentFile (rf h) = Some fd
    /\ w_open w !! fd = Some (fileName (rf h))
    /\ currentName (rf h) = fileName (rf h)
    /\ is_Some (entry w (fileName (rf h)))
    /\ currentTimeFileName h = c
    /\ c <> "".

(** The buckets that are completed when a hook that writes bucket [c] sees
    the labels one after the other. *)
Fixpoint completed (c : string) (labels : list string) : list string :=
  match labels with
  | [] => []
  | l :: r => if String.eqb l c then completed c r else c :: completed l r
  end.

(** The labels of a sequence of log calls. *)
Definition labels_of (h : RollingFileTimeHook) (es : list (Z * Entry)) : list string :=
  map (fun te => time_Format (fst te) (timePattern h)) es.

End Vocabulary.

(** ** Vocabulary of the further properties *)

Section FurtherVocabulary.

Context {TP : TimePkg} {SP : SortPkg}.

(** The path separator. *)
Definition separator : ascii := "/"%char.

(** The regular files of a directory, in directory order. *)
Definition regular_names (d : gmap string Node) : list string :=
  map fst (filter (fun kv => isRegular (n_mode (snd kv)) = true) (map_to_list d)).

(** The path [getDirFilePaths] gives for the entry [name]: the name
    itself when [pathIsName], else the name joined to the absolute
    directory path. *)
Definition reported_path (dirPath : string) (pathIsName : bool) (w : World)
  (name : string) : string :=
  if pathIsName then name
  else OS.Join (if OS.IsAbs dirPath then dirPath else OS.Join (w_cwd w) dirPath) name.

(** [fpFilter == nil || fpFilter(fp)]. *)
Definition passes (fpFilter : option (string -> bool)) (fp : string) : bool :=
  match fpFilter with
  | Some flt => flt fp
  | None => true
  end.

(** The bits of [os.ModeType]: directory, symbolic link, device, named
    pipe, socket, character device, irregular. *)
Definition type_bits : list Z := [31; 27; 26; 25; 24; 21; 19].

(** A directory of [n] empty regular files. *)
Definition numbered_files (n : nat) : gmap string Node :=
  list_to_map (map (fun i => ("test.log." +:+ GoTime.appendInt (Z.of_nat i) 3, regular ""))
                   (seq 0 n)).

(** What the formatter makes of an entry. *)
Definition serialized (e : Entry) : list Byte.byte :=
  fst (Formatter_Format (entry_Logger e) (entry_Message e)).

(** The hook and the framework write to the active file through a
    descriptor opened with [O_APPEND], as [createFileAndFolderIfNeeded]
    opens it, and the hook's count is the length of that file. *)
Definition in_sync (h : RollingFileTimeHook) (w : World) : Prop :=
  exists fd n,
    currentFile (rf h) = Some fd
    /\ w_out w = Some fd
    /\ w_open w !! fd = Some (fileName (rf h))
    /\ entry w (fileName (rf h)) = Some n
    /\ currentFileSize (rf h) = Z.of_nat (length (n_data n))
    /\ appends w fd = true.

(** The active file can be opened: the three calls of
    [createFileAndFolderIfNeeded] are not made to fail, the hook has a
    directory path, and what stands under the name of the active file is
    not a directory. *)
Definition can_open (h : RollingFileTimeHook) (w : World) : Prop :=
  w_fault w SysMkdirAll = None
  /\ w_fault w SysOpenFile = None
  /\ w_fault w SysStat = None
  /\ currentDirPath (rf h) <> ""
  /\ (forall n, entry w (fileName (rf h)) = Some n -> OS.isDir n = false).

(** The directory can be scanned: opening it, resolving its path and
    reading it are not made to fail. *)
Definition can_scan (w : World) : Prop :=
  w_fault w SysOpenDir = None
  /\ w_fault w SysGetwd = None
  /\ (forall k, w_fault w (SysReaddir k) = None).

End FurtherVocabulary.

(** A first log call at noon of 2024-01-01 in a fresh directory: the
    hook holds the active file, which holds the entry. *)
Definition after_first_call : State :=
  snd (emit_at (text_entry "one") day1
               (new_hook "./test.log" "2006-01-02" 5, world_at None day1)).

(** A line feed. *)
Definition LF : string := String "010"%char "".

(** * Verification *)

(** ** Strings *)

Lemma HasPrefix_app (p r : string) : GoString.HasPrefix (p +:+ r) p = true.
Proof.
  unfold GoString.HasPrefix. induction p as [|c p IH]; simpl.
  - destruct r; reflexivity.
  - destruct (ascii_dec c c); [exact IH | congruence].
Qed.

Lemma HasPrefix_inv (s p : string) :
  GoString.HasPrefix s p = true -> exists r, s = p +:+ r.
Proof.
  unfold GoString.HasPrefix. revert s. induction p as [|c p IH]; intros s H.
  - exists s. reflexivity.
  - destruct s as [|c' s]; simpl in H; [discriminate|].
    destruct (ascii_dec c c'); [|discriminate]. subst c'.
    destruct (IH s H) as [r ->]. exists r. reflexivity.
Qed.

Lemma slice_from_app (p r : string) :
  GoString.slice_from (String.length p) (p +:+ r) = r.
Proof. induction p; simpl; auto. Qed.

Lemma string_app_inv_head (p r1 r2 : string) : p +:+ r1 = p +:+ r2 -> r1 = r2.
Proof. induction p; simpl; intros H; [exact H | injection H; auto]. Qed.

Lemma string_app_cons (c : ascii) (a b : string) : String c a +:+ b = String c (a +:+ b).
Proof. reflexivity. Qed.

Lemma string_app_assoc (a b c : string) : (a +:+ b) +:+ c = a +:+ (b +:+ c).
Proof.
  induction a as [|x a IH]; [done|].
  by rewrite !string_app_cons, IH.
Qed.

(** ** The directory scanner *)

Lemma collect_chunk_names (absDirPath : string) (fis : list FileInfo) (acc : list string) :
  collect_chunk absDirPath None true fis acc
  = acc ++ map fi_Name (filter (fun fi => isRegular (fi_Mode fi) = true) fis).
Proof.
  unfold collect_chunk. revert acc.
  induction fis as [|fi fis IH]; intros acc; simpl.
  - by rewrite app_nil_r.
  - rewrite IH. rewrite filter_cons. destruct (isRegular (fi_Mode fi)) eqn:E.
    + rewrite decide_True by done. simpl. by rewrite <- app_assoc.
    + rewrite decide_False by congruence. done.
Qed.

Lemma rbs_eq : rbs = 64%nat.
Proof. reflexivity. Qed.

Lemma read_loop_S (fuel : nat) (absDirPath : string) (flt : option (string -> bool))
  (pathIsName : bool) (chunk : nat) (rest : list FileInfo) (acc : list string) (w : World) :
  read_loop (S fuel) absDirPath flt pathIsName chunk rest acc w
  = match OS.Readdir rbs chunk rest w with
    | (fis, None, rest') =>
        read_loop fuel absDirPath flt pathIsName (S chunk) rest'
                  (collect_chunk absDirPath flt pathIsName fis acc) w
    | (_, Some e, _) => if is_EOF e then Some (acc, None) else Some ([], Some e)
    end.
Proof. reflexivity. Qed.

(** The fuel is enough: the loop ends by itself when it has more turns
    than there are entries left. *)
Lemma read_loop_total (fuel : nat) (absDirPath : string) (flt : option (string -> bool))
  (pathIsName : bool) (chunk : nat) (rest : list FileInfo) (acc : list string) (w : World) :
  (length rest < fuel)%nat ->
  is_Some (read_loop fuel absDirPath flt pathIsName chunk rest acc w).
Proof.
  revert chunk rest acc.
  induction fuel as [|fuel IH]; intros chunk rest acc Hlt; [lia|].
  rewrite read_loop_S. unfold OS.Readdir.
  destruct (w_fault w (SysReaddir chunk)) as [e|].
  - destruct (is_EOF e); eauto.
  - destruct rest as [|fi rest]; [simpl; eauto|].
    apply IH. simpl in Hlt. rewrite rbs_eq, length_skipn. simpl. lia.
Qed.

Lemma read_loop_names (fuel : nat) (absDirPath : string) (chunk : nat)
  (rest : list FileInfo) (acc : list string) (w : World) :
  (forall k, w_fault w (SysReaddir k) = None) ->
  (length rest < fuel)%nat ->
  read_loop fuel absDirPath None true chunk rest acc w
  = Some (acc ++ map fi_Name (filter (fun fi => isRegular (fi_Mode fi) = true) rest), None).
Proof.
  intros Hf. revert chunk rest acc.
  induction fuel as [|fuel IH]; intros chunk rest acc Hlt; [lia|].
  rewrite read_loop_S. unfold OS.Readdir. rewrite Hf.
  destruct rest as [|fi rest].
  - simpl. by rewrite app_nil_r.
  - cbv iota. rewrite IH.
    + rewrite collect_chunk_names. rewrite <- app_assoc. f_equal. f_equal.
      rewrite <- map_app. f_equal. rewrite <- filter_app.
      by rewrite firstn_skipn.
    + rewrite rbs_eq, length_skipn. simpl in Hlt. simpl length. lia.
Qed.

(** Without failures a scan in name-only mode lists the regular files of
    the directory. *)
Lemma getDirFilePaths_names (dirPath : string) (w : World) (d : gmap string Node) :
  w_dir w = Some d ->
  (forall s, w_fault w s = None) ->
  getDirFilePaths dirPath None true w
  = (map fst (filter (fun kv => isRegular (n_mode (snd kv)) = true) (map_to_list d)), None).
Proof.
  intros Hd Hf. unfold getDirFilePaths, OS.OpenDir, OS.Abs. rewrite !Hf, Hd.
  set (dfi := map _ (map_to_list d)).
  assert (Hnames : map fi_Name (filter (fun fi => isRegular (fi_Mode fi) = true) dfi)
                   = map fst (filter (fun kv => isRegular (n_mode (snd kv)) = true)
                                     (map_to_list d))).
  { subst dfi. induction (map_to_list d) as [|kv l IH]; [done|].
    simpl. rewrite !filter_cons. simpl.
    destruct (decide (isRegular (n_mode (snd kv)) = true)); simpl; by rewrite IH. }
  destruct (negb (OS.IsAbs dirPath));
    rewrite read_loop_names by (auto; lia); simpl; by rewrite Hnames.
Qed.

(** ** Removing files *)

Lemma delete_one_step (history : list string) (w : World) (i : nat) (name : string) :
  history !! i = Some name -> delete_one history w i = remove_step w name.
Proof. intros H. unfold delete_one, remove_step, stderr_line. by rewrite H. Qed.

Lemma delete_loop_steps (history : list string) (k : nat) (w : World) :
  (k <= length history)%nat ->
  fold_left (delete_one history) (seq 0 k) w = fold_left remove_step (take k history) w.
Proof.
  induction k as [|k IH]; intros Hk; [done|].
  destruct (lookup_lt_is_Some_2 history k ltac:(lia)) as [name Hname].
  rewrite seq_S, fold_left_app, (take_S_r _ _ _ Hname), fold_left_app, IH by lia.
  simpl. by apply delete_one_step.
Qed.

Lemma Remove_result (name : string) (w : World) :
  exists res,
    OS.Remove name w
    = (res, log_event (EvRemove name res) (set_dir (dir_after_remove res name (w_dir w)) w)).
Proof.
  unfold OS.Remove.
  destruct (w_fault w (SysRemove name)) as [e|]; [by exists (Some e)|].
  destruct (w_dir w) as [d|] eqn:Hd; [|by exists (Some ErrNotExist)].
  destruct (d !! name); [by exists None | by exists (Some ErrNotExist)].
Qed.

(** A removal with no injected failure leaves the directory without the
    name, whether the file was there or not. *)
Lemma Remove_no_fault (name : string) (w : World) :
  w_fault w (SysRemove name) = None ->
  w_dir (snd (OS.Remove name w)) = delete name <$> w_dir w
  /\ (fst (OS.Remove name w) = None \/ fst (OS.Remove name w) = Some ErrNotExist)
  /\ (is_Some (entry w name) -> fst (OS.Remove name w) = None).
Proof.
  intros Hf. unfold OS.Remove, entry. rewrite Hf.
  destruct (w_dir w) as [d|] eqn:Hd; simpl.
  - destruct (d !! name) as [n|] eqn:Hn; simpl.
    + split; [done|]. split; [by left | done].
    + split; [by rewrite delete_id|]. split; [by right | by intros [? ?]].
  - split; [done|]. split; [by right | by intros [? ?]].
Qed.

Lemma remove_step_frame (w : World) (name : string) :
  let w' := remove_step w name in
  w_open w' = w_open w /\ w_next w' = w_next w /\ w_out w' = w_out w
  /\ w_now w' = w_now w /\ w_ticks w' = w_ticks w /\ w_fault w' = w_fault w.
Proof.
  unfold remove_step, tryRemoveFile.
  destruct (Remove_result name w) as [res ->].
  destruct res as [[]|]; simpl; tauto.
Qed.

Lemma remove_step_trace (w : World) (name : string) :
  exists res,
    w_trace (remove_step w name) = w_trace w ++ [EvRemove name res]
    /\ w_stderr (remove_step w name)
       = w_stderr w ++ map stderr_line (remove_failures [EvRemove name res]).
Proof.
  unfold remove_step, tryRemoveFile.
  destruct (Remove_result name w) as [res ->]. exists res.
  destruct res as [[]|]; simpl; by rewrite ?app_nil_r.
Qed.

Lemma remove_step_entry (w : World) (name other : string) :
  entry (remove_step w name) other = entry w other
  \/ (other = name /\ entry (remove_step w name) other = None).
Proof.
  unfold remove_step, tryRemoveFile.
  destruct (Remove_result name w) as [res ->].
  assert (H : forall w0, entry (set_dir (dir_after_remove res name (w_dir w)) w0) other
                         = entry w other
                         \/ other = name
                            /\ entry (set_dir (dir_after_remove res name (w_dir w)) w0) other
                               = None).
  { intros w0. unfold entry. simpl. destruct res; [by left|]. simpl.
    destruct (w_dir w) as [d|]; simpl; [|by left].
    destruct (decide (other = name)) as [->|Hne].
    - right. by rewrite lookup_delete_eq.
    - left. by rewrite lookup_delete_ne. }
  destruct res as [[]|]; simpl; apply (H w).
Qed.

(** The whole loop: every name is tried, whatever fails before it. *)
Lemma remove_loop_trace (names : list string) (w : World) :
  let w' := fold_left remove_step names w in
  remove_attempts (w_trace w') = remove_attempts (w_trace w) ++ names
  /\ renamed (w_trace w') = renamed (w_trace w)
  /\ exists failed,
       remove_failures (w_trace w') = remove_failures (w_trace w) ++ failed
       /\ w_stderr w' = w_stderr w ++ map stderr_line failed.
Proof.
  revert w. induction names as [|name names IH]; intros w; simpl.
  - rewrite app_nil_r. split; [done|]. split; [done|]. exists []. by rewrite !app_nil_r.
  - destruct (IH (remove_step w name)) as (Ha & Hr & failed & Hf & Hs).
    destruct (remove_step_trace w name) as (res & Ht & Hs1).
    rewrite Ha, Hr, Hf, Hs, Ht, Hs1.
    unfold remove_attempts, renamed, remove_failures. rewrite !omap_app. simpl.
    split; [by rewrite <- app_assoc|]. split; [by rewrite app_nil_r|].
    eexists (_ ++ failed). split; [by rewrite app_assoc|].
    by rewrite map_app, app_assoc.
Qed.

Lemma remove_loop_frame (names : list string) (w : World) :
  let w' := fold_left remove_step names w in
  w_open w' = w_open w /\ w_next w' = w_next w /\ w_out w' = w_out w
  /\ w_now w' = w_now w /\ w_ticks w' = w_ticks w /\ w_fault w' = w_fault w.
Proof.
  revert w. induction names as [|name names IH]; intros w; simpl; [tauto|].
  destruct (IH (remove_step w name)) as (-> & -> & -> & -> & -> & ->).
  apply remove_step_frame.
Qed.

Lemma remove_loop_entry (names : list string) (w : World) (other : string) :
  let w' := fold_left remove_step names w in
  entry w' other = entry w other \/ (other ∈ names /\ entry w' other = None).
Proof.
  revert w. induction names as [|name names IH]; intros w; simpl; [by left|].
  destruct (IH (remove_step w name)) as [H|[Hin H]].
  - rewrite H. destruct (remove_step_entry w name other) as [H1|[-> H1]].
    + by left.
    + right. split; [by left|].
      (* once gone, later removals cannot bring the entry back *)
      by rewrite H1 in H.
  - right. split; [by right | done].
Qed.

Lemma deleteOldRolls_eq (r : rollingFile) (history : list string) (w : World) :
  deleteOldRolls r history w = (None, fold_left remove_step (to_delete r history) w).
Proof.
  unfold deleteOldRolls, to_delete.
  destruct (maxRolls r <=? 0) eqn:E1; [done|].
  destruct (Z.of_nat (length history) - maxRolls r <=? 0) eqn:E2.
  - apply Z.leb_le in E2.
    by replace (Z.to_nat (Z.of_nat (length history) - maxRolls r)) with 0%nat by lia.
  - rewrite delete_loop_steps; [done|]. apply Z.leb_gt in E1, E2. lia.
Qed.

(** ** System calls: what they leave alone *)

Lemma same_files_refl (w : World) : same_files w w.
Proof. by unfold same_files. Qed.

Lemma same_files_trans (w1 w2 w3 : World) :
  same_files w1 w2 -> same_files w2 w3 -> same_files w1 w3.
Proof. unfold same_files. intros (-> & -> & -> & -> & ->) (-> & -> & -> & -> & ->). done. Qed.

Lemma Now_same_files (w : World) : same_files w (snd (OS.Now w)).
Proof. unfold OS.Now. by destruct (w_ticks w). Qed.

Lemma Close_same_files (f : option nat) (w : World) : same_files w (snd (OS.Close f w)).
Proof.
  unfold OS.Close. destruct f as [fd|]; [|done].
  by destruct (w_open w !! fd).
Qed.

Lemma entry_same_files (w w' : World) (name : string) :
  same_files w w' -> entry w' name = entry w name.
Proof. intros (Hd & _). unfold entry. by rewrite Hd. Qed.

Lemma read_loop_ext (fuel : nat) (absDirPath : string) (flt : option (string -> bool))
  (pathIsName : bool) (chunk : nat) (rest : list FileInfo) (acc : list string) (w w' : World) :
  (forall k, w_fault w' (SysReaddir k) = w_fault w (SysReaddir k)) ->
  read_loop fuel absDirPath flt pathIsName chunk rest acc w'
  = read_loop fuel absDirPath flt pathIsName chunk rest acc w.
Proof.
  intros Hf. revert chunk rest acc.
  induction fuel as [|fuel IH]; intros chunk rest acc; [done|].
  rewrite !read_loop_S. unfold OS.Readdir. rewrite Hf.
  destruct (w_fault w (SysReaddir chunk)); [done|].
  destruct rest; [done|]. apply IH.
Qed.

(** The scan reads the directory, the working directory and the failures
    of the calls it makes, nothing else. *)
Lemma getDirFilePaths_ext (dirPath : string) (flt : option (string -> bool))
  (pathIsName : bool) (w w' : World) :
  w_dir w' = w_dir w -> w_cwd w' = w_cwd w ->
  (forall s, (forall n, s <> SysRemove n) -> w_fault w' s = w_fault w s) ->
  getDirFilePaths dirPath flt pathIsName w' = getDirFilePaths dirPath flt pathIsName w.
Proof.
  intros Hd Hc Hf. unfold getDirFilePaths, OS.OpenDir, OS.Abs.
  rewrite Hd, Hc, !Hf by done.
  destruct (w_fault w SysOpenDir); [done|].
  destruct (w_dir w); [|done].
  destruct (negb (OS.IsAbs dirPath)).
  - destruct (w_fault w SysGetwd); [done|].
    by rewrite (read_loop_ext _ _ _ _ _ _ _ w w') by (intros; by apply Hf).
  - by rewrite (read_loop_ext _ _ _ _ _ _ _ w w') by (intros; by apply Hf).
Qed.

Lemma Rename_result (oldname newname : string) (w : World) :
  exists res,
    OS.Rename oldname newname w
    = (res, log_event (EvRename oldname newname res)
              (set_dir (dir_after_rename res oldname newname (w_dir w)) w))
    /\ (res = None -> is_Some (entry w oldname)).
Proof.
  unfold OS.Rename, entry.
  destruct (w_fault w SysRename) as [e|]; [by exists (Some e)|].
  destruct (w_dir w) as [d|] eqn:Hd; [|by exists (Some ErrNotExist)].
  destruct (d !! oldname) as [n|] eqn:Hn; [|by exists (Some ErrNotExist)].
  destruct (d !! newname) as [n'|]; [destruct (OS.isDir n')|].
  - by exists (Some ErrIsDir).
  - exists None. simpl. rewrite Hn. eauto.
  - exists None. simpl. rewrite Hn. eauto.
Qed.

(** A rename touches the two names it is given, and no other. *)
Lemma Rename_entry (oldname newname : string) (w : World) (res : option error) (w' : World) :
  OS.Rename oldname newname w = (res, w') ->
  (forall name, name <> oldname -> name <> newname -> entry w' name = entry w name)
  /\ (res = None -> entry w' newname = entry w oldname)
  /\ (res = None -> oldname <> newname -> entry w' oldname = None)
  /\ (res <> None -> w_dir w' = w_dir w).
Proof.
  intros E. destruct (Rename_result oldname newname w) as (res' & E' & Hsome).
  rewrite E in E'. injection E' as -> ->.
  unfold entry, dir_after_rename in *. simpl.
  destruct res' as [e|]; [repeat split; try done|].
  destruct (w_dir w) as [d|]; [|destruct (Hsome eq_refl) as [? ?]; done].
  destruct (d !! oldname) as [n|] eqn:Hn; [|destruct (Hsome eq_refl) as [? ?]; done].
  repeat split; try done.
  - intros name H1 H2. by rewrite lookup_insert_ne, lookup_delete_ne.
  - intros _. by rewrite lookup_insert_eq.
  - intros _ Hne. by rewrite lookup_insert_ne, lookup_delete_eq.
Qed.

Lemma Rename_frame (oldname newname : string) (w : World) (res : option error) (w' : World) :
  OS.Rename oldname newname w = (res, w') ->
  w_trace w' = w_trace w ++ [EvRename oldname newname res]
  /\ w_stderr w' = w_stderr w /\ w_fault w' = w_fault w /\ w_open w' = w_open w
  /\ w_next w' = w_next w /\ w_out w' = w_out w /\ w_now w' = w_now w
  /\ w_ticks w' = w_ticks w /\ w_cwd w' = w_cwd w.
Proof.
  intros E. destruct (Rename_result oldname newname w) as (res' & E' & _).
  rewrite E in E'. by injection E' as -> ->.
Qed.

Section HookFacts.

Context {TP : TimePkg} {SP : SortPkg}.

(** [roll], with the pruning put as one fold. *)
Lemma roll_eq (h : RollingFileTimeHook) (w : World) :
  roll (h, w)
  = match OS.Close (currentFile (rf h)) w with
    | (Some err, w1) => (Some err, (h, w1))
    | (None, w1) =>
        let h1 := set_rf (set_currentFile None (rf h)) h in
        match getSortedLogHistory (h1, w1) with
        | (_, Some err) => (Some err, (h1, w1))
        | (history, None) =>
            let h2 := set_currentTimeFileName
                        (time_Format (fst (OS.Now w1)) (timePattern h)) h1 in
            let newHistoryName :=
              createFullFileName (fileName (rf h)) (currentTimeFileName h) in
            match OS.Rename (currentName (rf h)) newHistoryName (snd (OS.Now w1)) with
            | (Some err, w3) => (Some err, (h2, w3))
            | (None, w3) =>
                (None, (h2, fold_left remove_step
                                      (to_delete (rf h) (history ++ [newHistoryName])) w3))
            end
        end
    end.
Proof.
  unfold roll.
  destruct (OS.Close (currentFile (rf h)) w) as [[e|] w1]; [done|].
  destruct (getSortedLogHistory _) as [history [e|]]; [done|].
  unfold getNewHistoryRollFileName. destruct (OS.Now w1) as [t w2]. cbn.
  destruct (OS.Rename _ _ _) as [[e|] w3]; [done|].
  rewrite deleteOldRolls_eq. cbn.
  destruct (Z.of_nat (length (history ++ [_])) >? maxRolls (rf h)) eqn:E; [done|].
  unfold to_delete. destruct (maxRolls (rf h) <=? 0); [done|].
  replace (Z.to_nat _) with 0%nat; [done|].
  rewrite Z.gtb_ltb in E. apply Z.ltb_ge in E. lia.
Qed.

Lemma getSortedLogHistory_ext (h : RollingFileTimeHook) (w w' : World) :
  w_dir w' = w_dir w -> w_cwd w' = w_cwd w ->
  (forall s, (forall n, s <> SysRemove n) -> w_fault w' s = w_fault w s) ->
  getSortedLogHistory (h, w') = getSortedLogHistory (h, w).
Proof.
  intros Hd Hc Hf. unfold getSortedLogHistory.
  by rewrite (getDirFilePaths_ext _ _ _ w w').
Qed.

End HookFacts.

(** ** Failures injected into removals only *)

Lemma Close_set_fault (f : Syscall -> option error) (fd : option nat) (w : World) :
  f SysClose = w_fault w SysClose ->
  OS.Close fd (set_fault f w) = (fst (OS.Close fd w), set_fault f (snd (OS.Close fd w))).
Proof.
  intros Hf. unfold OS.Close. simpl. rewrite Hf.
  destruct fd as [n|]; [|done]. by destruct (w_open w !! n).
Qed.

Lemma Now_set_fault (f : Syscall -> option error) (w : World) :
  OS.Now (set_fault f w) = (fst (OS.Now w), set_fault f (snd (OS.Now w))).
Proof. unfold OS.Now. simpl. by destruct (w_ticks w). Qed.

Lemma Rename_set_fault (f : Syscall -> option error) (o n : string) (w : World) :
  f SysRename = w_fault w SysRename ->
  OS.Rename o n (set_fault f w) = (fst (OS.Rename o n w), set_fault f (snd (OS.Rename o n w))).
Proof. intros Hf. unfold OS.Rename. simpl. by rewrite Hf. Qed.

Section PruningFacts.

Context {TP : TimePkg} {SP : SortPkg}.

Lemma roll_result_set_fault (h : RollingFileTimeHook) (w : World)
  (f : Syscall -> option error) :
  agree_off_removals f (w_fault w) ->
  fst (roll (h, set_fault f w)) = fst (roll (h, w)).
Proof.
  intros Hf. rewrite !roll_eq.
  rewrite Close_set_fault by (by apply Hf).
  pose proof (Close_same_files (currentFile (rf h)) w) as (Hd1 & _ & _ & Hf1 & Hc1).
  destruct (OS.Close (currentFile (rf h)) w) as [[e|] w1]; [done|]. cbn in *.
  rewrite (getSortedLogHistory_ext _ w1 (set_fault f w1)); try done.
  2:{ intros s Hs. simpl. rewrite Hf1. by apply Hf. }
  destruct (getSortedLogHistory _) as [history [e|]]; [done|]. cbn.
  rewrite Now_set_fault. cbn.
  pose proof (Now_same_files w1) as (_ & _ & _ & Hf2 & _).
  rewrite Rename_set_fault by (rewrite Hf2, Hf1; by apply Hf).
  by destruct (OS.Rename _ _ _) as [[e|] w3].
Qed.

(** Claim C5.  With a retention limit [<= 0] a roll removes no file,
    whatever it finds: it does not even try a removal; every entry of the
    directory other than the active file and the new history name is as it
    was, and after a roll that completes the new history name holds what
    the active file held. *)
Theorem nonpositive_limit_never_prunes (h : RollingFileTimeHook) (w : World)
  (err : option error) (h' : RollingFileTimeHook) (w' : World) :
  maxRolls (rf h) <= 0 ->
  roll (h, w) = (err, (h', w')) ->
  let newHistoryName := createFullFileName (fileName (rf h)) (currentTimeFileName h) in
  remove_attempts (w_trace w') = remove_attempts (w_trace w)
  /\ (forall name, name <> currentName (rf h) -> name <> newHistoryName ->
                   entry w' name = entry w name)
  /\ (err = None -> entry w' newHistoryName = entry w (currentName (rf h))).
Proof.
  intros Hmax E. rewrite roll_eq in E. cbn zeta in E.
  pose proof (Close_same_files (currentFile (rf h)) w) as Hs1.
  destruct (OS.Close (currentFile (rf h)) w) as [[e|] w1]; cbn in Hs1.
  { injection E as <- <- <-. destruct Hs1 as (Hd & Ht & _).
    unfold entry. rewrite Hd, Ht. by repeat split. }
  destruct (getSortedLogHistory _) as [history [e|]].
  { injection E as <- <- <-. destruct Hs1 as (Hd & Ht & _).
    unfold entry. rewrite Hd, Ht. by repeat split. }
  pose proof (Now_same_files w1) as Hs2.
  pose proof (same_files_trans _ _ _ Hs1 Hs2) as Hs.
  destruct (OS.Rename _ _ (snd (OS.Now w1))) as [res w3] eqn:ER.
  pose proof (Rename_entry _ _ _ _ _ ER) as (Hother & Hnew & _ & _).
  pose proof (Rename_frame _ _ _ _ _ ER) as (Ht3 & _).
  assert (Hnone : to_delete (rf h) (history ++
                    [createFullFileName (fileName (rf h)) (currentTimeFileName h)]) = []).
  { unfold to_delete. by rewrite (proj2 (Z.leb_le _ _) Hmax). }
  rewrite Hnone in E. cbn in E.
  assert (Hw : w' = w3) by (destruct res; by injection E as <- <- <-).
  assert (He : err = res) by (destruct res; by injection E as <- <- <-).
  subst w' err. clear E.
  destruct Hs as (Hd & Ht & _).
  split.
  { rewrite Ht3, Ht. unfold remove_attempts. rewrite omap_app. cbn.
    by rewrite app_nil_r. }
  split.
  - intros name H1 H2. rewrite Hother by done. unfold entry. by rewrite Hd.
  - intros Hres. rewrite Hnew by done. unfold entry. by rewrite Hd.
Qed.

End PruningFacts.

(** ** Claims about removal and scanning *)

(** Claim C10.  [tryRemoveFile] treats the removal of a file that does not
    exist as a success: when [os.Remove] fails with an error for which
    [os.IsNotExist] holds, [tryRemoveFile] returns nil, and the pruning
    loop that called it prints no warning for that entry. *)
Theorem tryRemoveFile_missing_file_is_success
  (filePath : string) (w : World) (history : list string) (i : nat) :
  os_IsNotExist (fst (OS.Remove filePath w)) = true ->
  history !! i = Some filePath ->
  fst (tryRemoveFile filePath w) = None
  /\ w_stderr (delete_one history w i) = w_stderr w.
Proof.
  intros Hne Hi. rewrite (delete_one_step _ _ _ _ Hi).
  unfold remove_step, tryRemoveFile.
  destruct (Remove_result filePath w) as [res E]. rewrite E in *. cbn in Hne.
  by rewrite Hne.
Qed.

Lemma tryRemoveFile_missing_file_is_success_witness :
  let w := world_at (Some {[ "test.log" := regular "" ]}) day1 in
  entry w "test.log.2023-12-30" = None
  /\ fst (OS.Remove "test.log.2023-12-30" w) = Some ErrNotExist
  /\ fst (tryRemoveFile "test.log.2023-12-30" w) = None
  /\ w_stderr (delete_one ["test.log.2023-12-30"; "test.log.2023-12-31"] w 0) = [].
Proof.
  split; [reflexivity|]. split; [reflexivity|].
  apply (tryRemoveFile_missing_file_is_success
           "test.log.2023-12-30"
           (world_at (Some {[ "test.log" := regular "" ]}) day1)
           ["test.log.2023-12-30"; "test.log.2023-12-31"] 0);
    reflexivity.
Defined.

(** Claim C7, as the code has it.  The scanner derives the absolute path
    of every relative directory path before it reads the directory,
    whatever the output mode: when that fails, the scan fails with the
    path-resolution error in name-only mode as in full-path mode.  Only
    for an absolute directory path is no path resolved, and a failing
    resolution then changes nothing. *)
Theorem scan_resolves_relative_path_in_both_modes
  (dirPath : string) (fpFilter : option (string -> bool)) (pathIsName : bool)
  (w : World) (dfi : list FileInfo) (e : error) :
  OS.OpenDir w = (Some dfi, None) ->
  w_fault w SysGetwd = Some e ->
  (OS.IsAbs dirPath = false ->
   getDirFilePaths dirPath fpFilter pathIsName w
   = ([], Some (ErrText ("cannot get absolute path of directory: " +:+ error_Error e))))
  /\ (OS.IsAbs dirPath = true ->
      forall f, (forall s, s <> SysGetwd -> f s = w_fault w s) ->
                getDirFilePaths dirPath fpFilter pathIsName w
                = getDirFilePaths dirPath fpFilter pathIsName (set_fault f w)).
Proof.
  intros Ho Hg. split.
  - intros Hrel. unfold getDirFilePaths. rewrite Ho, Hrel. cbn [negb].
    unfold OS.Abs. by rewrite Hg.
  - intros Habs f Hf. unfold getDirFilePaths.
    assert (Ho' : OS.OpenDir (set_fault f w) = OS.OpenDir w).
    { unfold OS.OpenDir. cbn. by rewrite Hf. }
    rewrite Ho', Ho, Habs. cbn [negb].
    by rewrite (read_loop_ext _ _ _ _ _ _ _ w (set_fault f w)) by (intros; by apply Hf).
Qed.

Lemma scan_resolves_relative_path_in_both_modes_witness :
  let w := set_fault (failing SysGetwd ErrNotExist)
                     (world_at (Some {[ "test.log" := regular "" ]}) day1) in
  getDirFilePaths "./" None true w
  = ([], Some (ErrText "cannot get absolute path of directory: no such file or directory"))
  /\ getDirFilePaths "/var/log" None true w
     = getDirFilePaths "/var/log" None true (set_fault no_fault w).
Proof.
  pose proof (scan_resolves_relative_path_in_both_modes "./" None true
                (set_fault (failing SysGetwd ErrNotExist)
                           (world_at (Some {[ "test.log" := regular "" ]}) day1))
                [mkFileInfo "test.log" defaultFilePermissions] ErrNotExist
                eq_refl eq_refl) as [H1 _].
  pose proof (scan_resolves_relative_path_in_both_modes "/var/log" None true
                (set_fault (failing SysGetwd ErrNotExist)
                           (world_at (Some {[ "test.log" := regular "" ]}) day1))
                [mkFileInfo "test.log" defaultFilePermissions] ErrNotExist
                eq_refl eq_refl) as [_ H2].
  split.
  - apply H1. reflexivity.
  - apply H2; [reflexivity|]. intros s Hs. destruct s; try reflexivity. congruence.
Defined.

(** Claim C7 as stated fails: the rotation core scans in name-only mode
    the relative directory ["./"] that [NewRollingFileTimeHook] derives
    from ["./test.log"]; when the working directory cannot be determined
    the scan returns an error, although the same scan succeeds once the
    resolution does. *)
Lemma name_only_scan_fails_on_path_resolution :
  let w := world_at (Some {[ "test.log" := regular "" ]}) day1 in
  getDirFilePaths "./" None true (set_fault (failing SysGetwd ErrNotExist) w)
  = ([], Some (ErrText "cannot get absolute path of directory: no such file or directory"))
  /\ getDirFilePaths "./" None true w = (["test.log"], None).
Proof. split; vm_compute; reflexivity. Qed.

(** ** [GoSort.Sort] meets the contract of [sort.Sort] *)

Lemma swap_list_length {E : Type} (l : list E) (i j : nat) :
  length (swap_list l i j) = length l.
Proof.
  unfold swap_list. destruct (l !! i), (l !! j); try done.
  by rewrite !length_insert.
Qed.

Lemma swap_list_lookup {E : Type} (l : list E) (i j k : nat) :
  (i < length l)%nat -> (j < length l)%nat ->
  swap_list l i j !! k
  = l !! (if decide (k = i) then j else if decide (k = j) then i else k).
Proof.
  intros Hi Hj. unfold swap_list.
  destruct (lookup_lt_is_Some_2 l i Hi) as [x Hx].
  destruct (lookup_lt_is_Some_2 l j Hj) as [y Hy].
  rewrite Hx, Hy.
  destruct (decide (k = i)) as [->|Hki].
  - rewrite list_lookup_insert_eq by (by rewrite length_insert). done.
  - rewrite list_lookup_insert_ne by done.
    destruct (decide (k = j)) as [->|Hkj].
    + by rewrite list_lookup_insert_eq.
    + by rewrite list_lookup_insert_ne.
Qed.

Lemma swap_list_perm {E : Type} (l : list E) (i j : nat) :
  Permutation (swap_list l i j) l.
Proof.
  destruct (decide (i < length l)%nat) as [Hi|Hi]; cycle 1.
  { unfold swap_list. by rewrite (lookup_ge_None_2 l i) by lia. }
  destruct (decide (j < length l)%nat) as [Hj|Hj]; cycle 1.
  { unfold swap_list. rewrite (lookup_ge_None_2 l j) by lia. by destruct (l !! i). }
  apply Permutation_inj. split; [apply swap_list_length|].
  exists (fun k => if decide (k = i) then j else if decide (k = j) then i else k).
  split.
  - intros a b. repeat case_decide; intros; subst; congruence.
  - intros k. by apply swap_list_lookup.
Qed.

Lemma swap_list_adjacent {E : Type} (pre post : list E) (x y : E) :
  swap_list (pre ++ y :: x :: post) (S (length pre)) (length pre) = pre ++ x :: y :: post.
Proof.
  unfold swap_list.
  assert (H1 : (pre ++ y :: x :: post) !! S (length pre) = Some x).
  { rewrite lookup_app_r by lia. by replace (S (length pre) - length pre)%nat with 1%nat by lia. }
  assert (H0 : (pre ++ y :: x :: post) !! length pre = Some y).
  { rewrite lookup_app_r by lia. by rewrite Nat.sub_diag. }
  rewrite H1, H0.
  replace (length pre) with (length pre + 0)%nat at 2 by lia.
  rewrite insert_app_r. cbn.
  replace (S (length pre)) with (length pre + 1)%nat by lia.
  by rewrite insert_app_r.
Qed.

Lemma StronglySorted_ascending {E : Type} (lt : E -> E -> bool) (l : list E) :
  StronglySorted (fun x y => lt y x = false) l -> ascending lt l.
Proof.
  induction 1 as [|a l Hl IH Ha]; intros i j x y Hij Hi Hj.
  - by rewrite lookup_nil in Hi.
  - destruct j as [|j]; [lia|]. cbn in Hj.
    destruct i as [|i]; cbn in Hi.
    + injection Hi as <-. rewrite Forall_forall in Ha. apply Ha.
      by eapply list_elem_of_lookup_2.
    + eapply IH; [|done..]. lia.
Qed.

Section GoSortCorrect.

Context {T E : Type} (I : Interface T) (view : T -> list E) (lt : E -> E -> bool).
Hypothesis HL : Lawful I view lt.

Let R : E -> E -> Prop := fun x y => lt y x = false.

Lemma lt_asym (x y : E) : lt x y = true -> lt y x = false.
Proof.
  intros H. destruct (lt y x) eqn:E'; [|done].
  pose proof (law_trans _ _ _ HL _ _ _ H E') as Hxx.
  by rewrite (law_irrefl _ _ _ HL) in Hxx.
Qed.

Lemma view_Swap (d : T) (i j : nat) :
  (i < length (view d))%nat -> (j < length (view d))%nat ->
  view (Swap I d i j) = swap_list (view d) i j.
Proof.
  intros Hi Hj. unfold swap_list.
  destruct (lookup_lt_is_Some_2 _ _ Hi) as [x Hx].
  destruct (lookup_lt_is_Some_2 _ _ Hj) as [y Hy].
  rewrite Hx, Hy. by apply (law_swap _ _ _ HL).
Qed.

(** The inner loop of [insertionSort] moves the element at [j] to the left,
    past the elements it must sort before. *)
Lemma insert_down_view (pre : list E) :
  forall (post : list E) (x : E) (d : T),
    view d = pre ++ x :: post ->
    exists p1 p2,
      pre = p1 ++ p2
      /\ view (GoSort.insert_down I 0 (length pre) d) = p1 ++ x :: p2 ++ post
      /\ Forall (fun z => lt x z = true) p2
      /\ (forall y, last p1 = Some y -> lt x y = false).
Proof.
  induction pre as [|y pre0 IH] using rev_ind; intros post x d Hv.
  - exists [], []. cbn. by rewrite Hv.
  - rewrite length_app, Nat.add_1_r. cbn [GoSort.insert_down].
    rewrite <- app_assoc in Hv. cbn in Hv.
    assert (Hx : view d !! S (length pre0) = Some x).
    { rewrite Hv, lookup_app_r by lia.
      by replace (S (length pre0) - length pre0)%nat with 1%nat by lia. }
    assert (Hy : view d !! length pre0 = Some y).
    { rewrite Hv, lookup_app_r by lia. by rewrite Nat.sub_diag. }
    rewrite (law_less _ _ _ HL d _ _ _ _ Hx Hy). cbn [Nat.ltb Nat.leb andb].
    destruct (lt x y) eqn:Exy.
    + assert (Hsw : view (Swap I d (S (length pre0)) (length pre0))
                    = pre0 ++ x :: y :: post).
      { rewrite view_Swap by (by eapply lookup_lt_Some).
        rewrite Hv. apply swap_list_adjacent. }
      destruct (IH (y :: post) x _ Hsw) as (p1 & p2 & Hpre & Hres & Hall & Hlast).
      exists p1, (p2 ++ [y]). split; [by rewrite Hpre, app_assoc|].
      split; [by rewrite Hres, <- app_assoc|].
      split; [|done]. apply Forall_app. split; [done|]. by constructor.
    + exists (pre0 ++ [y]), []. split; [by rewrite app_nil_r|].
      split; [by rewrite Hv, <- app_assoc|].
      split; [constructor|]. intros y'. rewrite last_snoc. by intros [= <-].
Qed.

Lemma insert_sorted (p1 p2 : list E) (x : E) :
  StronglySorted R (p1 ++ p2) ->
  Forall (fun z => lt x z = true) p2 ->
  (forall y, last p1 = Some y -> lt x y = false) ->
  StronglySorted R (p1 ++ x :: p2).
Proof.
  intros Hs Hall Hlast.
  apply StronglySorted_app in Hs as (H12 & Hs1 & Hs2).
  apply StronglySorted_app. split; [|split; [done|]].
  - intros a b Ha Hb.
    assert (Hax : R a x).
    { destruct p1 as [|a0 p1' _] using rev_ind; [by apply elem_of_nil in Ha|].
      specialize (Hlast a0 (last_snoc _ _)).
      apply elem_of_app in Ha as [Ha|Ha%list_elem_of_singleton].
      - apply StronglySorted_app in Hs1 as (Hs1 & _ & _).
        assert (Ha0 : R a a0) by (apply Hs1; [done | by apply list_elem_of_singleton]).
        unfold R in *. by eapply (law_negtrans _ _ _ HL).
      - by subst a. }
    apply elem_of_cons in Hb as [->|Hb]; [done|]. by apply H12.
  - constructor; [done|]. eapply Forall_impl; [exact Hall|].
    intros z Hz. by apply lt_asym.
Qed.

(** [insertionSort] on a range that starts at 0: after [k] turns the first
    [k + 1] elements are in order. *)
Lemma insertionSort_prefix (k : nat) (d : T) :
  (k < length (view d))%nat ->
  let d' := fold_left (fun d i => GoSort.insert_down I 0 i d) (seq 1 k) d in
  Permutation (view d') (view d)
  /\ StronglySorted R (take (S k) (view d')).
Proof.
  induction k as [|k IH]; intros Hk; cbn zeta.
  - cbn [seq fold_left]. split; [done|].
    destruct (view d) as [|a l]; [cbn in Hk; lia|].
    cbn. repeat constructor.
  - rewrite seq_S, fold_left_app. cbn [fold_left Nat.add].
    destruct (IH ltac:(lia)) as [Hp Hs].
    set (d1 := fold_left _ (seq 1 k) d) in *.
    assert (Hlen : length (view d1) = length (view d)) by by apply Permutation_length.
    destruct (lookup_lt_is_Some_2 (view d1) (S k) ltac:(lia)) as [x Hx].
    pose proof (take_drop_middle _ _ _ Hx) as Hmid.
    assert (Hpl : length (take (S k) (view d1)) = S k) by (rewrite length_take; lia).
    destruct (insert_down_view (take (S k) (view d1)) (drop (S (S k)) (view d1)) x d1
                ltac:(done)) as (p1 & p2 & Hpre & Hres & Hall & Hlast).
    rewrite Hpl in Hres. split.
    + rewrite Hres. etrans; [|exact Hp].
      set (post := drop (S (S k)) (view d1)) in *.
      rewrite <- Hmid, Hpre, <- !app_assoc. apply Permutation_app_head.
      by apply Permutation_middle.
    + rewrite Hres.
      assert (Hl : length (p1 ++ x :: p2) = S (S k)).
      { pose proof (f_equal length Hpre) as HH.
        rewrite length_app in HH. rewrite length_app. cbn. lia. }
      replace (p1 ++ x :: p2 ++ drop (S (S k)) (view d1))
        with ((p1 ++ x :: p2) ++ drop (S (S k)) (view d1))
        by (by rewrite <- app_assoc).
      rewrite take_app_length' by done.
      apply insert_sorted; [by rewrite <- Hpre | done..].
Qed.

Lemma gap_pass_perm (steps : list nat) (d : T) :
  Forall (fun i => (i < length (view d))%nat) steps ->
  Permutation
    (view (fold_left (fun d i => if Less I d i (i - 6) then Swap I d i (i - 6) else d) steps d))
    (view d).
Proof.
  revert d. induction steps as [|i steps IH]; intros d Hall; [done|].
  apply Forall_cons in Hall as [Hi Hall]. cbn [fold_left].
  destruct (Less I d i (i - 6)); [|by apply IH].
  assert (Hsw : Permutation (view (Swap I d i (i - 6))) (view d)).
  { rewrite view_Swap by lia. apply swap_list_perm. }
  rewrite IH; [done|].
  eapply Forall_impl; [exact Hall|]. intros k Hk. cbn in *.
  by rewrite (Permutation_length Hsw).
Qed.

Lemma GoSort_Sort_correct (d : T) :
  Permutation (view (GoSort.Sort I d)) (view d) /\ ascending lt (view (GoSort.Sort I d)).
Proof.
  unfold GoSort.Sort. rewrite (law_len _ _ _ HL), Nat.sub_0_r.
  destruct (1 <? length (view d))%nat eqn:En.
  - apply Nat.ltb_lt in En.
    unfold GoSort.insertionSort, GoSort.gap_pass.
    set (d0 := fold_left _ (seq (0 + 6) _) d).
    assert (Hp0 : Permutation (view d0) (view d)).
    { apply gap_pass_perm. apply Forall_forall. intros i Hi%list_elem_of_In%in_seq. lia. }
    assert (Hlen : length (view d0) = length (view d)) by by apply Permutation_length.
    destruct (insertionSort_prefix (length (view d) - 1) d0 ltac:(lia)) as [Hp Hs].
    cbn zeta in Hp, Hs. split; [by rewrite Hp|].
    apply StronglySorted_ascending.
    rewrite firstn_all2 in Hs; [done|].
    rewrite (Permutation_length Hp). lia.
  - apply Nat.ltb_ge in En. split; [done|].
    intros i j x y Hij Hi Hj. apply lookup_lt_Some in Hj. lia.
Qed.

End GoSortCorrect.

Lemma GoSort_contract : SortContract GoSortPkg.
Proof. intros T E I view lt HL d. by apply GoSort_Sort_correct. Qed.

(** ** The time policy: validity and order *)

Section PolicyFacts.

Context {TP : TimePkg} {SP : SortPkg}.

(** [rollTimeFileTailsSlice] is a lawful [sort.Interface]. *)
Lemma tails_Interface_lawful : Lawful tails_Interface tails_view tails_lt.
Proof.
  split.
  - intros d. unfold tails_view. by rewrite length_map.
  - intros d i j [p1 a] [p2 b]. unfold tails_view. rewrite !list_lookup_fmap.
    intros Hi Hj. cbn. unfold rollTimeFileTailsSlice_Less.
    destruct (data d !! i) as [si|]; [|done].
    destruct (data d !! j) as [sj|]; [|done].
    cbn in Hi, Hj. by injection Hi as <- <-; injection Hj as <- <-.
  - intros d i j [p1 a] [p2 b]. unfold tails_view. rewrite !list_lookup_fmap.
    intros Hi Hj. cbn. unfold rollTimeFileTailsSlice_Swap.
    destruct (data d !! i) as [si|]; [|done].
    destruct (data d !! j) as [sj|]; [|done].
    cbn in Hi, Hj. injection Hi as <- <-; injection Hj as <- <-.
    cbn. by rewrite !list_fmap_insert.
  - intros x. unfold tails_lt, time_Before. apply Z.ltb_irrefl.
  - intros x y z. unfold tails_lt, time_Before. rewrite !Z.ltb_lt. lia.
  - intros x y z. unfold tails_lt, time_Before. rewrite !Z.ltb_ge. lia.
Qed.

Lemma sortFileRollNamesAsc_spec (h : RollingFileTimeHook) (fs : list string) :
  SortContract SP ->
  let out := fst (sortFileRollNamesAsc h fs) in
  snd (sortFileRollNamesAsc h fs) = None
  /\ Permutation out fs
  /\ (forall i j a b, (i < j)%nat -> out !! i = Some a -> out !! j = Some b ->
                      parse_ignoring_error (timePattern h) a
                      <= parse_ignoring_error (timePattern h) b).
Proof.
  intros Hc. unfold sortFileRollNamesAsc. cbn.
  destruct (Hc _ _ _ _ _ tails_Interface_lawful (mkTails fs (timePattern h)))
    as [Hperm Hasc].
  set (ss := sort_Sort tails_Interface (mkTails fs (timePattern h))) in *.
  unfold tails_view in Hperm. cbn in Hperm.
  assert (Hsnd : Permutation (data ss) fs).
  { apply (Permutation_map snd) in Hperm.
    rewrite !map_map in Hperm. cbn in Hperm. by rewrite !map_id in Hperm. }
  split; [done|]. split; [done|].
  intros i j a b Hij Hi Hj.
  (* every element of the view carries the pattern of the hook *)
  assert (Hfst : forall x, x ∈ tails_view ss -> fst x = timePattern h).
  { intros x Hx. unfold tails_view in Hx.
    assert (Hx' : x ∈ map (pair (timePattern h)) fs) by (by rewrite <- Hperm).
    apply list_elem_of_fmap in Hx' as (s & -> & _). done. }
  assert (Hvi : tails_view ss !! i = Some (pattern ss, a)).
  { unfold tails_view. by rewrite list_lookup_fmap, Hi. }
  assert (Hvj : tails_view ss !! j = Some (pattern ss, b)).
  { unfold tails_view. by rewrite list_lookup_fmap, Hj. }
  pose proof (Hasc i j _ _ Hij Hvi Hvj) as Hlt.
  pose proof (Hfst _ (list_elem_of_lookup_2 _ _ _ Hvi)) as Hp. cbn in Hp.
  unfold tails_lt, time_Before in Hlt. cbn in Hlt. rewrite Hp in Hlt.
  by apply Z.ltb_ge in Hlt.
Qed.

Lemma hasRollName_iff (r : rollingFile) (file : string) :
  hasRollName r file = true
  <-> exists suffix, file = createFullFileName (fileName r) suffix.
Proof.
  unfold hasRollName, createFullFileName. split.
  - intros [suffix ->]%HasPrefix_inv. exists suffix. by rewrite string_app_assoc.
  - intros [suffix ->]. rewrite <- string_app_assoc. apply HasPrefix_app.
Qed.

Lemma getFileRollName_full (r : rollingFile) (suffix : string) :
  getFileRollName r (createFullFileName (fileName r) suffix) = suffix.
Proof.
  unfold getFileRollName, createFullFileName.
  rewrite <- string_app_assoc. apply slice_from_app.
Qed.

Lemma createFullFileName_inj (o a b : string) :
  createFullFileName o a = createFullFileName o b -> a = b.
Proof.
  unfold createFullFileName. intros H%string_app_inv_head.
  by apply string_app_inv_head in H.
Qed.

Lemma isFileRollNameValid_iff (h : RollingFileTimeHook) (rname : string) :
  isFileRollNameValid h rname = true
  <-> rname <> "" /\ is_Some (time_ParseInLocation (timePattern h) rname).
Proof.
  unfold isFileRollNameValid, GoString.len.
  destruct rname as [|c r]; cbn.
  - split; [done | by intros [? _]].
  - destruct (time_ParseInLocation (timePattern h) (String c r)).
    + split; [|done]. intros _. split; [done | eauto].
    + split; [done|]. by intros [_ [? ?]].
Qed.

Lemma collect_validRollNames_omap (h : RollingFileTimeHook) (files : list string) :
  collect_validRollNames h files = omap (validRollName h) files.
Proof.
  unfold collect_validRollNames.
  enough (G : forall acc,
             fold_left
               (fun validRollNames file =>
                  if hasRollName (rf h) file then
                    if isFileRollNameValid h (getFileRollName (rf h) file)
                    then validRollNames ++ [getFileRollName (rf h) file]
                    else validRollNames
                  else validRollNames) files acc
             = acc ++ omap (validRollName h) files) by apply (G []).
  induction files as [|file files IH]; intros acc; cbn [fold_left omap].
  - by rewrite app_nil_r.
  - rewrite IH. cbn [omap list_omap]. unfold validRollName at 2.
    destruct (hasRollName (rf h) file); [|done].
    destruct (isFileRollNameValid h _); [|done].
    by rewrite <- app_assoc.
Qed.

Lemma getSortedLogHistory_spec (h : RollingFileTimeHook) (w : World) (files : list string) :
  SortContract SP ->
  getDirFilePaths (currentDirPath (rf h)) None true w = (files, None) ->
  exists tails,
    getSortedLogHistory (h, w) = (map (createFullFileName (fileName (rf h))) tails, None)
    /\ Permutation tails (omap (validRollName h) files)
    /\ (forall i j a b, (i < j)%nat -> tails !! i = Some a -> tails !! j = Some b ->
                        parse_ignoring_error (timePattern h) a
                        <= parse_ignoring_error (timePattern h) b).
Proof.
  intros Hc Hscan. unfold getSortedLogHistory. rewrite Hscan.
  destruct (sortFileRollNamesAsc_spec h (collect_validRollNames h files) Hc)
    as (Hnil & Hperm & Hasc).
  destruct (sortFileRollNamesAsc h _) as [tails err]. cbn in *. subst err.
  exists tails. rewrite <- collect_validRollNames_omap. done.
Qed.

Lemma history_member (h : RollingFileTimeHook) (files tails : list string) (name : string) :
  Permutation tails (omap (validRollName h) files) ->
  name ∈ map (createFullFileName (fileName (rf h))) tails
  <-> name ∈ files /\ hasRollName (rf h) name = true
      /\ isFileRollNameValid h (getFileRollName (rf h) name) = true.
Proof.
  intros Hperm. rewrite list_elem_of_fmap. split.
  - intros (tail & -> & Hin). rewrite Hperm in Hin.
    apply list_elem_of_omap in Hin as (file & Hfile & Hv).
    unfold validRollName in Hv.
    destruct (hasRollName (rf h) file) eqn:Ehas; [|done].
    apply hasRollName_iff in Ehas as [suffix ->].
    rewrite getFileRollName_full in Hv.
    destruct (isFileRollNameValid h suffix) eqn:Eval; [|done].
    injection Hv as <-.
    split; [done|]. rewrite getFileRollName_full. split; [|done].
    apply hasRollName_iff. eauto.
  - intros (Hin & Hhas & Hval).
    exists (getFileRollName (rf h) name). split.
    + apply hasRollName_iff in Hhas as [suffix ->]. by rewrite getFileRollName_full.
    + rewrite Hperm. apply list_elem_of_omap. exists name. split; [done|].
      unfold validRollName. by rewrite Hhas, Hval.
Qed.

End PolicyFacts.

(** ** A roll that completes *)

Lemma string_length_app (a b : string) :
  String.length (a +:+ b) = (String.length a + String.length b)%nat.
Proof. induction a as [|c a IH]; [done|]. rewrite string_app_cons. cbn. by rewrite IH. Qed.

Lemma createFullFileName_neq (o s : string) : createFullFileName o s <> o.
Proof.
  unfold createFullFileName. intros H%(f_equal String.length).
  rewrite !string_length_app in H. cbn in H. lia.
Qed.

Section RollFacts.

Context {TP : TimePkg} {SP : SortPkg}.

Lemma full_names_filter (h : RollingFileTimeHook) (files : list string) :
  map (createFullFileName (fileName (rf h))) (omap (validRollName h) files)
  = filter (is_history h) files.
Proof.
  induction files as [|file files IH]; [done|].
  rewrite filter_cons. cbn [omap list_omap].
  destruct (decide (is_history h file)) as [[tail E]|Hn].
  - rewrite E. cbn. rewrite IH. f_equal.
    unfold validRollName in E.
    destruct (hasRollName (rf h) file) eqn:Ehas; [|done].
    destruct (isFileRollNameValid h _); [|done]. injection E as <-.
    apply hasRollName_iff in Ehas as [suffix ->]. by rewrite getFileRollName_full.
  - destruct (validRollName h file) as [tail|] eqn:E; [|exact IH].
    exfalso. apply Hn. unfold is_history. rewrite E. eauto.
Qed.

Lemma getSortedLogHistory_unset (h : RollingFileTimeHook) (w : World) :
  getSortedLogHistory (set_rf (set_currentFile None (rf h)) h, w)
  = getSortedLogHistory (h, w).
Proof. reflexivity. Qed.

(** What the history is, on a directory that can be read. *)
Lemma getSortedLogHistory_healthy (h : RollingFileTimeHook) (w : World)
  (d : gmap string Node) :
  SortContract SP ->
  w_dir w = Some d ->
  (forall s, w_fault w s = None) ->
  exists history,
    getSortedLogHistory (h, w) = (history, None)
    /\ Permutation history
         (filter (is_history h)
                 (map fst (filter (fun kv => isRegular (n_mode (snd kv)) = true)
                                  (map_to_list d))))
    /\ (forall i j a b, (i < j)%nat -> history !! i = Some a -> history !! j = Some b ->
                        history_key h a <= history_key h b).
Proof.
  intros Hc Hd Hf.
  destruct (getSortedLogHistory_spec h w _ Hc (getDirFilePaths_names _ w d Hd Hf))
    as (tails & E & Hperm & Hasc).
  eexists. split; [exact E|]. split.
  - rewrite <- full_names_filter. by apply Permutation_map.
  - intros i j a b Hij Hi Hj.
    rewrite list_lookup_fmap in Hi, Hj.
    destruct (tails !! i) as [ta|] eqn:Ei; [|done].
    destruct (tails !! j) as [tb|] eqn:Ej; [|done].
    cbn in Hi, Hj. injection Hi as <-. injection Hj as <-.
    unfold history_key. rewrite !getFileRollName_full. by eapply Hasc.
Qed.

Lemma getSortedLogHistory_needs_dir (h : RollingFileTimeHook) (w : World)
  (history : list string) :
  getSortedLogHistory (h, w) = (history, None) -> is_Some (w_dir w).
Proof.
  unfold getSortedLogHistory, getDirFilePaths, OS.OpenDir.
  destruct (w_fault w SysOpenDir); [done|].
  destruct (w_dir w); [eauto | done].
Qed.

(** The steps of a roll that returns nil. *)
Lemma roll_ok_inv (h : RollingFileTimeHook) (w : World)
  (h' : RollingFileTimeHook) (w' : World) :
  roll (h, w) = (None, (h', w')) ->
  let newHistoryName := createFullFileName (fileName (rf h)) (currentTimeFileName h) in
  exists w1 history w3,
    OS.Close (currentFile (rf h)) w = (None, w1)
    /\ getSortedLogHistory (h, w) = (history, None)
    /\ OS.Rename (currentName (rf h)) newHistoryName (snd (OS.Now w1)) = (None, w3)
    /\ h' = set_currentTimeFileName (time_Format (fst (OS.Now w1)) (timePattern h))
              (set_rf (set_currentFile None (rf h)) h)
    /\ w' = fold_left remove_step (to_delete (rf h) (history ++ [newHistoryName])) w3.
Proof.
  intros E. rewrite roll_eq in E. cbn zeta in *.
  pose proof (Close_same_files (currentFile (rf h)) w) as (Hd & _ & _ & Hf & Hc).
  destruct (OS.Close (currentFile (rf h)) w) as [[e|] w1]; [done|]. cbn in *.
  rewrite getSortedLogHistory_unset in E.
  rewrite (getSortedLogHistory_ext h w w1) in E by (try done; intros; by rewrite Hf).
  destruct (getSortedLogHistory (h, w)) as [history [e|]]; [done|].
  destruct (OS.Rename _ _ _) as [[e|] w3] eqn:ER; [done|].
  injection E as <- <-. by exists w1, history, w3.
Qed.

End RollFacts.

(** Removing names that are all there, with no failure injected: each
    removal succeeds. *)
Lemma remove_loop_removed (names : list string) (w : World) :
  NoDup names ->
  (forall name, name ∈ names -> is_Some (entry w name)) ->
  (forall name, name ∈ names -> w_fault w (SysRemove name) = None) ->
  let w' := fold_left remove_step names w in
  removed (w_trace w') = removed (w_trace w) ++ names
  /\ (forall name, name ∈ names -> entry w' name = None)
  /\ (forall name, name ∉ names -> entry w' name = entry w name)
  /\ w_stderr w' = w_stderr w.
Proof.
  revert w. induction names as [|n names IH]; intros w Hnd Hin Hf; cbn [fold_left].
  - rewrite app_nil_r. repeat split; try done. intros name H. by apply elem_of_nil in H.
  - apply NoDup_cons in Hnd as [Hn Hnd].
    assert (Hfn : w_fault w (SysRemove n) = None) by (apply Hf; by left).
    destruct (Remove_no_fault n w Hfn) as (Hd & _ & Hres).
    specialize (Hres (Hin n ltac:(by left))).
    assert (Hstep : remove_step w n
                    = log_event (EvRemove n None) (set_dir (delete n <$> w_dir w) w)).
    { unfold remove_step, tryRemoveFile.
      destruct (Remove_result n w) as [res E]. rewrite E in *. cbn in Hres. by subst res. }
    assert (Hentry : forall name, entry (remove_step w n) name
                                  = if decide (name = n) then None else entry w name).
    { intros name. rewrite Hstep. unfold entry. cbn.
      destruct (w_dir w) as [d|]; cbn; [|by case_decide].
      case_decide as Hc; [subst; by rewrite lookup_delete_eq | by rewrite lookup_delete_ne]. }
    destruct (IH (remove_step w n) Hnd) as (Hr & Hgone & Hkeep & Hs).
    + intros name Hname. rewrite Hentry, decide_False by (intros ->; done).
      apply Hin. by right.
    + intros name Hname. rewrite Hstep. cbn. apply Hf. by right.
    + split; [|split; [|split]].
      * rewrite Hr, Hstep. cbn. unfold removed. rewrite omap_app. cbn.
        by rewrite <- app_assoc.
      * intros name [->|Hname]%elem_of_cons; [|by apply Hgone].
        rewrite Hkeep by done. by rewrite Hentry, decide_True.
      * intros name Hname. apply not_elem_of_cons in Hname as [Hne Hname].
        rewrite Hkeep by done. by rewrite Hentry, decide_False.
      * by rewrite Hs, Hstep.
Qed.

(** ** Pruning *)

Lemma regular_names_NoDup (d : gmap string Node) :
  NoDup (map fst (filter (fun kv => isRegular (n_mode (snd kv)) = true) (map_to_list d))).
Proof.
  eapply sublist_NoDup; [apply (NoDup_fst_map_to_list d)|].
  apply (fmap_sublist fst), sublist_filter.
Qed.

Lemma regular_names_entry (w : World) (d : gmap string Node) (name : string) :
  w_dir w = Some d ->
  name ∈ map fst (filter (fun kv => isRegular (n_mode (snd kv)) = true) (map_to_list d)) ->
  is_Some (entry w name).
Proof.
  intros Hd Hin. apply list_elem_of_fmap in Hin as ([k n] & -> & Hin).
  apply list_elem_of_filter in Hin as [_ Hin%elem_of_map_to_list].
  unfold entry. rewrite Hd. cbn. eauto.
Qed.

Section PruneFacts.

Context {TP : TimePkg} {SP : SortPkg}.

(** Claim C2, as the code has it.  A roll that completes with limit
    [maxRolls > 0], on a file system with no injected failure, with the
    active file under its base name and the new history name not in use:
    the history list is the reconstructed history in the policy's
    ascending order followed by the new name (the new name is appended, it
    is not sorted in); when the list has H > L entries, exactly the first
    H - L entries of the list are removed from disk, all of them entries
    of the reconstructed history and none more recent by the policy's
    order than a reconstructed entry that is kept, and the last L entries
    of the list remain. *)
Theorem roll_prunes_front_of_history (h : RollingFileTimeHook) (w : World)
  (h' : RollingFileTimeHook) (w' : World) :
  SortContract SP ->
  (forall s, w_fault w s = None) ->
  0 < maxRolls (rf h) ->
  currentName (rf h) = fileName (rf h) ->
  entry w (createFullFileName (fileName (rf h)) (currentTimeFileName h)) = None ->
  roll (h, w) = (None, (h', w')) ->
  pruned_front h w w'.
Proof.
  intros Hc Hf HL Hcur Hfree E. unfold pruned_front. cbn zeta.
  destruct (roll_ok_inv _ _ _ _ E) as (w1 & history & w3 & EC & EH & ER & _ & ->).
  set (new := createFullFileName (fileName (rf h)) (currentTimeFileName h)) in *.
  destruct (getSortedLogHistory_needs_dir _ _ _ EH) as [d Hd].
  destruct (getSortedLogHistory_healthy h w d Hc Hd Hf) as (history0 & EH0 & Hperm & Hasc).
  rewrite EH in EH0. injection EH0 as <-.
  exists history. split; [done|]. split; [done|].
  set (all := history ++ [new]) in *.
  set (k := (length all - Z.to_nat (maxRolls (rf h)))%nat).
  intros Hlen.
  (* the history names: distinct, on disk, not the active file, not the new name *)
  assert (Hnd : NoDup history).
  { rewrite Hperm. apply NoDup_filter, regular_names_NoDup. }
  assert (Hon : forall name, name ∈ history -> is_Some (entry w name)).
  { intros name Hin. rewrite Hperm in Hin.
    apply list_elem_of_filter in Hin as [_ Hin]. by eapply regular_names_entry. }
  assert (Hnew : new ∉ history).
  { intros Hin. destruct (Hon _ Hin) as [n Hn]. by rewrite Hfree in Hn. }
  assert (Hact : forall name, name ∈ history -> name <> currentName (rf h)).
  { intros name Hin. rewrite Hperm in Hin.
    apply list_elem_of_filter in Hin as [[tail Hv] _].
    unfold validRollName in Hv.
    destruct (hasRollName (rf h) name) eqn:Ehas; [|done].
    apply hasRollName_iff in Ehas as [suffix ->].
    rewrite Hcur. apply createFullFileName_neq. }
  (* the world after close, clock and rename *)
  pose proof (Close_same_files (currentFile (rf h)) w) as Hs1. rewrite EC in Hs1.
  pose proof (same_files_trans _ _ _ Hs1 (Now_same_files w1)) as Hs2. cbn in Hs2.
  pose proof (Rename_entry _ _ _ _ _ ER) as (Hother & Hmoved & _ & _).
  pose proof (Rename_frame _ _ _ _ _ ER) as (Ht3 & _ & Hf3 & _).
  destruct (Rename_result (currentName (rf h)) new (snd (OS.Now w1))) as (res & ER' & Hsrc).
  rewrite ER in ER'. injection ER' as <- _. specialize (Hsrc eq_refl).
  assert (Hon3 : forall name, name ∈ history -> is_Some (entry w3 name)).
  { intros name Hin. rewrite Hother.
    - rewrite (entry_same_files _ _ _ Hs2). by apply Hon.
    - by apply Hact.
    - intros ->. done. }
  assert (Hnew3 : is_Some (entry w3 new)) by (by rewrite Hmoved).
  assert (Hfault3 : forall s, w_fault w3 s = None).
  { intros s. rewrite Hf3. destruct Hs2 as (_ & _ & _ & -> & _). apply Hf. }
  (* the names to delete *)
  assert (Hk : (k <= length history)%nat).
  { subst k all. rewrite length_app. cbn. lia. }
  assert (Hdel : to_delete (rf h) all = take k all).
  { unfold to_delete. rewrite (proj2 (Z.leb_gt _ _)) by lia. f_equal. subst k. lia. }
  assert (Htake : take k all = take k history) by (by apply take_app_le).
  rewrite Hdel, Htake.
  destruct (remove_loop_removed (take k history) w3) as (Hrem & Hgone & Hkeep & _).
  { eapply sublist_NoDup; [exact Hnd | apply sublist_take]. }
  { intros name Hin. apply Hon3. eapply elem_of_sublist; [|apply sublist_take]. done. }
  { intros name _. apply Hfault3. }
  assert (Hall : NoDup all).
  { apply NoDup_app. split; [done|]. split; [|apply NoDup_singleton].
    intros x Hx Hx'%list_elem_of_singleton. by subst x. }
  split.
  { rewrite Hrem, Ht3. unfold removed at 1. rewrite omap_app. cbn. rewrite app_nil_r.
    destruct Hs2 as (_ & -> & _). done. }
  split; [done|]. split; [by rewrite length_take; lia|].
  split; [rewrite length_drop; subst k all; rewrite length_app; cbn;
          rewrite length_app in Hlen; cbn in Hlen; lia|].
  split; [done|]. split; [done|].
  intros name Hin.
  assert (Hnot : name ∉ take k history).
  { rewrite <- Htake. intros Hin'.
    rewrite <- (take_drop k all) in Hall. apply NoDup_app in Hall as (_ & Hdisj & _).
    by apply (Hdisj name). }
  rewrite Hkeep by done.
  assert (Hin' : name ∈ all).
  { eapply elem_of_sublist; [exact Hin | apply sublist_drop]. }
  apply elem_of_app in Hin' as [Hin'|Hin'%list_elem_of_singleton];
    [by apply Hon3 | by subst name].
Qed.

End PruneFacts.

(** ** Claims about pruning *)

Lemma roll_prunes_front_of_history_witness :
  let st := fourth_day 2 in
  pruned_front (fst st) (snd st) (snd (snd (roll st)))
  /\ removed (w_trace (snd (snd (roll st)))) = ["test.log.2024-01-01"]
  /\ listing (snd (snd (roll st))) = ["test.log.2024-01-03"; "test.log.2024-01-02"].
Proof.
  split; [|split; vm_compute; reflexivity].
  apply (roll_prunes_front_of_history (fst (fourth_day 2)) (snd (fourth_day 2))
           (fst (snd (roll (fourth_day 2)))) (snd (snd (roll (fourth_day 2))))
           GoSort_contract).
  - intros s. reflexivity.
  - reflexivity.
  - reflexivity.
  - vm_compute. reflexivity.
  - vm_compute. reflexivity.
Defined.

(** Claim C2 as stated fails: a history file dated ahead of the clock
    sorts after the new history file, but the new file is appended behind
    it.  With limit 1 the roll then removes the entry the policy orders
    last and keeps the one it orders first. *)
Lemma pruning_removes_the_newest_entry :
  let h := new_hook "./test.log" "2006-01-02" 1 in
  let w := world_at (Some {[ "test.log.2030-01-01" := regular "ahead" ]}) day1 in
  let st := emit_all [(day1, text_entry "one"); (day1 + day, text_entry "two")] (h, w) in
  fst st = [None; None]
  /\ removed (w_trace (snd (snd st))) = ["test.log.2030-01-01"]
  /\ listing (snd (snd st)) = ["test.log.2024-01-01"; "test.log"]
  /\ history_key h "test.log.2024-01-01" < history_key h "test.log.2030-01-01".
Proof. repeat split; vm_compute; reflexivity. Qed.

Lemma nonpositive_limit_never_prunes_witness :
  let st := fourth_day 0 in
  let w' := snd (snd (roll st)) in
  fst (roll st) = None
  /\ listing w' = ["test.log.2024-01-03"; "test.log.2024-01-01"; "test.log.2024-01-02"]
  /\ remove_attempts (w_trace w') = remove_attempts (w_trace (snd st))
  /\ (forall name, name <> "test.log" -> name <> "test.log.2024-01-03" ->
                   entry w' name = entry (snd st) name)
  /\ (fst (roll st) = None -> entry w' "test.log.2024-01-03" = entry (snd st) "test.log").
Proof.
  split; [vm_compute; reflexivity|]. split; [vm_compute; reflexivity|].
  apply (nonpositive_limit_never_prunes (fst (fourth_day 0)) (snd (fourth_day 0))
           (fst (roll (fourth_day 0)))
           (fst (snd (roll (fourth_day 0)))) (snd (snd (roll (fourth_day 0))))).
  - vm_compute. discriminate.
  - vm_compute. reflexivity.
Defined.

(** Claim C9.  Let [f] inject any failures into removals, and only there.
    [deleteOldRolls] still returns nil; it tries every name it has to
    remove, one attempt each and in order, whatever failed before; what
    fails (other than on a missing file) shows as one line on standard
    error and nowhere else; and [roll] returns what it returns without
    those failures. *)
Theorem deletion_failure_never_aborts_roll {TP : TimePkg} {SP : SortPkg}
  (h : RollingFileTimeHook) (w : World) (f : Syscall -> option error)
  (history : list string) :
  agree_off_removals f (w_fault w) ->
  let w1 := set_fault f w in
  let w2 := snd (deleteOldRolls (rf h) history w1) in
  fst (deleteOldRolls (rf h) history w1) = None
  /\ remove_attempts (w_trace w2) = remove_attempts (w_trace w1) ++ to_delete (rf h) history
  /\ (exists failed,
         remove_failures (w_trace w2) = remove_failures (w_trace w1) ++ failed
         /\ w_stderr w2 = w_stderr w1 ++ map stderr_line failed)
  /\ fst (roll (h, w1)) = fst (roll (h, w)).
Proof.
  intros Hf. cbn zeta. rewrite deleteOldRolls_eq. cbn [fst snd].
  destruct (remove_loop_trace (to_delete (rf h) history) (set_fault f w)) as (Ha & _ & Hs).
  split; [done|]. split; [done|]. split; [done|].
  by apply roll_result_set_fault.
Qed.

Lemma deletion_failure_never_aborts_roll_witness :
  let h := with_maxRolls 1 (fst (fourth_day 5)) in
  let w := snd (fourth_day 5) in
  let f := failing (SysRemove "test.log.2024-01-01") ErrPermission in
  let w' := snd (snd (roll (h, set_fault f w))) in
  fst (roll (h, set_fault f w)) = None
  /\ remove_attempts (w_trace w') = ["test.log.2024-01-01"; "test.log.2024-01-02"]
  /\ removed (w_trace w') = ["test.log.2024-01-02"]
  /\ w_stderr w' = [stderr_line ErrPermission]
  /\ fst (roll (h, set_fault f w)) = fst (roll (h, w)).
Proof.
  split; [vm_compute; reflexivity|]. split; [vm_compute; reflexivity|].
  split; [vm_compute; reflexivity|]. split; [vm_compute; reflexivity|].
  apply (deletion_failure_never_aborts_roll
           (with_maxRolls 1 (fst (fourth_day 5))) (snd (fourth_day 5))
           (failing (SysRemove "test.log.2024-01-01") ErrPermission) []).
  intros s Hs. destruct s; try reflexivity. by destruct (Hs name).
Defined.

(** ** Claims about the time policy *)

(** Claim C6, as the code has it.  [sortFileRollNamesAsc] returns no error
    and a permutation of its input in which the timestamps, parsed with
    the configured pattern in local time, never decrease: earliest first.
    The order among elements of equal timestamp is whatever [sort.Sort]
    makes it.  For a valid suffix the timestamp is the one it parses
    to. *)
Theorem sortFileRollNamesAsc_orders_by_timestamp {TP : TimePkg} {SP : SortPkg}
  (h : RollingFileTimeHook) (fs : list string) :
  SortContract SP ->
  let out := fst (sortFileRollNamesAsc h fs) in
  snd (sortFileRollNamesAsc h fs) = None
  /\ Permutation out fs
  /\ (forall i j a b, (i < j)%nat -> out !! i = Some a -> out !! j = Some b ->
                      parse_ignoring_error (timePattern h) a
                      <= parse_ignoring_error (timePattern h) b)
  /\ (forall s, isFileRollNameValid h s = true ->
                time_ParseInLocation (timePattern h) s
                = Some (parse_ignoring_error (timePattern h) s)).
Proof.
  intros Hc. destruct (sortFileRollNamesAsc_spec h fs Hc) as (H1 & H2 & H3).
  split; [done|]. split; [done|]. split; [done|].
  intros s [_ [t Ht]]%isFileRollNameValid_iff.
  unfold parse_ignoring_error. by rewrite Ht.
Qed.

Lemma sortFileRollNamesAsc_orders_by_timestamp_witness :
  let h := new_hook "./test.log" "2006-01-02" 5 in
  let fs := ["2024-01-03"; "2024-01-01"; "2023-12-31"; "2024-01-02"] in
  fst (sortFileRollNamesAsc h fs) = ["2023-12-31"; "2024-01-01"; "2024-01-02"; "2024-01-03"]
  /\ snd (sortFileRollNamesAsc h fs) = None
  /\ Permutation (fst (sortFileRollNamesAsc h fs)) fs
  /\ (forall i j a b, (i < j)%nat ->
                      fst (sortFileRollNamesAsc h fs) !! i = Some a ->
                      fst (sortFileRollNamesAsc h fs) !! j = Some b ->
                      parse_ignoring_error (timePattern h) a
                      <= parse_ignoring_error (timePattern h) b)
  /\ (forall s, isFileRollNameValid h s = true ->
                time_ParseInLocation (timePattern h) s
                = Some (parse_ignoring_error (timePattern h) s)).
Proof.
  split; [vm_compute; reflexivity|].
  apply (sortFileRollNamesAsc_orders_by_timestamp
           (new_hook "./test.log" "2006-01-02" 5)
           ["2024-01-03"; "2024-01-01"; "2023-12-31"; "2024-01-02"]
           GoSort_contract).
Defined.

(** Claim C6 as stated fails: the sort is not stable.  Under the pattern
    ["15"] the suffixes ["02"] and ["2"] are both valid and parse to the
    same hour; ["02"] goes in first and comes out second. *)
Lemma sortFileRollNamesAsc_is_not_stable :
  let h := new_hook "./test.log" "15" 5 in
  let fs := ["02"; "2"; "03"; "04"; "05"; "06"; "01"] in
  SortContract GoSortPkg
  /\ Forall (fun s => isFileRollNameValid h s = true) fs
  /\ parse_ignoring_error (timePattern h) "02" = parse_ignoring_error (timePattern h) "2"
  /\ fst (sortFileRollNamesAsc h fs) = ["01"; "2"; "02"; "03"; "04"; "05"; "06"]
  /\ ~ stable_on (parse_ignoring_error (timePattern h)) fs (fst (sortFileRollNamesAsc h fs)).
Proof.
  split; [exact GoSort_contract|].
  split; [repeat constructor|].
  split; [vm_compute; reflexivity|].
  split; [vm_compute; reflexivity|].
  intros H.
  specialize (H (parse_ignoring_error "15" "02")).
  vm_compute in H. discriminate.
Qed.

(** Claim C4.  During history reconstruction a name the scan returned is
    a history candidate exactly when it starts with the base name and the
    delimiter; the suffix of a candidate is what follows that prefix, and
    it is kept exactly when [isFileRollNameValid] accepts it, so that the
    history holds exactly the scanned names with that prefix and a valid
    suffix; and [isFileRollNameValid] accepts no suffix that fails to
    parse under the pattern in local time. *)
Theorem history_is_the_valid_candidates {TP : TimePkg} {SP : SortPkg}
  (h : RollingFileTimeHook) (w : World) (files : list string) :
  SortContract SP ->
  getDirFilePaths (currentDirPath (rf h)) None true w = (files, None) ->
  (forall file,
      hasRollName (rf h) file = true
      <-> exists suffix,
          file = fileName (rf h) +:+ rollingLogHistoryDelimiter +:+ suffix
          /\ getFileRollName (rf h) file = suffix)
  /\ (forall rname,
         time_ParseInLocation (timePattern h) rname = None ->
         isFileRollNameValid h rname = false)
  /\ (forall rname,
         rname ∈ collect_validRollNames h files
         <-> exists file,
             file ∈ files /\ hasRollName (rf h) file = true
             /\ rname = getFileRollName (rf h) file
             /\ isFileRollNameValid h rname = true)
  /\ exists history,
       getSortedLogHistory (h, w) = (history, None)
       /\ forall name,
           name ∈ history
           <-> name ∈ files /\ hasRollName (rf h) name = true
               /\ isFileRollNameValid h (getFileRollName (rf h) name) = true.
Proof.
  intros Hc Hscan. split; [|split; [|split]].
  - intros file. rewrite hasRollName_iff. split.
    + intros [suffix ->]. exists suffix. split; [done|]. apply getFileRollName_full.
    + intros (suffix & -> & _). by exists suffix.
  - intros rname Hp. destruct (isFileRollNameValid h rname) eqn:E; [|done].
    apply isFileRollNameValid_iff in E as [_ [t Ht]]. congruence.
  - intros rname. rewrite collect_validRollNames_omap, list_elem_of_omap.
    unfold validRollName. split.
    + intros (file & Hin & Hv).
      destruct (hasRollName (rf h) file) eqn:Ehas; [|done].
      destruct (isFileRollNameValid h _) eqn:Eval; [|done].
      injection Hv as <-. by exists file.
    + intros (file & Hin & Hhas & -> & Hval). exists file.
      by rewrite Hhas, Hval.
  - destruct (getSortedLogHistory_spec h w files Hc Hscan) as (tails & E & Hperm & _).
    eexists. split; [exact E|]. intros name. by apply history_member.
Qed.

Lemma history_is_the_valid_candidates_witness :
  let h := new_hook "./test.log" "2006-01-02" 5 in
  let w := world_at (Some {[ "test.log" := regular "now";
                             "test.log.2024-01-01" := regular "then";
                             "test.log.bak" := regular "";
                             "test.log.2024-01-02" := subdirectory;
                             "other.log.2024-01-01" := regular "" ]}) day1 in
  getSortedLogHistory (h, w) = (["test.log.2024-01-01"], None)
  /\ exists history,
       getSortedLogHistory (h, w) = (history, None)
       /\ forall name,
           name ∈ history
           <-> name ∈ fst (getDirFilePaths "./" None true w)
               /\ hasRollName (rf h) name = true
               /\ isFileRollNameValid h (getFileRollName (rf h) name) = true.
Proof.
  split; [vm_compute; reflexivity|].
  apply (history_is_the_valid_candidates
           (new_hook "./test.log" "2006-01-02" 5)
           (world_at (Some {[ "test.log" := regular "now";
                              "test.log.2024-01-01" := regular "then";
                              "test.log.bak" := regular "";
                              "test.log.2024-01-02" := subdirectory;
                              "other.log.2024-01-01" := regular "" ]}) day1)
           (fst (getDirFilePaths "./" None true
                   (world_at (Some {[ "test.log" := regular "now";
                              "test.log.2024-01-01" := regular "then";
                              "test.log.bak" := regular "";
                              "test.log.2024-01-02" := subdirectory;
                              "other.log.2024-01-01" := regular "" ]}) day1)))
           GoSort_contract).
  vm_compute. reflexivity.
Defined.

(** ** Opening the active file *)

Lemma wrap_int64_small (z : Z) : - 2 ^ 63 <= z < 2 ^ 63 -> wrap_int64 z = z.
Proof. intros H. unfold wrap_int64. rewrite Z.mod_small; lia. Qed.

Lemma MkdirAll_entry (w : World) (err : option error) (w' : World) :
  OS.MkdirAll w = (err, w') ->
  (forall name, entry w' name = entry w name)
  /\ w_open w' = w_open w /\ w_next w' = w_next w /\ w_out w' = w_out w
  /\ w_trace w' = w_trace w /\ w_fault w' = w_fault w /\ w_stderr w' = w_stderr w
  /\ (err = None -> is_Some (w_dir w')).
Proof.
  unfold OS.MkdirAll. destruct (w_fault w SysMkdirAll) as [e|].
  - intros [= <- <-]. by repeat split.
  - destruct (w_dir w) as [d|] eqn:Hd; intros [= <- <-]; repeat split; try done;
      try (intros; rewrite ?Hd; cbn; eauto; fail).
    intros name. unfold entry. cbn. by rewrite Hd, lookup_empty.
Qed.

Lemma OpenFile_append_create (name : string) (w : World) (f : option nat)
  (err : option error) (w' : World) :
  OS.OpenFile name (Z.lor O_WRONLY (Z.lor O_APPEND O_CREATE)) defaultFilePermissions w
  = (f, err, w') ->
  (err = None ->
   f = Some (w_next w)
   /\ w_open w' = <[w_next w := name]> (w_open w)
   /\ is_Some (w_dir w)
   /\ entry w' name = Some (opened_node (entry w name))
   /\ (forall other, other <> name -> entry w' other = entry w other))
  /\ (err <> None -> f = None /\ w' = w)
  /\ w_out w' = w_out w /\ w_trace w' = w_trace w /\ w_fault w' = w_fault w
  /\ w_stderr w' = w_stderr w.
Proof.
  unfold OS.OpenFile, entry.
  destruct (w_fault w SysOpenFile) as [e|]; [intros [= <- <- <-]; by repeat split|].
  destruct (w_dir w) as [d|] eqn:Hd; [|intros [= <- <- <-]; by repeat split].
  change (Z.land (Z.lor O_WRONLY (Z.lor O_APPEND O_CREATE)) O_CREATE =? 0) with false.
  change (Z.land (Z.lor O_WRONLY (Z.lor O_APPEND O_CREATE)) O_TRUNC =? 0) with true.
  destruct (d !! name) as [n|] eqn:Hn.
  - destruct (OS.isDir n); intros [= <- <- <-]; [by repeat split|].
    cbn. rewrite Hn. repeat split; eauto; done.
  - intros [= <- <- <-]. cbn. rewrite lookup_insert_eq. repeat split; eauto; try done.
    intros other Hne. by rewrite lookup_insert_ne.
Qed.

(** A descriptor keeps the flags it was opened with. *)
Lemma OpenFile_flags (name : string) (flag perm : Z) (w : World) (fd : nat) (w' : World) :
  OS.OpenFile name flag perm w = (Some fd, None, w') ->
  w_desc w' !! fd = Some (flag, 0%nat).
Proof.
  unfold OS.OpenFile.
  destruct (w_fault w SysOpenFile) as [e|]; [done|].
  destruct (w_dir w) as [d|]; [|done].
  destruct (d !! name) as [n|].
  - destruct (OS.isDir n); [done|].
    destruct (Z.land flag O_TRUNC =? 0); intros [= <- <-]; cbn; apply lookup_insert_eq.
  - destruct (Z.land flag O_CREATE =? 0); [done|].
    intros [= <- <-]. cbn. apply lookup_insert_eq.
Qed.

(** What the flag is for: on a file that holds [before], a write through
    a descriptor opened with [O_WRONLY|O_APPEND|O_CREATE] goes behind the
    content, and a write through one opened with [O_WRONLY|O_CREATE]
    replaces its first bytes. *)
Example O_APPEND_decides_where_a_write_goes :
  let w := world_at (Some {[ "test.log" := regular "before" ]}) day1 in
  let written := fun flag =>
    let '(f, _, w1) := OS.OpenFile "test.log" flag defaultFilePermissions w in
    entry (snd (OS.Write f (String.list_byte_of_string "xy") w1)) "test.log" in
  written (Z.lor O_WRONLY (Z.lor O_APPEND O_CREATE)) = Some (regular "beforexy")
  /\ written (Z.lor O_WRONLY O_CREATE) = Some (regular "xyfore").
Proof. split; vm_compute; reflexivity. Qed.

Lemma StatSize_open (fd : nat) (w : World) (name : string) (n : Node) (size : Z) :
  w_open w !! fd = Some name ->
  entry w name = Some n ->
  OS.StatSize fd w = (size, None) ->
  size = Z.of_nat (length (n_data n)).
Proof.
  unfold OS.StatSize, entry. intros Ho Hn.
  destruct (w_fault w SysStat); [done|]. rewrite Ho.
  destruct (w_dir w) as [d|]; [|done]. rewrite Hn. by intros [= <-].
Qed.

Section OpenFacts.

Context {TP : TimePkg} {SP : SortPkg}.

Lemma createFileAndFolderIfNeeded_ok (h : RollingFileTimeHook) (w : World)
  (h' : RollingFileTimeHook) (w' : World) :
  createFileAndFolderIfNeeded (h, w) = (None, (h', w')) ->
  let base := fileName (rf h) in
  let n0 := opened_node (entry w base) in
  exists fd,
    currentFile (rf h') = Some fd
    /\ currentName (rf h') = base
    /\ w_open w' !! fd = Some base
    /\ entry w' base = Some n0
    /\ (forall other, other <> base -> entry w' other = entry w other)
    /\ currentFileSize (rf h') = Z.of_nat (length (n_data n0))
    /\ same_config h h'
    /\ currentTimeFileName h' = currentTimeFileName h
    /\ w_out w' = w_out w /\ w_trace w' = w_trace w /\ w_fault w' = w_fault w
    /\ w_stderr w' = w_stderr w.
Proof.
  unfold createFileAndFolderIfNeeded. cbn zeta.
  set (mk := if negb _ then OS.MkdirAll w else (None, w)).
  assert (Hmk : (forall name, entry (snd mk) name = entry w name)
                /\ w_out (snd mk) = w_out w /\ w_trace (snd mk) = w_trace w
                /\ w_fault (snd mk) = w_fault w /\ w_stderr (snd mk) = w_stderr w).
  { subst mk. destruct (negb _); [|done].
    destruct (OS.MkdirAll w) as [err w1] eqn:E.
    destruct (MkdirAll_entry _ _ _ E) as (H1 & _ & _ & H2 & H3 & H4 & H5 & _). done. }
  destruct mk as [[e|] w1]; [done|]. cbn in Hmk.
  destruct Hmk as (He1 & Ho1 & Ht1 & Hf1 & Hs1).
  unfold getCurrentFileName. cbn [rf set_rf currentName set_currentName].
  destruct (OS.OpenFile _ _ _ w1) as [[f err] w2] eqn:EO.
  destruct (OpenFile_append_create _ _ _ _ _ EO) as (Hok & _ & Ho2 & Ht2 & Hf2 & Hs2).
  destruct err as [e|]; [by destruct f|].
  destruct (Hok eq_refl) as (-> & Hopen & _ & Hent & Hoth).
  destruct (OS.StatSize (w_next w1) w2) as [size [e|]] eqn:ES.
  { by destruct (OS.Close _ w2). }
  intros [= <- <-]. exists (w_next w1).
  assert (Hfd : w_open w2 !! w_next w1 = Some (fileName (rf h))).
  { rewrite Hopen. apply lookup_insert_eq. }
  rewrite He1 in Hent.
  pose proof (StatSize_open _ _ _ _ _ Hfd Hent ES) as ->.
  cbn. repeat split; try done; try congruence.
  intros other Hne. rewrite Hoth by done. apply He1.
Qed.

(** The handle that [createFileAndFolderIfNeeded] stores was opened with
    [O_APPEND]. *)
Lemma createFileAndFolderIfNeeded_appends (h : RollingFileTimeHook) (w : World)
  (h' : RollingFileTimeHook) (w' : World) (fd : nat) :
  createFileAndFolderIfNeeded (h, w) = (None, (h', w')) ->
  currentFile (rf h') = Some fd ->
  appends w' fd = true.
Proof.
  unfold createFileAndFolderIfNeeded. cbn zeta.
  destruct (if negb _ then OS.MkdirAll w else (None, w)) as [[e|] w1]; [done|].
  unfold getCurrentFileName. cbn [rf set_rf currentName set_currentName].
  destruct (OS.OpenFile _ _ _ w1) as [[f err] w2] eqn:EO.
  destruct err as [e|]; [by destruct f|].
  destruct f as [fd'|]; [|done].
  pose proof (OpenFile_flags _ _ _ _ _ _ EO) as Hfl.
  destruct (OS.StatSize fd' w2) as [size [e|]] eqn:ES.
  { by destruct (OS.Close _ w2). }
  intros [= <- <-]. cbn. intros [= <-].
  unfold appends. by rewrite Hfl.
Qed.

Lemma needsToRoll_inv (h : RollingFileTimeHook) (w : World) :
  let label := time_Format (fst (OS.Now w)) (timePattern h) in
  needsToRoll (h, w)
  = if String.eqb (currentTimeFileName h) ""
    then (false, (set_currentTimeFileName label h, snd (OS.Now w)))
    else (negb (String.eqb label (currentTimeFileName h)), (h, snd (OS.Now w))).
Proof. unfold needsToRoll. by destruct (OS.Now w). Qed.

(** With the handle unset a roll fails at once, on [Close]. *)
Lemma roll_unset (h : RollingFileTimeHook) (w : World) :
  currentFile (rf h) = None -> roll (h, w) = (Some ErrInvalid, (h, w)).
Proof. intros H. unfold roll. by rewrite H. Qed.

End OpenFacts.

(** ** Claims about [Fire] *)

Lemma Write_frame (f : option nat) (b : list Byte.byte) (w : World) :
  let w' := snd (OS.Write f b w) in
  w_open w' = w_open w /\ w_next w' = w_next w /\ w_out w' = w_out w
  /\ w_trace w' = w_trace w /\ w_fault w' = w_fault w /\ w_stderr w' = w_stderr w
  /\ (forall name, is_Some (entry w' name) <-> is_Some (entry w name))
  /\ (forall name n', entry w' name = Some n' ->
                      exists n, entry w name = Some n /\ n_mode n' = n_mode n).
Proof.
  unfold OS.Write, entry. destruct f as [fd|]; [|by repeat split; eauto].
  destruct (w_open w !! fd) as [name|]; [|by repeat split; eauto].
  destruct (w_dir w) as [d|] eqn:Hd; [|cbn; rewrite Hd; by repeat split; eauto].
  destruct (d !! name) as [n|] eqn:Hn; [|cbn; rewrite Hd; by repeat split; eauto].
  cbn. repeat split; try done.
  - destruct (decide (name0 = name)) as [->|Hne].
    + rewrite Hn. eauto.
    + by rewrite lookup_insert_ne.
  - destruct (decide (name0 = name)) as [->|Hne].
    + rewrite lookup_insert_eq. eauto.
    + by rewrite lookup_insert_ne.
  - intros name0 n'. destruct (decide (name0 = name)) as [->|Hne].
    + rewrite lookup_insert_eq. intros [= <-]. eauto.
    + rewrite lookup_insert_ne by done. eauto.
Qed.

(** Writing changes the offset of a descriptor, never its flags. *)
Lemma Write_appends (f : option nat) (b : list Byte.byte) (w : World) (fd : nat) :
  appends (snd (OS.Write f b w)) fd = appends w fd.
Proof.
  unfold OS.Write. destruct f as [fd'|]; [|done].
  destruct (w_open w !! fd') as [name|]; [|done].
  destruct (w_dir w) as [d|]; [|done].
  destruct (d !! name) as [n|]; [|done].
  unfold appends. cbn.
  destruct (decide (fd = fd')) as [->|Hne]; [|by rewrite lookup_insert_ne].
  rewrite lookup_insert_eq. by destruct (w_desc w !! fd') as [[flag off]|].
Qed.

Lemma Logger_write_flags (e : Entry) (w : World) (fd : nat) :
  appends (Logger_write e w) fd = appends w fd.
Proof.
  unfold Logger_write.
  destruct (Formatter_Format _ _) as [b [err|]]; [done|]. apply Write_appends.
Qed.

Lemma Logger_write_frame (e : Entry) (w : World) :
  let w' := Logger_write e w in
  w_open w' = w_open w /\ w_next w' = w_next w /\ w_out w' = w_out w
  /\ w_trace w' = w_trace w /\ w_fault w' = w_fault w /\ w_stderr w' = w_stderr w
  /\ (forall name, is_Some (entry w' name) <-> is_Some (entry w name))
  /\ (forall name n', entry w' name = Some n' ->
                      exists n, entry w name = Some n /\ n_mode n' = n_mode n).
Proof.
  unfold Logger_write.
  destruct (Formatter_Format _ _) as [b [err|]]; [by repeat split; eauto|].
  apply Write_frame.
Qed.

Section FireFacts.

Context {TP : TimePkg} {SP : SortPkg}.

Lemma Fire_unset_wedged (e : Entry) (h : RollingFileTimeHook) (w : World) :
  currentFile (rf h) = None ->
  currentTimeFileName h <> "" ->
  time_Format (fst (OS.Now w)) (timePattern h) <> currentTimeFileName h ->
  Fire e (h, w) = (Some ErrInvalid, (h, snd (OS.Now w))).
Proof.
  intros Hnil Hc Hl. unfold Fire. rewrite needsToRoll_inv. cbn zeta.
  rewrite (proj2 (String.eqb_neq _ _) Hc), (proj2 (String.eqb_neq _ _) Hl). cbn.
  by rewrite roll_unset.
Qed.

(** Claim C1 fails on the code.  Once a roll has failed and left the handle
    unset with the old bucket label remembered, every later log call in
    another bucket calls [roll] again, [roll] closes the nil handle, and
    [Fire] returns [os.ErrInvalid] before it gets to open a file: nothing
    is opened, the hook does not change, and the next call does the
    same. *)
Theorem Fire_is_wedged_after_failed_roll (es : list (Z * Entry))
  (h : RollingFileTimeHook) (w : World) :
  currentFile (rf h) = None ->
  currentTimeFileName h <> "" ->
  Forall (fun te => time_Format (fst te) (timePattern h) <> currentTimeFileName h) es ->
  let r := emit_all es (h, w) in
  fst r = map (fun _ => Some ErrInvalid) es
  /\ fst (snd r) = h
  /\ w_open (snd (snd r)) = w_open w
  /\ w_next (snd (snd r)) = w_next w
  /\ w_trace (snd (snd r)) = w_trace w.
Proof.
  intros Hnil Hc. revert w.
  induction es as [|[t e] es IH]; intros w Hall; cbn zeta; [done|].
  apply Forall_cons in Hall as [Ht Hall]. cbn in Ht.
  cbn [emit_all]. unfold emit_at. cbn [fst snd].
  rewrite Fire_unset_wedged by done.
  destruct (Logger_write_frame e (snd (OS.Now (set_clock t [] w))))
    as (Ho & Hn & _ & Htr & _).
  specialize (IH (Logger_write e (snd (OS.Now (set_clock t [] w)))) Hall).
  cbn zeta in IH. destruct (emit_all es _) as [errs st]. cbn in *.
  destruct IH as (-> & -> & -> & -> & ->). by rewrite Ho, Hn, Htr.
Qed.

End FireFacts.

Lemma Fire_is_wedged_after_failed_roll_witness :
  let st := after_failed_scan in
  let es := [(day1 + day, text_entry "two"); (day1 + 2 * day, text_entry "three");
             (day1 + 3 * day, text_entry "four")] in
  currentFile (rf (fst st)) = None
  /\ w_fault (snd st) = no_fault
  /\ listing (snd st) = ["test.log"]
  /\ fst (emit_all es st) = [Some ErrInvalid; Some ErrInvalid; Some ErrInvalid]
  /\ fst (snd (emit_all es st)) = fst st
  /\ w_open (snd (snd (emit_all es st))) = w_open (snd st)
  /\ w_next (snd (snd (emit_all es st))) = w_next (snd st)
  /\ w_trace (snd (snd (emit_all es st))) = w_trace (snd st).
Proof.
  split; [reflexivity|]. split; [reflexivity|]. split; [vm_compute; reflexivity|].
  apply (Fire_is_wedged_after_failed_roll
           [(day1 + day, text_entry "two"); (day1 + 2 * day, text_entry "three");
            (day1 + 3 * day, text_entry "four")]
           (fst after_failed_scan) (snd after_failed_scan)).
  - reflexivity.
  - vm_compute. discriminate.
  - repeat constructor; vm_compute; discriminate.
Defined.

Section SizeFacts.

Context {TP : TimePkg} {SP : SortPkg}.

Lemma count_serialized_ok (e : Entry) (h : RollingFileTimeHook) (w : World)
  (h' : RollingFileTimeHook) (w' : World) :
  count_serialized e (h, w) = (None, (h', w')) ->
  let serialized := fst (Formatter_Format (entry_Logger e) (entry_Message e)) in
  snd (Formatter_Format (entry_Logger e) (entry_Message e)) = None
  /\ w' = w
  /\ h' = set_rf (set_currentFileSize
                    (wrap_int64 (currentFileSize (rf h) + Z.of_nat (length serialized)))
                    (rf h)) h.
Proof.
  unfold count_serialized.
  destruct (Formatter_Format _ _) as [b [err|]]; [done|].
  by intros [= <- <-].
Qed.

Lemma open_if_unset_ok (h : RollingFileTimeHook) (w : World)
  (h' : RollingFileTimeHook) (w' : World) :
  currentFile (rf h) = None ->
  open_if_unset (h, w) = (None, (h', w')) ->
  let base := fileName (rf h) in
  let n0 := opened_node (entry w base) in
  exists fd,
    currentFile (rf h') = Some fd
    /\ currentName (rf h') = base
    /\ w_out w' = Some fd
    /\ w_open w' !! fd = Some base
    /\ entry w' base = Some n0
    /\ (forall other, other <> base -> entry w' other = entry w other)
    /\ currentFileSize (rf h') = Z.of_nat (length (n_data n0))
    /\ same_config h h'
    /\ currentTimeFileName h' = currentTimeFileName h
    /\ w_trace w' = w_trace w /\ w_fault w' = w_fault w /\ w_stderr w' = w_stderr w.
Proof.
  intros Hnil. unfold open_if_unset. rewrite Hnil.
  destruct (createFileAndFolderIfNeeded (h, w)) as [[err|] [h1 w1]] eqn:E; [done|].
  intros [= <- <-].
  destruct (createFileAndFolderIfNeeded_ok _ _ _ _ E)
    as (fd & H1 & H2 & H3 & H4 & H5 & H6 & H7 & H8 & H9 & H10 & H11 & H12).
  exists fd. rewrite H1.
  change (entry (set_out (Some fd) w1)) with (entry w1).
  split; [done|]. split; [done|]. split; [done|]. split; [done|]. split; [done|].
  split; [done|]. split; [done|]. split; [done|]. split; [done|]. by repeat split.
Qed.

Lemma open_if_unset_appends (h : RollingFileTimeHook) (w : World)
  (h' : RollingFileTimeHook) (w' : World) (fd : nat) :
  currentFile (rf h) = None ->
  open_if_unset (h, w) = (None, (h', w')) ->
  currentFile (rf h') = Some fd ->
  appends w' fd = true.
Proof.
  intros Hnil. unfold open_if_unset. rewrite Hnil.
  destruct (createFileAndFolderIfNeeded (h, w)) as [[err|] [h1 w1]] eqn:E; [done|].
  destruct (createFileAndFolderIfNeeded_ok _ _ _ _ E) as (fd1 & H1 & _).
  rewrite H1. intros [= <- <-] Hfd.
  change (appends (set_out (Some fd1) w1) fd) with (appends w1 fd).
  by apply (createFileAndFolderIfNeeded_appends _ _ _ _ _ E).
Qed.

Lemma Logger_write_appends (e : Entry) (w : World) (fd : nat) (base : string) (n : Node) :
  snd (Formatter_Format (entry_Logger e) (entry_Message e)) = None ->
  w_out w = Some fd ->
  w_open w !! fd = Some base ->
  appends w fd = true ->
  entry w base = Some n ->
  entry (Logger_write e w) base
  = Some (mkNode (n_mode n)
                 (n_data n ++ fst (Formatter_Format (entry_Logger e) (entry_Message e)))).
Proof.
  intros Hfmt Hout Hopen Happ Hent. unfold Logger_write.
  destruct (Formatter_Format _ _) as [b err]. cbn in *. subst err.
  unfold OS.Write, entry, appends in *. rewrite Hout, Hopen.
  destruct (w_dir w) as [d|]; [|done]. rewrite Hent.
  destruct (w_desc w !! fd) as [[flag off]|]; [|done]. cbn in *.
  destruct (Z.land flag O_APPEND =? 0); [done|]. cbn. by rewrite lookup_insert_eq.
Qed.

(** Opening and counting, for a hook whose handle is unset. *)
Lemma open_and_count (e : Entry) (h0 : RollingFileTimeHook) (w0 : World)
  (h' : RollingFileTimeHook) (w' : World) :
  currentFile (rf h0) = None ->
  match open_if_unset (h0, w0) with
  | (Some err, st) => (Some err, st)
  | (None, st) => count_serialized e st
  end = (None, (h', w')) ->
  let serialized := fst (Formatter_Format (entry_Logger e) (entry_Message e)) in
  let base := fileName (rf h0) in
  let n0 := opened_node (entry w0 base) in
  exists fd h1 w1,
    createFileAndFolderIfNeeded (h0, w0) = (None, (h1, w1))
    /\ currentFileSize (rf h1) = Z.of_nat (length (n_data n0))
    /\ currentFile (rf h') = Some fd /\ w_out w' = Some fd /\ w_open w' !! fd = Some base
    /\ entry w' base = Some n0
    /\ currentFileSize (rf h')
       = wrap_int64 (currentFileSize (rf h1) + Z.of_nat (length serialized))
    /\ entry (Logger_write e w') base = Some (mkNode (n_mode n0) (n_data n0 ++ serialized))
    /\ appends w' fd = true.
Proof.
  intros Hnil E. cbn zeta.
  destruct (open_if_unset (h0, w0)) as [[err|] [h2 w2]] eqn:EO; [done|].
  destruct (open_if_unset_ok h0 w0 h2 w2 Hnil EO)
    as (fd & H1 & _ & H3 & H4 & H5 & _ & H7 & _).
  pose proof (open_if_unset_appends h0 w0 h2 w2 fd Hnil EO H1) as Happ.
  destruct (count_serialized_ok _ _ _ _ _ E) as (Hfmt & -> & ->).
  unfold open_if_unset in EO. rewrite Hnil in EO.
  destruct (createFileAndFolderIfNeeded (h0, w0)) as [[err|] [h1 w1]] eqn:EC; [done|].
  injection EO as <- <-.
  exists fd, h1, w1. cbn in *. repeat split; try done.
  by apply (Logger_write_appends e _ fd).
Qed.

(** Claim C8.  A log call that finds the handle unset opens the active
    file with [O_WRONLY|O_APPEND|O_CREATE]: what the file held stays (a
    missing file is created empty), the new descriptor is in append mode,
    and [createFileAndFolderIfNeeded] sets the tracked size to the length
    of that content.  The same call then adds the length of its
    serialized record, as every later call does, and what the framework
    writes through the descriptor goes behind the old content.  After a
    roll the active file is new and empty.  The tracked size is an
    [int64]: the sums are exact while they stay below [2^63]. *)
Theorem active_file_is_opened_for_append (e : Entry)
  (h : RollingFileTimeHook) (w : World) (h' : RollingFileTimeHook) (w' : World) :
  Fire e (h, w) = (None, (h', w')) ->
  let serialized := fst (Formatter_Format (entry_Logger e) (entry_Message e)) in
  let base := fileName (rf h) in
  (currentFile (rf h) = None ->
   let n0 := opened_node (entry w base) in
   exists fd h1 w1,
     createFileAndFolderIfNeeded (snd (needsToRoll (h, w))) = (None, (h1, w1))
     /\ currentFileSize (rf h1) = Z.of_nat (length (n_data n0))
     /\ currentFile (rf h') = Some fd /\ w_out w' = Some fd /\ w_open w' !! fd = Some base
     /\ entry w' base = Some n0
     /\ currentFileSize (rf h')
        = wrap_int64 (currentFileSize (rf h1) + Z.of_nat (length serialized))
     /\ entry (Logger_write e w') base = Some (mkNode (n_mode n0) (n_data n0 ++ serialized))
     /\ appends w' fd = true)
  /\ (forall fd,
         currentFile (rf h) = Some fd -> fst (needsToRoll (h, w)) = false ->
         currentFile (rf h') = Some fd
         /\ currentFileSize (rf h')
            = wrap_int64 (currentFileSize (rf h) + Z.of_nat (length serialized)))
  /\ (forall fd,
         currentFile (rf h) = Some fd -> fst (needsToRoll (h, w)) = true ->
         currentName (rf h) = base ->
         exists fd',
           currentFile (rf h') = Some fd' /\ w_out w' = Some fd'
           /\ w_open w' !! fd' = Some base
           /\ entry w' base = Some (mkNode defaultFilePermissions [])
           /\ currentFileSize (rf h') = wrap_int64 (0 + Z.of_nat (length serialized))
           /\ appends w' fd' = true)
  /\ (forall z, - 2 ^ 63 <= z < 2 ^ 63 -> wrap_int64 z = z).
Proof.
  intros E. cbn zeta. unfold Fire in E. rewrite needsToRoll_inv in *. cbn zeta in *.
  pose proof (Now_same_files w) as Hsf.
  set (w0 := snd (OS.Now w)) in *.
  set (label := time_Format (fst (OS.Now w)) (timePattern h)) in *.
  split; [|split; [|split; [|apply wrap_int64_small]]].
  - (* unset handle *)
    intros Hnil.
    rewrite <- (entry_same_files _ _ _ Hsf).
    destruct (String.eqb (currentTimeFileName h) ""); cbn [fst snd] in *.
    + by apply (open_and_count e (set_currentTimeFileName label h) w0 h' w').
    + destruct (negb _); [by rewrite roll_unset in E|].
      by apply (open_and_count e h w0 h' w').
  - (* handle set, no roll due *)
    intros fd Hfd Hneed.
    destruct (String.eqb (currentTimeFileName h) "") eqn:Ec; cbn in Hneed.
    + unfold open_if_unset in E. cbn in E. rewrite Hfd in E.
      destruct (count_serialized_ok _ _ _ _ _ E) as (_ & _ & ->). cbn. by rewrite Hfd.
    + rewrite Hneed in E. unfold open_if_unset in E. rewrite Hfd in E.
      destruct (count_serialized_ok _ _ _ _ _ E) as (_ & _ & ->). cbn. by rewrite Hfd.
  - (* handle set, a roll is due *)
    intros fd Hfd Hneed Hcur.
    destruct (String.eqb (currentTimeFileName h) "") eqn:Ec; cbn in Hneed; [done|].
    rewrite Hneed in E.
    destruct (roll (h, w0)) as [[err|] [h1 w1]] eqn:ER; [done|].
    destruct (roll_ok_inv _ _ _ _ ER) as (wc & history & w3 & _ & _ & ERn & -> & ->).
    pose proof (Rename_entry _ _ _ _ _ ERn) as (_ & _ & Hgone & _).
    specialize (Hgone eq_refl).
    rewrite Hcur in Hgone.
    specialize (Hgone (fun H => createFullFileName_neq _ _ (eq_sym H))).
    pose proof (remove_loop_entry
                  (to_delete (rf h)
                     (history ++ [createFullFileName (fileName (rf h)) (currentTimeFileName h)]))
                  w3 (fileName (rf h))) as Hnone.
    cbn zeta in Hnone. rewrite Hgone in Hnone.
    set (w4 := fold_left remove_step _ w3) in *.
    assert (Hnone' : entry w4 (fileName (rf h)) = None) by (by destruct Hnone as [?|[_ ?]]).
    clear Hnone. rename Hnone' into Hnone.
    set (h2 := set_currentTimeFileName _ _) in *.
    destruct (open_and_count e h2 w4 h' w' eq_refl E)
      as (fd' & h3 & w5 & _ & H2 & H3 & H4 & H5 & H6 & H7 & _ & H9).
    cbn in H2, H5, H6, H7. rewrite Hnone in *. cbn in *.
    exists fd'. rewrite H7, H2. by repeat split.
Qed.

End SizeFacts.

Lemma active_file_is_opened_for_append_witness :
  let h := new_hook "./test.log" "2006-01-02" 5 in
  let w := world_at (Some {[ "test.log" := regular "before the restart" ]}) day1 in
  let e := text_entry "after" in
  let h' := fst (snd (Fire e (h, w))) in
  let w' := snd (snd (Fire e (h, w))) in
  let serialized := fst (Formatter_Format (entry_Logger e) (entry_Message e)) in
  let n0 := opened_node (entry w "test.log") in
  fst (Fire e (h, w)) = None
  /\ currentFileSize (rf h') = 18 + 6
  /\ entry (Logger_write e w') "test.log"
     = Some (regular ("before the restart" +:+ "after" +:+ String "010"%char ""))
  /\ (currentFile (rf h) = None ->
      exists fd h1 w1,
        createFileAndFolderIfNeeded (snd (needsToRoll (h, w))) = (None, (h1, w1))
        /\ currentFileSize (rf h1) = Z.of_nat (length (n_data n0))
        /\ currentFile (rf h') = Some fd /\ w_out w' = Some fd
        /\ w_open w' !! fd = Some "test.log"
        /\ entry w' "test.log" = Some n0
        /\ currentFileSize (rf h')
           = wrap_int64 (currentFileSize (rf h1) + Z.of_nat (length serialized))
        /\ entry (Logger_write e w') "test.log"
           = Some (mkNode (n_mode n0) (n_data n0 ++ serialized))
        /\ appends w' fd = true).
Proof.
  split; [vm_compute; reflexivity|]. split; [vm_compute; reflexivity|].
  split; [vm_compute; reflexivity|].
  apply (active_file_is_opened_for_append
           (text_entry "after")
           (new_hook "./test.log" "2006-01-02" 5)
           (world_at (Some {[ "test.log" := regular "before the restart" ]}) day1)
           (fst (snd (Fire (text_entry "after")
                   (new_hook "./test.log" "2006-01-02" 5,
                    world_at (Some {[ "test.log" := regular "before the restart" ]}) day1))))
           (snd (snd (Fire (text_entry "after")
                   (new_hook "./test.log" "2006-01-02" 5,
                    world_at (Some {[ "test.log" := regular "before the restart" ]}) day1))))).
  vm_compute. reflexivity.
Defined.

(** ** One roll per completed bucket *)

Lemma completed_runs (c : string) (labels : list string) :
  completed c labels = removelast (runs (c :: labels)).
Proof.
  revert c. induction labels as [|l r IH]; intros c; [done|].
  cbn [completed]. change (runs (c :: l :: r))
    with (if String.eqb c l then runs (l :: r) else c :: runs (l :: r)).
  rewrite String.eqb_sym. destruct (String.eqb c l) eqn:E.
  - apply String.eqb_eq in E as ->. apply IH.
  - rewrite IH. destruct (runs (l :: r)) as [|x xs] eqn:Er; [|reflexivity].
    destruct r as [|y r]; cbn in Er; [discriminate|].
    destruct (String.eqb l y); [|discriminate].
    destruct r as [|z r]; cbn in Er; [discriminate|].
    exfalso. clear -Er. revert y z Er.
    induction r as [|a r IHr]; intros y z Er; cbn in Er.
    + destruct (String.eqb y z); discriminate.
    + destruct (String.eqb y z); [|discriminate]. by eapply IHr.
Qed.

Lemma runs_elem_of (labels : list string) (x : string) : x ∈ runs labels <-> x ∈ labels.
Proof.
  induction labels as [|a r IH]; [done|].
  destruct r as [|b r]; [done|].
  change (runs (a :: b :: r)) with (if String.eqb a b then runs (b :: r) else a :: runs (b :: r)).
  destruct (String.eqb a b) eqn:E.
  - apply String.eqb_eq in E as ->. rewrite IH, !elem_of_cons. tauto.
  - rewrite !elem_of_cons, IH, !elem_of_cons. tauto.
Qed.

Lemma runs_distinct_count (labels : list string) :
  NoDup (runs labels) ->
  length (runs labels) = size (list_to_set labels : gset string).
Proof.
  intros Hnd.
  rewrite <- (size_list_to_set (C := gset string) (runs labels)) by done.
  f_equal. apply set_eq. intros x. rewrite !elem_of_list_to_set. apply runs_elem_of.
Qed.

Lemma healthy_config {TP : TimePkg} (h h' : RollingFileTimeHook) (w : World) :
  same_config h h' -> healthy h w -> healthy h' w.
Proof.
  intros (Hn & Hd & _ & _) (Hf & Hp & Hdir). unfold healthy, hasRollName in *.
  rewrite Hn, Hd. done.
Qed.

Lemma same_config_refl {TP : TimePkg} (h : RollingFileTimeHook) : same_config h h.
Proof. by unfold same_config. Qed.

Lemma same_config_trans {TP : TimePkg} (h1 h2 h3 : RollingFileTimeHook) :
  same_config h1 h2 -> same_config h2 h3 -> same_config h1 h3.
Proof. unfold same_config. intros (-> & -> & -> & ->) (-> & -> & -> & ->). done. Qed.

Section BucketFacts.

Context {TP : TimePkg} {SP : SortPkg}.

Lemma createFileAndFolderIfNeeded_healthy (h : RollingFileTimeHook) (w : World) :
  healthy h w ->
  exists h' w', createFileAndFolderIfNeeded (h, w) = (None, (h', w')).
Proof.
  intros (Hf & Hp & Hdir). unfold createFileAndFolderIfNeeded.
  assert (Hlen : negb (GoString.len (currentDirPath (rf h)) =? 0) = true).
  { unfold GoString.len. destruct (currentDirPath (rf h)); [done|]. cbn. done. }
  rewrite Hlen.
  destruct (OS.MkdirAll w) as [err w1] eqn:EM.
  destruct (MkdirAll_entry _ _ _ EM) as (He1 & _ & _ & _ & _ & Hf1 & _ & Hd1).
  assert (err = None) as ->.
  { unfold OS.MkdirAll in EM. rewrite Hf in EM.
    destruct (w_dir w); by injection EM as <- _. }
  destruct (Hd1 eq_refl) as [d Hd].
  unfold getCurrentFileName. cbn [rf set_rf currentName set_currentName].
  unfold OS.OpenFile. rewrite Hf1, Hf, Hd.
  change (Z.land (Z.lor O_WRONLY (Z.lor O_APPEND O_CREATE)) O_CREATE =? 0) with false.
  change (Z.land (Z.lor O_WRONLY (Z.lor O_APPEND O_CREATE)) O_TRUNC =? 0) with true.
  assert (Hstat : forall d' ds, OS.StatSize (w_next w1)
                    (set_desc ds
                       (set_next (S (w_next w1))
                          (set_open (<[w_next w1 := fileName (rf h)]> (w_open w1))
                             (set_dir (Some d') w1))))
                  = (match d' !! fileName (rf h) with
                     | Some n => Z.of_nat (length (n_data n))
                     | None => 0
                     end, None)).
  { intros d' ds. unfold OS.StatSize. cbn. rewrite Hf1, Hf, lookup_insert_eq.
    by destruct (d' !! fileName (rf h)). }
  destruct (d !! fileName (rf h)) as [n|] eqn:Hn.
  - assert (Hnd : OS.isDir n = false).
    { apply (Hdir (fileName (rf h))); [|by left]. rewrite <- He1. unfold entry. by rewrite Hd. }
    rewrite Hnd. cbn. rewrite Hstat. eauto.
  - cbn. rewrite Hstat. eauto.
Qed.

Lemma count_serialized_frame (e : Entry) (h : RollingFileTimeHook) (w : World) :
  let r := count_serialized e (h, w) in
  snd (snd r) = w
  /\ currentFile (rf (fst (snd r))) = currentFile (rf h)
  /\ currentName (rf (fst (snd r))) = currentName (rf h)
  /\ currentTimeFileName (fst (snd r)) = currentTimeFileName h
  /\ same_config h (fst (snd r)).
Proof.
  unfold count_serialized.
  by destruct (Formatter_Format _ _) as [b [err|]].
Qed.

Lemma healthy_Logger_write (e : Entry) (h : RollingFileTimeHook) (w : World) :
  healthy h w -> healthy h (Logger_write e w).
Proof.
  intros (Hf & Hp & Hdir).
  destruct (Logger_write_frame e w) as (_ & _ & _ & _ & Hf' & _ & _ & Hmode).
  split; [by rewrite Hf'|]. split; [done|].
  intros name n' Hn' Hname. destruct (Hmode _ _ Hn') as (n & Hn & Hm).
  unfold OS.isDir. rewrite Hm. by apply (Hdir name n).
Qed.

Lemma writing_Logger_write (e : Entry) (c : string) (h : RollingFileTimeHook) (w : World) :
  writing c h w -> writing c h (Logger_write e w).
Proof.
  intros (fd & H1 & H2 & H3 & H4 & H5 & H6).
  destruct (Logger_write_frame e w) as (Ho & _ & _ & _ & _ & _ & Hsome & _).
  exists fd. rewrite Ho. repeat split; try done. by apply Hsome.
Qed.

(** The rest of a log call once the roll is decided: open if unset, count,
    and the framework's write. *)
Lemma finish_log_call (e : Entry) (c : string) (h : RollingFileTimeHook) (w : World) :
  healthy h w ->
  currentTimeFileName h = c -> c <> "" ->
  currentFile (rf h) = None \/ writing c h w ->
  let r := match open_if_unset (h, w) with
           | (Some err, st) => (Some err, st)
           | (None, st) => count_serialized e st
           end in
  let w' := Logger_write e (snd (snd r)) in
  healthy (fst (snd r)) w' /\ writing c (fst (snd r)) w'
  /\ same_config h (fst (snd r)) /\ w_trace w' = w_trace w.
Proof.
  intros Hh Hc Hne Hstate. cbn zeta.
  assert (Hopen : exists h1 w1,
             open_if_unset (h, w) = (None, (h1, w1))
             /\ healthy h1 w1 /\ writing c h1 w1 /\ same_config h h1
             /\ w_trace w1 = w_trace w).
  { destruct Hstate as [Hnil|Hw].
    - destruct (createFileAndFolderIfNeeded_healthy h w Hh) as (h1 & w1 & EC).
      assert (EO : open_if_unset (h, w)
                   = (None, (h1, set_out (currentFile (rf h1)) w1))).
      { unfold open_if_unset. by rewrite Hnil, EC. }
      destruct (open_if_unset_ok _ _ _ _ Hnil EO)
        as (fd & H1 & H2 & H3 & H4 & H5 & H6 & _ & H8 & H9 & H10 & H11 & _).
      eexists _, _. split; [exact EO|].
      destruct Hh as (Hf & Hp & Hdir).
      destruct H8 as (Hn8 & Hd8 & Hm8 & Hp8).
      split; [|split; [|split; [done|done]]].
      + split; [by intros s; rewrite H11|]. split; [by rewrite Hd8|].
        intros name n Hn Hname. unfold hasRollName in Hname. rewrite Hn8 in Hname.
        destruct (decide (name = fileName (rf h))) as [->|Hne'].
        * rewrite H5 in Hn. injection Hn as <-.
          destruct (entry w (fileName (rf h))) as [n0|] eqn:E0; [|done].
          apply (Hdir (fileName (rf h)) n0 E0). by left.
        * rewrite H6 in Hn by done. by apply (Hdir name n Hn).
      + exists fd. rewrite Hn8, H9, Hc. by repeat split.
    - exists h, w. destruct Hw as (fd & H1 & H2 & H3 & H4 & H5 & H6).
      split; [by unfold open_if_unset; rewrite H1|].
      split; [done|]. split; [by exists fd|]. split; [apply same_config_refl | done]. }
  destruct Hopen as (h1 & w1 & -> & Hh1 & Hw1 & Hc1 & Ht1).
  destruct (count_serialized_frame e h1 w1) as (Hw2 & Hf2 & Hn2 & Hl2 & Hc2).
  destruct (count_serialized e (h1, w1)) as [err [h2 w2]]. cbn in *. subst w2.
  destruct (Logger_write_frame e w1) as (_ & _ & _ & Htr & _).
  split; [|split; [|split]].
  - apply healthy_Logger_write. by apply (healthy_config h1 h2).
  - apply writing_Logger_write.
    destruct Hw1 as (fd & H1 & H2 & H3 & H4 & H5 & H6).
    destruct Hc2 as (Hn & _). exists fd. rewrite Hf2, Hn2, Hl2, Hn. by repeat split.
  - by apply (same_config_trans h h1 h2).
  - by rewrite Htr.
Qed.

End BucketFacts.

Lemma Rename_succeeds (oldname newname : string) (w : World) (d : gmap string Node) (n : Node) :
  w_fault w SysRename = None ->
  w_dir w = Some d ->
  d !! oldname = Some n ->
  (forall n', d !! newname = Some n' -> OS.isDir n' = false) ->
  OS.Rename oldname newname w
  = (None, log_event (EvRename oldname newname None)
             (set_dir (Some (<[newname := n]> (delete oldname d))) w)).
Proof.
  intros Hf Hd Hn Hnew. unfold OS.Rename. rewrite Hf, Hd, Hn.
  destruct (d !! newname) as [n'|]; [|done]. by rewrite (Hnew n' eq_refl).
Qed.

Section RollSteps.

Context {TP : TimePkg} {SP : SortPkg}.

(** On a directory that can be read the history is always obtained, and
    holds roll names only. *)
Lemma getSortedLogHistory_total (h : RollingFileTimeHook) (w : World) (d : gmap string Node) :
  w_dir w = Some d ->
  (forall s, w_fault w s = None) ->
  exists history,
    getSortedLogHistory (h, w) = (history, None)
    /\ Forall (fun name => hasRollName (rf h) name = true) history.
Proof.
  intros Hd Hf. unfold getSortedLogHistory.
  rewrite (getDirFilePaths_names _ w d Hd Hf).
  unfold sortFileRollNamesAsc. cbn. eexists. split; [done|].
  apply Forall_forall. intros name (tail & -> & _)%list_elem_of_fmap.
  apply hasRollName_iff. eauto.
Qed.

(** A hook that writes bucket [c] on a healthy file system rolls without
    error: the active file becomes the history file of [c]. *)
Lemma roll_healthy (c : string) (h : RollingFileTimeHook) (w : World) :
  healthy h w ->
  writing c h w ->
  w_ticks w = [] ->
  exists h' w',
    roll (h, w) = (None, (h', w'))
    /\ healthy h' w'
    /\ currentFile (rf h') = None
    /\ currentTimeFileName h' = time_Format (w_now w) (timePattern h)
    /\ same_config h h'
    /\ renamed (w_trace w')
       = renamed (w_trace w) ++ [(fileName (rf h), createFullFileName (fileName (rf h)) c)].
Proof.
  intros (Hf & Hp & Hdir) (fd & H1 & H2 & H3 & [n Hn] & H5 & H6) Hticks.
  rewrite roll_eq. cbn zeta.
  (* close *)
  assert (EC : OS.Close (currentFile (rf h)) w = (None, set_open (delete fd (w_open w)) w)).
  { unfold OS.Close. by rewrite H1, H2, Hf. }
  rewrite EC. set (w1 := set_open (delete fd (w_open w)) w).
  (* scan *)
  assert (Hd : exists d, w_dir w = Some d /\ d !! fileName (rf h) = Some n).
  { unfold entry in Hn. destruct (w_dir w) as [d|]; [eauto | done]. }
  destruct Hd as (d & Hd & Hdn).
  rewrite getSortedLogHistory_unset.
  destruct (getSortedLogHistory_total h w1 d Hd Hf) as (history & EH & Hroll).
  rewrite EH.
  (* clock and rename *)
  assert (EN : OS.Now w1 = (w_now w, w1)) by (unfold OS.Now; cbn; by rewrite Hticks).
  rewrite EN. cbn [fst snd]. rewrite H3, H5.
  set (new := createFullFileName (fileName (rf h)) c).
  rewrite (Rename_succeeds (fileName (rf h)) new w1 d n (Hf _) Hd Hdn).
  2:{ intros n' Hn'. apply (Hdir new n'); [by unfold entry; rewrite Hd|].
      right. apply hasRollName_iff. eauto. }
  set (w3 := log_event _ _).
  set (names := to_delete (rf h) (history ++ [new])).
  eexists _, _. split; [reflexivity|].
  destruct (remove_loop_trace names w3) as (_ & Hren & _).
  destruct (remove_loop_frame names w3) as (_ & _ & _ & _ & _ & Hfault).
  split; [|split; [done|split; [done|split; [done|]]]].
  - split; [intros s; rewrite Hfault; exact (Hf s)|]. split; [done|].
    intros name n' Hn' Hname. cbn [rf set_rf set_currentTimeFileName fileName] in Hname.
    unfold hasRollName in Hname. cbn in Hname. fold (hasRollName (rf h) name) in Hname.
    assert (H3' : entry w3 name = Some n').
    { destruct (remove_loop_entry names w3 name) as [E|[_ E]];
        cbn zeta in E; rewrite Hn' in E; [done | discriminate]. }
    unfold entry in H3'. cbn in H3'.
    destruct (decide (name = new)) as [->|Hne1].
    + rewrite lookup_insert_eq in H3'. injection H3' as <-.
      apply (Hdir (fileName (rf h)) n); [by unfold entry; rewrite Hd | by left].
    + rewrite lookup_insert_ne in H3' by done.
      destruct (decide (name = fileName (rf h))) as [->|Hne2].
      * by rewrite lookup_delete_eq in H3'.
      * rewrite lookup_delete_ne in H3' by done.
        apply (Hdir name n'); [by unfold entry; rewrite Hd | done].
  - rewrite Hren. subst w3. cbn. unfold renamed. rewrite omap_app. done.
Qed.

(** One log call, in each of the three situations. *)
Lemma emit_fresh (e : Entry) (t : Z) (h : RollingFileTimeHook) (w : World) :
  healthy h w -> fresh h ->
  time_Format t (timePattern h) <> "" ->
  let r := emit_at e t (h, w) in
  healthy (fst (snd r)) (snd (snd r))
  /\ writing (time_Format t (timePattern h)) (fst (snd r)) (snd (snd r))
  /\ same_config h (fst (snd r))
  /\ renamed (w_trace (snd (snd r))) = renamed (w_trace w).
Proof.
  intros Hh [Hnil Hc] Hl. cbn zeta. unfold emit_at, Fire. cbn [fst snd].
  rewrite needsToRoll_inv. cbn zeta.
  assert (EN : OS.Now (set_clock t [] w) = (t, set_clock t [] w)) by done.
  rewrite EN, Hc. cbn [fst snd String.eqb].
  set (h0 := set_currentTimeFileName _ h).
  destruct (finish_log_call e (time_Format t (timePattern h)) h0 (set_clock t [] w))
    as (H1 & H2 & H3 & H4); try done; [by left|].
  cbn zeta in *.
  destruct (match open_if_unset _ with (Some err, st) => _ | (None, st) => _ end)
    as [err [h' w']].
  cbn in *. by rewrite H4.
Qed.

Lemma emit_same_bucket (e : Entry) (t : Z) (c : string) (h : RollingFileTimeHook)
  (w : World) :
  healthy h w -> writing c h w ->
  time_Format t (timePattern h) = c ->
  let r := emit_at e t (h, w) in
  healthy (fst (snd r)) (snd (snd r))
  /\ writing c (fst (snd r)) (snd (snd r))
  /\ same_config h (fst (snd r))
  /\ renamed (w_trace (snd (snd r))) = renamed (w_trace w).
Proof.
  intros Hh Hw Hl. cbn zeta. unfold emit_at, Fire. cbn [fst snd].
  rewrite needsToRoll_inv. cbn zeta.
  assert (EN : OS.Now (set_clock t [] w) = (t, set_clock t [] w)) by done.
  rewrite EN. cbn [fst snd].
  pose proof Hw as (fd & H1 & H2 & H3 & H4 & H5 & H6).
  rewrite H5, (proj2 (String.eqb_neq _ _) H6), Hl, String.eqb_refl. cbn [negb].
  destruct (finish_log_call e c h (set_clock t [] w)) as (G1 & G2 & G3 & G4);
    try done; [by right|].
  cbn zeta in *.
  destruct (match open_if_unset _ with (Some err, st) => _ | (None, st) => _ end)
    as [err [h' w']].
  cbn in *. by rewrite G4.
Qed.

Lemma emit_next_bucket (e : Entry) (t : Z) (c : string) (h : RollingFileTimeHook)
  (w : World) :
  healthy h w -> writing c h w ->
  time_Format t (timePattern h) <> c ->
  time_Format t (timePattern h) <> "" ->
  let r := emit_at e t (h, w) in
  healthy (fst (snd r)) (snd (snd r))
  /\ writing (time_Format t (timePattern h)) (fst (snd r)) (snd (snd r))
  /\ same_config h (fst (snd r))
  /\ renamed (w_trace (snd (snd r)))
     = renamed (w_trace w) ++ [(fileName (rf h), createFullFileName (fileName (rf h)) c)].
Proof.
  intros Hh Hw Hl Hne. cbn zeta. unfold emit_at, Fire. cbn [fst snd].
  rewrite needsToRoll_inv. cbn zeta.
  assert (EN : OS.Now (set_clock t [] w) = (t, set_clock t [] w)) by done.
  rewrite EN. cbn [fst snd].
  pose proof Hw as (fd & H1 & H2 & H3 & H4 & H5 & H6).
  rewrite H5, (proj2 (String.eqb_neq _ _) H6), (proj2 (String.eqb_neq _ _) Hl). cbn [negb].
  destruct (roll_healthy c h (set_clock t [] w)) as (h1 & w1 & ER & R1 & R2 & R3 & R4 & R5);
    try done.
  rewrite ER. cbn in R3.
  destruct (finish_log_call e (time_Format t (timePattern h)) h1 w1)
    as (G1 & G2 & G3 & G4); try done; [by left|].
  cbn zeta in *.
  destruct (match open_if_unset _ with (Some err, st) => _ | (None, st) => _ end)
    as [err [h' w']].
  cbn in *. split; [done|]. split; [done|].
  split; [by apply (same_config_trans h h1 h')|]. by rewrite G4, R5.
Qed.

(** All the log calls of a hook that is writing bucket [c]. *)
Lemma emit_all_writing (es : list (Z * Entry)) :
  forall (c : string) (h : RollingFileTimeHook) (w : World),
    healthy h w -> writing c h w ->
    Forall (fun l => l <> "") (labels_of h es) ->
    renamed (w_trace (snd (snd (emit_all es (h, w)))))
    = renamed (w_trace w)
      ++ map (fun l => (fileName (rf h), createFullFileName (fileName (rf h)) l))
             (completed c (labels_of h es)).
Proof.
  induction es as [|[t e] es IH]; intros c h w Hh Hw Hall; [by rewrite app_nil_r|].
  apply Forall_cons in Hall as [Hl Hall]. cbn [fst] in Hl.
  cbn [emit_all labels_of map completed fst].
  destruct (String.eqb (time_Format t (timePattern h)) c) eqn:E.
  - apply String.eqb_eq in E.
    destruct (emit_same_bucket e t c h w Hh Hw E) as (G1 & G2 & (Hn & Hd & Hm & Hp) & G4).
    cbn zeta in *. destruct (emit_at e t (h, w)) as [err [h1 w1]]. cbn in *.
    specialize (IH c h1 w1 G1 G2). unfold labels_of in IH. rewrite Hp, Hn in IH.
    specialize (IH Hall).
    destruct (emit_all es (h1, w1)) as [errs st]. cbn in *. by rewrite IH, G4.
  - apply String.eqb_neq in E.
    destruct (emit_next_bucket e t c h w Hh Hw E Hl) as (G1 & G2 & (Hn & Hd & Hm & Hp) & G4).
    cbn zeta in *. destruct (emit_at e t (h, w)) as [err [h1 w1]]. cbn in *.
    specialize (IH _ h1 w1 G1 G2). unfold labels_of in IH. rewrite Hp, Hn in IH.
    specialize (IH Hall).
    destruct (emit_all es (h1, w1)) as [errs st]. cbn in *.
    by rewrite IH, G4, <- app_assoc.
Qed.

End RollSteps.

Lemma removelast_length {A : Type} (l : list A) :
  length (removelast l) = (length l - 1)%nat.
Proof.
  induction l as [|a l IH]; [done|].
  destruct l as [|b l]; [done|].
  change (removelast (a :: b :: l)) with (a :: removelast (b :: l)).
  cbn [length] in *. lia.
Qed.

Lemma removelast_sublist {A : Type} (l : list A) : removelast l `sublist_of` l.
Proof.
  induction l as [|a l IH]; [done|].
  destruct l as [|b l]; [by apply sublist_nil_l|].
  change (removelast (a :: b :: l)) with (a :: removelast (b :: l)).
  by apply sublist_skip.
Qed.

(** Claim C3, as the code has it.  A fresh hook on a healthy file system
    receives log calls whose times pass through N buckets, one after the
    other, each with a non-empty label; the clock stands still during a
    call, so that both readings of [time.Now()] in a call that rolls fall
    into one bucket.  The first
    roll decision only records the label and answers false.  Over the
    whole sequence the hook renames the active file exactly N - 1 times,
    once for each completed bucket and in their order, each time to base
    name, delimiter and the label of the bucket just completed.  When the
    buckets are distinct (no label comes back), N is the number of
    distinct labels and the N - 1 history names are distinct. *)
Theorem one_roll_per_completed_bucket {TP : TimePkg} {SP : SortPkg}
  (h : RollingFileTimeHook) (w : World) (es : list (Z * Entry)) :
  fresh h ->
  healthy h w ->
  Forall (fun l => l <> "") (labels_of h es) ->
  let buckets := runs (labels_of h es) in
  let w' := snd (snd (emit_all es (h, w))) in
  let history_name := fun l => fileName (rf h) +:+ rollingLogHistoryDelimiter +:+ l in
  fst (needsToRoll (h, w)) = false
  /\ currentTimeFileName (fst (snd (needsToRoll (h, w))))
     = time_Format (fst (OS.Now w)) (timePattern h)
  /\ renamed (w_trace w')
     = renamed (w_trace w)
       ++ map (fun l => (fileName (rf h), history_name l)) (removelast buckets)
  /\ length (removelast buckets) = (length buckets - 1)%nat
  /\ (NoDup buckets ->
      length buckets = size (list_to_set (labels_of h es) : gset string)
      /\ NoDup (map history_name (removelast buckets))).
Proof.
  intros [Hnil Hc] Hh Hall. cbn zeta.
  split; [by rewrite needsToRoll_inv, Hc|].
  split; [by rewrite needsToRoll_inv, Hc|].
  split; [|split; [apply removelast_length|]].
  - destruct es as [|[t e] es]; [by rewrite app_nil_r|].
    apply Forall_cons in Hall as [Hl Hall]. cbn [fst] in Hl.
    cbn [emit_all].
    destruct (emit_fresh e t h w Hh (conj Hnil Hc) Hl)
      as (G1 & G2 & (Hn & Hd & Hm & Hp) & G4).
    cbn zeta in *. destruct (emit_at e t (h, w)) as [err [h1 w1]]. cbn in *.
    pose proof (emit_all_writing es _ h1 w1 G1 G2) as G.
    unfold labels_of in G. rewrite Hp, Hn in G. specialize (G Hall).
    destruct (emit_all es (h1, w1)) as [errs st]. cbn in *.
    rewrite G, G4, completed_runs. done.
  - intros Hnd. split; [by apply runs_distinct_count|].
    apply NoDup_fmap_2_strong.
    + intros a b _ _ H. by apply (createFullFileName_inj (fileName (rf h))).
    + eapply sublist_NoDup; [exact Hnd | apply removelast_sublist].
Qed.

Lemma one_roll_per_completed_bucket_witness :
  let h := new_hook "./test.log" "2006-01-02" 5 in
  let w := world_at None day1 in
  let es := [(day1, text_entry "a"); (day1 + 60, text_entry "b");
             (day1 + day, text_entry "c"); (day1 + day + 60, text_entry "d");
             (day1 + 2 * day, text_entry "e")] in
  let buckets := runs (labels_of h es) in
  let w' := snd (snd (emit_all es (h, w))) in
  let history_name := fun l => fileName (rf h) +:+ rollingLogHistoryDelimiter +:+ l in
  buckets = ["2024-01-01"; "2024-01-02"; "2024-01-03"]
  /\ renamed (w_trace w')
     = [("test.log", "test.log.2024-01-01"); ("test.log", "test.log.2024-01-02")]
  /\ fst (needsToRoll (h, w)) = false
  /\ currentTimeFileName (fst (snd (needsToRoll (h, w))))
     = time_Format (fst (OS.Now w)) (timePattern h)
  /\ renamed (w_trace w')
     = renamed (w_trace w)
       ++ map (fun l => (fileName (rf h), history_name l)) (removelast buckets)
  /\ length (removelast buckets) = (length buckets - 1)%nat
  /\ (NoDup buckets ->
      length buckets = size (list_to_set (labels_of h es) : gset string)
      /\ NoDup (map history_name (removelast buckets))).
Proof.
  split; [vm_compute; reflexivity|]. split; [vm_compute; reflexivity|].
  apply (one_roll_per_completed_bucket
           (new_hook "./test.log" "2006-01-02" 5) (world_at None day1)
           [(day1, text_entry "a"); (day1 + 60, text_entry "b");
            (day1 + day, text_entry "c"); (day1 + day + 60, text_entry "d");
            (day1 + 2 * day, text_entry "e")]).
  - split; reflexivity.
  - split; [intros s; reflexivity|]. split; [vm_compute; discriminate|].
    intros name n Hn. vm_compute in Hn. discriminate.
  - repeat constructor; vm_compute; discriminate.
Defined.

(** Claim C3 as stated fails: a call that rolls reads [time.Now()] twice,
    in [needsToRoll] and in [getNewHistoryRollFileName].  Log calls on
    2024-01-01, 2024-01-02 and 2024-01-03 span three buckets, but midnight
    passes between the two readings of the second call (23:59:59 and
    00:00:01): that call rolls to the label of 2024-01-01 and remembers
    2024-01-03, and the third call does not roll.  One roll is made, not
    two; no history file is named after 2024-01-02, and the entry of that
    day stays in the active file with the entry of 2024-01-03. *)
Lemma midnight_between_the_clock_readings_skips_a_bucket :
  let h := new_hook "./test.log" "2006-01-02" 5 in
  let w := world_at None day1 in
  let late := day1 + day + 43199 in
  let times := [day1; late; day1 + 2 * day] in
  let r1 := emit_at (text_entry "one") day1 (h, w) in
  let r2 := emit_over (text_entry "two") [late; late + 2] (snd r1) in
  let r3 := emit_at (text_entry "three") (day1 + 2 * day) (snd r2) in
  let w' := snd (snd r3) in
  map (fun t => time_Format t (timePattern h)) times
  = ["2024-01-01"; "2024-01-02"; "2024-01-03"]
  /\ time_Format (late + 2) (timePattern h) = "2024-01-03"
  /\ healthy h w /\ fresh h
  /\ [fst r1; fst r2; fst r3] = [None; None; None]
  /\ currentTimeFileName (fst (snd r2)) = "2024-01-03"
  /\ renamed (w_trace w') = [("test.log", "test.log.2024-01-01")]
  /\ listing w' = ["test.log.2024-01-01"; "test.log"]
  /\ entry w' "test.log.2024-01-02" = None
  /\ entry w' "test.log.2024-01-01" = Some (regular ("one" +:+ LF))
  /\ entry w' "test.log" = Some (regular ("two" +:+ LF +:+ "three" +:+ LF)).
Proof.
  split; [vm_compute; reflexivity|]. split; [vm_compute; reflexivity|].
  split.
  { split; [intros s; reflexivity|]. split; [vm_compute; discriminate|].
    intros name n Hn. vm_compute in Hn. discriminate. }
  split; [split; reflexivity|].
  repeat split; vm_compute; reflexivity.
Qed.

(** ** The scenario of the specification

    Base name [test.log], pattern [2006-01-02], retention 2, one log call
    on each of four days: what the directory holds after each call. *)
Example four_days_with_retention_two :
  let h := new_hook "./test.log" "2006-01-02" 2 in
  let e := text_entry "line" in
  let st1 := snd (emit_at e day1 (h, world_at None day1)) in
  let st2 := snd (emit_at e (day1 + day) st1) in
  let st3 := snd (emit_at e (day1 + 2 * day) st2) in
  let st4 := snd (emit_at e (day1 + 3 * day) st3) in
  listing (snd st1) = ["test.log"]
  /\ listing (snd st2) = ["test.log.2024-01-01"; "test.log"]
  /\ listing (snd st3) = ["test.log.2024-01-01"; "test.log.2024-01-02"; "test.log"]
  /\ listing (snd st4) = ["test.log.2024-01-03"; "test.log.2024-01-02"; "test.log"]
  /\ removed (w_trace (snd st4)) = ["test.log.2024-01-01"]
  /\ entry (snd st4) "test.log.2024-01-03" = Some (regular ("line" +:+ String "010"%char ""))
  /\ currentFileSize (rf (fst st4)) = 5.
Proof. repeat split; vm_compute; reflexivity. Qed.

(** * Further properties of the code *)

(** ** The constructor *)

Lemma filepath_Split_spec (path : string) :
  fst (filepath_Split path) +:+ snd (filepath_Split path) = path
  /\ (separator ∉ list_ascii_of_string (snd (filepath_Split path)))
  /\ (fst (filepath_Split path) = "" <-> separator ∉ list_ascii_of_string path).
Proof.
  induction path as [|c r IH].
  - cbn. split; [done|]. split; [apply not_elem_of_nil|].
    split; [intros _; apply not_elem_of_nil | done].
  - cbn [filepath_Split]. destruct (filepath_Split r) as [d f]. cbn [fst snd] in *.
    destruct IH as (H1 & H2 & H3).
    destruct (String.eqb d "") eqn:Ed.
    + apply String.eqb_eq in Ed. subst d. change ("" +:+ f) with f in H1. subst f.
      destruct (Ascii.eqb c "/") eqn:Ec.
      * apply Ascii.eqb_eq in Ec. subst c. cbn [fst snd list_ascii_of_string].
        fold separator.
        split; [done|]. split; [done|].
        split; [done|]. intros H. exfalso. apply H. by left.
      * apply Ascii.eqb_neq in Ec. cbn [fst snd list_ascii_of_string].
        split; [done|]. rewrite not_elem_of_cons.
        split; [split; [intros E; apply Ec; by rewrite <- E | done]|].
        split; [|done]. intros _. split; [intros E; apply Ec; by rewrite <- E | by apply H3].
    + apply String.eqb_neq in Ed. cbn [fst snd list_ascii_of_string].
      split; [by rewrite string_app_cons, H1|]. split; [done|].
      split; [done|]. intros H. apply not_elem_of_cons in H as [_ H]. by apply H3 in H.
Qed.

(** Property X1.  [NewRollingFileTimeHook] never fails.  The hook it
    returns has no open file, no remembered label, a zero size, the
    pattern and the limit it was given, a directory path that is never
    empty and a file name that holds no slash.  When the path holds a
    slash, directory path followed by file name is the path; when it holds
    none, the directory path is "." and the file name is the whole
    path. *)
Theorem NewRollingFileTimeHook_splits_the_path (fpath pat : string) (maxroll : Z) :
  exists h,
    NewRollingFileTimeHook fpath pat maxroll = (Some h, None)
    /\ fresh h
    /\ currentName (rf h) = "" /\ currentFileSize (rf h) = 0
    /\ timePattern h = pat /\ maxRolls (rf h) = maxroll
    /\ currentDirPath (rf h) <> ""
    /\ (separator ∉ list_ascii_of_string (fileName (rf h)))
    /\ (separator ∈ list_ascii_of_string fpath ->
        currentDirPath (rf h) +:+ fileName (rf h) = fpath)
    /\ (separator ∉ list_ascii_of_string fpath ->
        currentDirPath (rf h) = "." /\ fileName (rf h) = fpath).
Proof.
  unfold NewRollingFileTimeHook, newRollingFile.
  destruct (filepath_Split_spec fpath) as (H1 & H2 & H3).
  destruct (filepath_Split fpath) as [d f]. cbn [fst snd] in *.
  eexists. split; [reflexivity|]. cbn.
  split; [done|]. do 4 (split; [done|]).
  destruct d as [|c d].
  - cbn. split; [done|]. split; [done|].
    split; [intros H; by apply H3 in H | by intros _].
  - cbn. split; [done|]. split; [done|].
    split; [by intros _ | intros H; by apply H3 in H].
Qed.

(** ** Regular files *)

Lemma ModeType_bits (n : Z) : Z.testbit ModeType n = true -> n ∈ type_bits.
Proof.
  intros H.
  destruct (Z.ltb_spec n 0) as [Hneg|Hpos]; [by rewrite Z.testbit_neg_r in H|].
  destruct (Z.ltb_spec n 32) as [Hlt|Hge].
  - assert (Hall : forallb (fun k => implb (Z.testbit ModeType (Z.of_nat k))
                                          (bool_decide (Z.of_nat k ∈ type_bits)))
                           (seq 0 32) = true) by (vm_compute; reflexivity).
    rewrite forallb_forall in Hall.
    specialize (Hall (Z.to_nat n)). rewrite Z2Nat.id in Hall by done.
    rewrite H in Hall. cbn [implb] in Hall.
    eapply bool_decide_eq_true_1, Hall, in_seq. lia.
  - rewrite Z.bits_above_log2 in H; [done | done |].
    change (Z.log2 ModeType) with 31. lia.
Qed.

(** Property X2.  [isRegular] answers true exactly for a mode with none of
    the bits of [os.ModeType] set: directory (31), symbolic link (27),
    device (26), named pipe (25), socket (24), character device (21),
    irregular (19).  The permission bits and the other flags play no
    part. *)
Theorem isRegular_iff_no_type_bit (m : Z) :
  isRegular m = true <-> Forall (fun b => Z.testbit m b = false) type_bits.
Proof.
  unfold isRegular. rewrite Z.eqb_eq. split.
  - intros H. apply Forall_forall. intros b Hb.
    assert (Hl : Z.testbit (Z.land m ModeType) b = false) by (rewrite H; apply Z.bits_0).
    rewrite Z.land_spec in Hl.
    assert (Hm : Z.testbit ModeType b = true).
    { unfold type_bits in Hb. rewrite !elem_of_cons, elem_of_nil in Hb.
      destruct Hb as [->|[->|[->|[->|[->|[->|[->|[]]]]]]]]; reflexivity. }
    rewrite Hm, andb_true_r in Hl. exact Hl.
  - intros H. apply Z.bits_inj'. intros n _. rewrite Z.land_spec, Z.bits_0.
    destruct (Z.testbit ModeType n) eqn:E; [|apply andb_false_r].
    rewrite andb_true_r. apply ModeType_bits in E.
    rewrite Forall_forall in H. by apply H.
Qed.

(** ** The directory scanner: filters, chunks and read errors *)

Lemma collect_chunk_filtered (absDirPath : string) (fpFilter : option (string -> bool))
  (fis : list FileInfo) (acc : list string) :
  collect_chunk absDirPath fpFilter true fis acc
  = acc ++ filter (fun fp => passes fpFilter fp = true)
                  (map fi_Name (filter (fun fi => isRegular (fi_Mode fi) = true) fis)).
Proof.
  unfold collect_chunk. revert acc.
  induction fis as [|fi fis IH]; intros acc; cbn [fold_left].
  - by rewrite app_nil_r.
  - rewrite IH. rewrite (filter_cons _ fi). destruct (isRegular (fi_Mode fi)) eqn:E.
    + rewrite decide_True by done. cbn [map]. rewrite (filter_cons _ (fi_Name fi)).
      destruct fpFilter as [flt|]; cbn [passes].
      * destruct (flt (fi_Name fi)) eqn:Ef.
        -- rewrite decide_True by done. by rewrite <- app_assoc.
        -- rewrite decide_False by congruence. done.
      * rewrite decide_True by done. by rewrite <- app_assoc.
    + rewrite decide_False by congruence. done.
Qed.

Lemma read_loop_filtered (fuel : nat) (absDirPath : string)
  (fpFilter : option (string -> bool)) (chunk : nat)
  (rest : list FileInfo) (acc : list string) (w : World) :
  (forall k, w_fault w (SysReaddir k) = None) ->
  (length rest < fuel)%nat ->
  read_loop fuel absDirPath fpFilter true chunk rest acc w
  = Some (acc ++ filter (fun fp => passes fpFilter fp = true)
                        (map fi_Name (filter (fun fi => isRegular (fi_Mode fi) = true) rest)),
          None).
Proof.
  intros Hf. revert chunk rest acc.
  induction fuel as [|fuel IH]; intros chunk rest acc Hlt; [lia|].
  rewrite read_loop_S. unfold OS.Readdir. rewrite Hf.
  destruct rest as [|fi rest].
  - simpl. by rewrite app_nil_r.
  - cbv iota. rewrite IH.
    + rewrite collect_chunk_filtered. rewrite <- app_assoc. f_equal. f_equal.
      rewrite <- filter_app, <- map_app, <- filter_app.
      by rewrite firstn_skipn.
    + rewrite rbs_eq, length_skipn. simpl in Hlt. simpl length. lia.
Qed.

Lemma listing_names (d : gmap string Node) :
  map fi_Name (filter (fun fi => isRegular (fi_Mode fi) = true)
                      (map (fun kv => mkFileInfo (fst kv) (n_mode (snd kv))) (map_to_list d)))
  = regular_names d.
Proof.
  unfold regular_names. induction (map_to_list d) as [|kv l IH]; [done|].
  simpl. rewrite !filter_cons. simpl.
  destruct (decide (isRegular (n_mode (snd kv)) = true)); simpl; by rewrite IH.
Qed.

Lemma getDirFilePaths_scannable (dirPath : string) (fpFilter : option (string -> bool))
  (w : World) (d : gmap string Node) :
  w_dir w = Some d ->
  can_scan w ->
  getDirFilePaths dirPath fpFilter true w
  = (filter (fun fp => passes fpFilter fp = true) (regular_names d), None).
Proof.
  intros Hd (Ho & Hg & Hr). unfold getDirFilePaths, OS.OpenDir, OS.Abs. rewrite Ho, Hg, Hd.
  destruct (negb (OS.IsAbs dirPath));
    rewrite read_loop_filtered by (auto; lia); simpl; by rewrite listing_names.
Qed.

(** Property X3.  On a directory that can be read, a scan in name-only
    mode returns, without error, the names of the regular entries that the
    filter lets pass (all of them when the filter is nil), each once and
    in directory order, however many chunks of 64 entries it takes to read
    them; the filter is applied to the name. *)
Theorem getDirFilePaths_lists_regular_files_that_pass (dirPath : string)
  (fpFilter : option (string -> bool)) (w : World) (d : gmap string Node) :
  w_dir w = Some d ->
  (forall s, w_fault w s = None) ->
  getDirFilePaths dirPath fpFilter true w
  = (filter (fun fp => passes fpFilter fp = true) (regular_names d), None)
  /\ NoDup (fst (getDirFilePaths dirPath fpFilter true w)).
Proof.
  intros Hd Hf.
  rewrite (getDirFilePaths_scannable dirPath fpFilter w d Hd) by (by repeat split).
  split; [done|]. cbn [fst]. apply NoDup_filter, regular_names_NoDup.
Qed.

Lemma getDirFilePaths_lists_regular_files_that_pass_witness :
  let w := world_at (Some (<[ "archive" := subdirectory ]> (numbered_files 130))) day1 in
  let round := fun name : string => String.eqb (GoString.slice_from 10 name) "00" in
  length (fst (getDirFilePaths "./" None true w)) = 130%nat
  /\ fst (getDirFilePaths "./" (Some round) true w)
     = ["test.log.100"; "test.log.000"]
  /\ getDirFilePaths "./" (Some round) true w
     = (filter (fun fp => passes (Some round) fp = true)
               (regular_names (<[ "archive" := subdirectory ]> (numbered_files 130))), None)
  /\ NoDup (fst (getDirFilePaths "./" (Some round) true w)).
Proof.
  split; [vm_compute; reflexivity|]. split; [vm_compute; reflexivity|].
  apply (getDirFilePaths_lists_regular_files_that_pass "./"
           (Some (fun name : string => String.eqb (GoString.slice_from 10 name) "00"))
           (world_at (Some (<[ "archive" := subdirectory ]> (numbered_files 130))) day1)
           (<[ "archive" := subdirectory ]> (numbered_files 130))).
  - reflexivity.
  - intros s. reflexivity.
Defined.

Lemma read_loop_error (fuel : nat) (absDirPath : string) (fpFilter : option (string -> bool))
  (pathIsName : bool) (k : nat) (e : error) (w : World) :
  w_fault w (SysReaddir k) = Some e -> is_EOF e = false ->
  forall (chunk : nat) (rest : list FileInfo) (acc : list string),
    (forall j, (chunk <= j < k)%nat -> w_fault w (SysReaddir j) = None) ->
    (chunk <= k)%nat -> ((k - chunk) * 64 < length rest + 64)%nat ->
    (length rest < fuel)%nat ->
    read_loop fuel absDirPath fpFilter pathIsName chunk rest acc w = Some ([], Some e).
Proof.
  intros Hk He.
  induction fuel as [|fuel IH]; intros chunk rest acc Hbefore Hle Hreach Hlt; [lia|].
  rewrite read_loop_S. unfold OS.Readdir.
  destruct (decide (chunk = k)) as [->|Hne].
  - by rewrite Hk, He.
  - rewrite Hbefore by lia.
    destruct rest as [|fi rest]; [cbn [length] in Hreach; lia|].
    cbv iota. apply IH.
    + intros j Hj. apply Hbefore. lia.
    + lia.
    + rewrite rbs_eq, length_skipn. cbn [length] in *. lia.
    + rewrite rbs_eq, length_skipn. cbn [length] in *. lia.
Qed.

(** Property X4.  On a directory that is opened and whose path is
    resolved without failure, when a [Readdir] call fails with an error
    other than [io.EOF], the scan returns that error and no path at all:
    the paths read by the calls before it are dropped.  The failing call
    is the one numbered [k] from zero; it is made when the calls before it
    succeeded and the directory has more than [64 * (k - 1)] entries. *)
Theorem getDirFilePaths_read_error_drops_all (dirPath : string)
  (fpFilter : option (string -> bool)) (pathIsName : bool) (w : World)
  (d : gmap string Node) (k : nat) (e : error) :
  w_dir w = Some d ->
  w_fault w SysOpenDir = None ->
  OS.IsAbs dirPath = true \/ w_fault w SysGetwd = None ->
  (forall j, (j < k)%nat -> w_fault w (SysReaddir j) = None) ->
  w_fault w (SysReaddir k) = Some e ->
  e <> EOF ->
  (k * 64 < size d + 64)%nat ->
  getDirFilePaths dirPath fpFilter pathIsName w = ([], Some e).
Proof.
  intros Hd Ho Habs Hbefore Hk He Hreach.
  assert (He' : is_EOF e = false) by (by destruct e).
  unfold getDirFilePaths, OS.OpenDir. rewrite Ho, Hd.
  set (dfi := map _ (map_to_list d)).
  assert (Hlen : length dfi = size d) by (subst dfi; by rewrite length_map, length_map_to_list).
  assert (Hloop : forall absDirPath,
             read_loop (S (length dfi)) absDirPath fpFilter pathIsName 0 dfi [] w
             = Some ([], Some e)).
  { intros absDirPath. apply (read_loop_error _ _ _ _ k e w Hk He').
    - intros j Hj. apply Hbefore. lia.
    - lia.
    - lia.
    - lia. }
  destruct (OS.IsAbs dirPath) eqn:EA; cbn [negb].
  - by rewrite Hloop.
  - destruct Habs as [?|Hg]; [done|]. unfold OS.Abs. rewrite Hg. by rewrite Hloop.
Qed.

Lemma getDirFilePaths_read_error_drops_all_witness :
  let d := numbered_files 130 in
  let w := set_fault (failing (SysReaddir 2) ErrIO) (world_at (Some d) day1) in
  length (fst (getDirFilePaths "./" None true (world_at (Some d) day1))) = 130%nat
  /\ getDirFilePaths "./" None true w = ([], Some ErrIO).
Proof.
  split; [vm_compute; reflexivity|].
  apply (getDirFilePaths_read_error_drops_all "./" None true
           (set_fault (failing (SysReaddir 2) ErrIO)
                      (world_at (Some (numbered_files 130)) day1))
           (numbered_files 130) 2 ErrIO).
  - reflexivity.
  - reflexivity.
  - right. reflexivity.
  - intros j Hj. destruct j as [|[|j]]; [reflexivity | reflexivity | lia].
  - reflexivity.
  - discriminate.
  - vm_compute. lia.
Defined.

(** ** Removing files *)

(** Property X5.  When [os.Remove] is not made to fail, [tryRemoveFile]
    returns nil and leaves the directory without the file, whether the
    file was there or not, and with every other entry as it was; a second
    call returns nil again.  When [os.Remove] fails with an error that is
    not a does-not-exist error, [tryRemoveFile] returns that error and the
    directory is unchanged. *)
Theorem tryRemoveFile_ensures_absence (filePath : string) (w : World) :
  let r := tryRemoveFile filePath w in
  (w_fault w (SysRemove filePath) = None ->
   fst r = None
   /\ entry (snd r) filePath = None
   /\ (forall other, other <> filePath -> entry (snd r) other = entry w other)
   /\ fst (tryRemoveFile filePath (snd r)) = None)
  /\ (forall e, w_fault w (SysRemove filePath) = Some e ->
                os_IsNotExist (Some e) = false ->
                fst r = Some e /\ w_dir (snd r) = w_dir w).
Proof.
  assert (Hnil : forall w0, w_fault w0 (SysRemove filePath) = None ->
                           fst (tryRemoveFile filePath w0) = None
                           /\ snd (tryRemoveFile filePath w0) = snd (OS.Remove filePath w0)).
  { intros w0 Hf. unfold tryRemoveFile.
    destruct (Remove_no_fault filePath w0 Hf) as (_ & Hres & _).
    destruct (OS.Remove filePath w0) as [err w']. cbn [fst snd] in *.
    by destruct Hres as [->| ->]. }
  cbn zeta. split.
  - intros Hf. destruct (Hnil w Hf) as [H1 H2]. rewrite H1, H2.
    destruct (Remove_no_fault filePath w Hf) as (Hdir & _).
    assert (Hf' : w_fault (snd (OS.Remove filePath w)) (SysRemove filePath) = None).
    { destruct (Remove_result filePath w) as [res ->]. exact Hf. }
    split; [done|]. unfold entry. rewrite Hdir.
    split; [|split].
    + destruct (w_dir w) as [d|]; [|done]. cbn. apply lookup_delete_eq.
    + intros other Hne. destruct (w_dir w) as [d|]; [|done]. cbn.
      by apply lookup_delete_ne.
    + by apply Hnil.
  - intros e Hf He. unfold tryRemoveFile, OS.Remove. rewrite Hf. cbn [fst snd].
    by rewrite He.
Qed.

Lemma tryRemoveFile_ensures_absence_witness :
  let w := world_at (Some {[ "test.log" := regular "now";
                             "test.log.2024-01-01" := regular "then" ]}) day1 in
  let w' := snd (tryRemoveFile "test.log.2024-01-01" w) in
  let wp := set_fault (failing (SysRemove "test.log.2024-01-01") ErrPermission) w in
  listing w' = ["test.log"]
  /\ tryRemoveFile "test.log.2024-01-01" wp
     = (Some ErrPermission,
        log_event (EvRemove "test.log.2024-01-01" (Some ErrPermission)) wp)
  /\ (w_fault w (SysRemove "test.log.2024-01-01") = None ->
      fst (tryRemoveFile "test.log.2024-01-01" w) = None
      /\ entry w' "test.log.2024-01-01" = None
      /\ (forall other, other <> "test.log.2024-01-01" -> entry w' other = entry w other)
      /\ fst (tryRemoveFile "test.log.2024-01-01" w') = None)
  /\ (forall e, w_fault w (SysRemove "test.log.2024-01-01") = Some e ->
                os_IsNotExist (Some e) = false ->
                fst (tryRemoveFile "test.log.2024-01-01" w) = Some e
                /\ w_dir w' = w_dir w).
Proof.
  split; [vm_compute; reflexivity|]. split; [vm_compute; reflexivity|].
  apply (tryRemoveFile_ensures_absence "test.log.2024-01-01"
           (world_at (Some {[ "test.log" := regular "now";
                              "test.log.2024-01-01" := regular "then" ]}) day1)).
Defined.

(** Property X6.  With a positive limit and a history without duplicates,
    [deleteOldRolls] returns nil and, whatever fails, leaves alone the
    last [maxRolls] entries of the history and every file that is not in
    the history; it closes no descriptor, redirects no output and renames
    nothing. *)
Theorem deleteOldRolls_spares_the_newest (r : rollingFile) (history : list string)
  (w : World) :
  0 < maxRolls r ->
  NoDup history ->
  let w' := snd (deleteOldRolls r history w) in
  let k := (length history - Z.to_nat (maxRolls r))%nat in
  fst (deleteOldRolls r history w) = None
  /\ length (drop k history) = Nat.min (length history) (Z.to_nat (maxRolls r))
  /\ (forall name, name ∈ drop k history -> entry w' name = entry w name)
  /\ (forall name, name ∉ history -> entry w' name = entry w name)
  /\ w_open w' = w_open w /\ w_out w' = w_out w
  /\ renamed (w_trace w') = renamed (w_trace w).
Proof.
  intros Hmax Hnd. cbn zeta. rewrite deleteOldRolls_eq. cbn [fst snd].
  assert (Hdel : to_delete r history
                 = take (length history - Z.to_nat (maxRolls r)) history).
  { unfold to_delete. rewrite (proj2 (Z.leb_gt _ _) Hmax). f_equal. lia. }
  rewrite Hdel. set (k := (length history - Z.to_nat (maxRolls r))%nat).
  split; [done|]. split; [rewrite length_drop; lia|].
  destruct (remove_loop_frame (take k history) w) as (Ho & _ & Hout & _).
  destruct (remove_loop_trace (take k history) w) as (_ & Hren & _).
  split; [|split; [|done]].
  - intros name Hin.
    destruct (remove_loop_entry (take k history) w name) as [E|[Hin' _]]; [exact E|].
    exfalso. rewrite <- (take_drop k history) in Hnd.
    apply NoDup_app in Hnd as (_ & Hdisj & _). by apply (Hdisj name).
  - intros name Hnot.
    destruct (remove_loop_entry (take k history) w name) as [E|[Hin' _]]; [exact E|].
    exfalso. apply Hnot. by apply (subseteq_take k history).
Qed.

Lemma deleteOldRolls_spares_the_newest_witness :
  let h := with_maxRolls 2 (new_hook "./test.log" "2006-01-02" 5) in
  let d : gmap string Node :=
    {[ "test.log.2024-01-01" := regular "a"; "test.log.2024-01-02" := regular "b";
       "test.log.2024-01-03" := regular "c"; "test.log.2024-01-04" := regular "d";
       "test.log" := regular "e" ]} in
  let w := set_fault (failing (SysRemove "test.log.2024-01-01") ErrPermission)
                     (world_at (Some d) day1) in
  let history := ["test.log.2024-01-01"; "test.log.2024-01-02";
                  "test.log.2024-01-03"; "test.log.2024-01-04"] in
  let w' := snd (deleteOldRolls (rf h) history w) in
  removed (w_trace w') = ["test.log.2024-01-02"]
  /\ fst (deleteOldRolls (rf h) history w) = None
  /\ length (drop 2 history) = 2%nat
  /\ (forall name, name ∈ drop 2 history -> entry w' name = entry w name)
  /\ (forall name, name ∉ history -> entry w' name = entry w name)
  /\ w_open w' = w_open w /\ w_out w' = w_out w
  /\ renamed (w_trace w') = renamed (w_trace w).
Proof.
  split; [vm_compute; reflexivity|].
  apply (deleteOldRolls_spares_the_newest
           (rf (with_maxRolls 2 (new_hook "./test.log" "2006-01-02" 5)))
           ["test.log.2024-01-01"; "test.log.2024-01-02";
            "test.log.2024-01-03"; "test.log.2024-01-04"]).
  - reflexivity.
  - apply (bool_decide_unpack _). vm_compute. reflexivity.
Defined.

(** ** The history and its order *)

Section HistoryFacts.

Context {TP : TimePkg} {SP : SortPkg}.

(** Property X7.  [getSortedLogHistory] fails exactly when the scan of the
    directory fails, with the error of the scan and an empty history:
    sorting never adds an error.  Every name it returns has the roll name
    prefix and is not the name of the active file.  When [sort.Sort]
    keeps its contract, the history has at most as many names as the scan
    found, and no name twice if the scan found none twice. *)
Theorem getSortedLogHistory_fails_as_the_scan_does (h : RollingFileTimeHook) (w : World) :
  let scan := getDirFilePaths (currentDirPath (rf h)) None true w in
  let r := getSortedLogHistory (h, w) in
  snd r = snd scan
  /\ (snd scan <> None -> fst r = [])
  /\ Forall (fun name => hasRollName (rf h) name = true /\ name <> fileName (rf h)) (fst r)
  /\ (SortContract SP ->
      (length (fst r) <= length (fst scan))%nat
      /\ (NoDup (fst scan) -> NoDup (fst r))).
Proof.
  cbn zeta.
  destruct (getDirFilePaths (currentDirPath (rf h)) None true w) as [files [err|]] eqn:ES.
  - unfold getSortedLogHistory. rewrite ES. cbn.
    split; [done|]. split; [done|]. split; [done|]. intros _.
    split; [lia|]. intros _. constructor.
  - split; [|split; [done|split]].
    + unfold getSortedLogHistory, sortFileRollNamesAsc. by rewrite ES.
    + unfold getSortedLogHistory, sortFileRollNamesAsc. rewrite ES. cbn [fst snd].
      apply Forall_forall. intros name (tail & -> & _)%list_elem_of_fmap. split.
      * apply hasRollName_iff. eauto.
      * apply createFullFileName_neq.
    + intros HS.
      destruct (getSortedLogHistory_spec h w files HS ES) as (tails & -> & Hperm & _).
      cbn [fst snd]. split.
      * rewrite length_map, Hperm. clear. induction files as [|f files IH]; [done|].
        cbn. destruct (validRollName h f); cbn; lia.
      * intros Hnd.
        assert (Hp : Permutation (map (createFullFileName (fileName (rf h))) tails)
                                 (filter (is_history h) files)).
        { rewrite <- full_names_filter. by apply Permutation_map. }
        rewrite Hp. by apply NoDup_filter.
Qed.

End HistoryFacts.

Lemma getSortedLogHistory_fails_as_the_scan_does_witness :
  let h := new_hook "./test.log" "2006-01-02" 5 in
  let d : gmap string Node :=
    {[ "test.log" := regular "now"; "test.log.2024-01-02" := regular "b";
       "test.log.2024-01-01" := regular "a"; "test.log.bak" := regular "" ]} in
  let w := world_at (Some d) day1 in
  let wp := set_fault (failing SysOpenDir ErrPermission) w in
  getSortedLogHistory (h, w) = (["test.log.2024-01-01"; "test.log.2024-01-02"], None)
  /\ getSortedLogHistory (h, wp) = ([], Some (ErrText "Cannot open directory ./"))
  /\ snd (getSortedLogHistory (h, w)) = snd (getDirFilePaths "./" None true w)
  /\ (snd (getDirFilePaths "./" None true w) <> None -> fst (getSortedLogHistory (h, w)) = [])
  /\ Forall (fun name => hasRollName (rf h) name = true /\ name <> "test.log")
            (fst (getSortedLogHistory (h, w)))
  /\ (SortContract GoSortPkg ->
      (length (fst (getSortedLogHistory (h, w)))
       <= length (fst (getDirFilePaths "./" None true w)))%nat
      /\ (NoDup (fst (getDirFilePaths "./" None true w))
          -> NoDup (fst (getSortedLogHistory (h, w))))).
Proof.
  split; [vm_compute; reflexivity|]. split; [vm_compute; reflexivity|].
  apply (getSortedLogHistory_fails_as_the_scan_does
           (new_hook "./test.log" "2006-01-02" 5)
           (world_at (Some {[ "test.log" := regular "now";
                              "test.log.2024-01-02" := regular "b";
                              "test.log.2024-01-01" := regular "a";
                              "test.log.bak" := regular "" ]}) day1)).
Defined.

Lemma swap_list_involutive {E : Type} (l : list E) (i j : nat) :
  swap_list (swap_list l i j) i j = l.
Proof.
  destruct (decide (i < length l)%nat) as [Hi|Hi]; cycle 1.
  { unfold swap_list. by rewrite !(lookup_ge_None_2 l i) by lia. }
  destruct (decide (j < length l)%nat) as [Hj|Hj]; cycle 1.
  { unfold swap_list. rewrite !(lookup_ge_None_2 l j) by lia.
    destruct (l !! i) eqn:El; by rewrite ?El, ?(lookup_ge_None_2 l j) by lia. }
  apply list_eq. intros k.
  rewrite swap_list_lookup by (by rewrite swap_list_length).
  rewrite swap_list_lookup by done.
  repeat case_decide; subst; congruence.
Qed.

Section InterfaceFacts.

Context {TP : TimePkg}.

Lemma Swap_data (p : rollTimeFileTailsSlice) (i j : nat) :
  rollTimeFileTailsSlice_Swap p i j = mkTails (swap_list (data p) i j) (pattern p).
Proof.
  unfold rollTimeFileTailsSlice_Swap, swap_list.
  destruct p as [l pat]. cbn. by destruct (l !! i), (l !! j).
Qed.

(** Property X8.  The three methods of [rollTimeFileTailsSlice] are what
    [sort.Sort] asks of a [sort.Interface], at positions in range.
    [Less] is irreflexive and asymmetric, and both [Less] and its negation
    are transitive; two suffixes that do not parse are never [Less] than
    one another.  [Swap] exchanges the two positions, leaves the others,
    the length and the pattern alone, and applied twice gives the slice
    back. *)
Theorem rollTimeFileTailsSlice_meets_sort_Interface
  (p : rollTimeFileTailsSlice) (i j k : nat) :
  (i < rollTimeFileTailsSlice_Len p)%nat ->
  (j < rollTimeFileTailsSlice_Len p)%nat ->
  (k < rollTimeFileTailsSlice_Len p)%nat ->
  let Less := rollTimeFileTailsSlice_Less in
  let Swap := rollTimeFileTailsSlice_Swap in
  Less p i i = false
  /\ (Less p i j = true -> Less p j i = false)
  /\ (Less p i j = true -> Less p j k = true -> Less p i k = true)
  /\ (Less p i j = false -> Less p j k = false -> Less p i k = false)
  /\ (forall a b, data p !! i = Some a -> data p !! j = Some b ->
                  time_ParseInLocation (pattern p) a = None ->
                  time_ParseInLocation (pattern p) b = None ->
                  Less p i j = false /\ Less p j i = false)
  /\ rollTimeFileTailsSlice_Len (Swap p i j) = rollTimeFileTailsSlice_Len p
  /\ pattern (Swap p i j) = pattern p
  /\ data (Swap p i j) !! i = data p !! j
  /\ data (Swap p i j) !! j = data p !! i
  /\ (forall m, m <> i -> m <> j -> data (Swap p i j) !! m = data p !! m)
  /\ Swap (Swap p i j) i j = p.
Proof.
  unfold rollTimeFileTailsSlice_Len. intros Hi Hj Hk. cbn zeta.
  destruct (lookup_lt_is_Some_2 _ _ Hi) as [a Ha].
  destruct (lookup_lt_is_Some_2 _ _ Hj) as [b Hb].
  destruct (lookup_lt_is_Some_2 _ _ Hk) as [c Hc].
  unfold rollTimeFileTailsSlice_Less. rewrite Ha, Hb, Hc. unfold time_Before.
  split; [apply Z.ltb_irrefl|].
  split; [rewrite Z.ltb_lt, Z.ltb_ge; lia|].
  split; [rewrite !Z.ltb_lt; lia|].
  split; [rewrite !Z.ltb_ge; lia|].
  split.
  { intros a' b' [= <-] [= <-] Pa Pb. unfold parse_ignoring_error. rewrite Pa, Pb.
    by rewrite Z.ltb_irrefl. }
  rewrite !Swap_data. cbn [data pattern].
  split; [apply swap_list_length|]. split; [done|].
  split; [rewrite swap_list_lookup by done; by rewrite decide_True|].
  split.
  { rewrite swap_list_lookup by done. destruct (decide (j = i)) as [->|]; [done|].
    by rewrite decide_True. }
  split.
  { intros m Hmi Hmj. rewrite swap_list_lookup by done.
    by rewrite !decide_False. }
  rewrite swap_list_involutive. by destruct p.
Qed.

End InterfaceFacts.

Lemma rollTimeFileTailsSlice_meets_sort_Interface_witness :
  let p := mkTails ["2024-01-03"; "bak"; "2024-01-01"; "old"] "2006-01-02" in
  rollTimeFileTailsSlice_Less p 2 0 = true
  /\ rollTimeFileTailsSlice_Less p 1 2 = true
  /\ data (rollTimeFileTailsSlice_Swap p 0 2) = ["2024-01-01"; "bak"; "2024-01-03"; "old"]
  /\ rollTimeFileTailsSlice_Less p 1 1 = false
  /\ (rollTimeFileTailsSlice_Less p 1 3 = true -> rollTimeFileTailsSlice_Less p 3 1 = false)
  /\ (rollTimeFileTailsSlice_Less p 1 3 = true -> rollTimeFileTailsSlice_Less p 3 2 = true ->
      rollTimeFileTailsSlice_Less p 1 2 = true)
  /\ (rollTimeFileTailsSlice_Less p 1 3 = false -> rollTimeFileTailsSlice_Less p 3 2 = false ->
      rollTimeFileTailsSlice_Less p 1 2 = false)
  /\ (forall a b, data p !! 1%nat = Some a -> data p !! 3%nat = Some b ->
                  time_ParseInLocation (pattern p) a = None ->
                  time_ParseInLocation (pattern p) b = None ->
                  rollTimeFileTailsSlice_Less p 1 3 = false
                  /\ rollTimeFileTailsSlice_Less p 3 1 = false)
  /\ rollTimeFileTailsSlice_Len (rollTimeFileTailsSlice_Swap p 1 3)
     = rollTimeFileTailsSlice_Len p
  /\ pattern (rollTimeFileTailsSlice_Swap p 1 3) = pattern p
  /\ data (rollTimeFileTailsSlice_Swap p 1 3) !! 1%nat = data p !! 3%nat
  /\ data (rollTimeFileTailsSlice_Swap p 1 3) !! 3%nat = data p !! 1%nat
  /\ (forall m, m <> 1%nat -> m <> 3%nat ->
                data (rollTimeFileTailsSlice_Swap p 1 3) !! m = data p !! m)
  /\ rollTimeFileTailsSlice_Swap (rollTimeFileTailsSlice_Swap p 1 3) 1 3 = p.
Proof.
  split; [vm_compute; reflexivity|]. split; [vm_compute; reflexivity|].
  split; [vm_compute; reflexivity|].
  apply (rollTimeFileTailsSlice_meets_sort_Interface
           (mkTails ["2024-01-03"; "bak"; "2024-01-01"; "old"] "2006-01-02") 1 3 2);
    vm_compute; lia.
Defined.

(** ** Rolls that fail and rolls that succeed *)

Lemma Close_clock (f : option nat) (w : World) :
  fst (OS.Now (snd (OS.Close f w))) = fst (OS.Now w)
  /\ w_out (snd (OS.Close f w)) = w_out w
  /\ w_next (snd (OS.Close f w)) = w_next w.
Proof.
  unfold OS.Close, OS.Now. destruct f as [fd|]; [|done].
  destruct (w_open w !! fd); [|done]. cbn. by destruct (w_ticks w).
Qed.

Lemma to_delete_front (r : rollingFile) (history : list string) (new name : string) :
  name ∈ to_delete r (history ++ [new]) -> name ∈ history /\ 0 < maxRolls r.
Proof.
  unfold to_delete. destruct (maxRolls r <=? 0) eqn:E; [by intros ?%elem_of_nil|].
  apply Z.leb_gt in E. rewrite length_app. cbn [length].
  rewrite take_app_le by lia. intros H. split; [|done].
  eapply subseteq_take. exact H.
Qed.

Section RollOutcomes.

Context {TP : TimePkg} {SP : SortPkg}.

Lemma scan_after_close (h : RollingFileTimeHook) (w : World) :
  getSortedLogHistory (set_rf (set_currentFile None (rf h)) h,
                       snd (OS.Close (currentFile (rf h)) w))
  = getSortedLogHistory (h, w).
Proof.
  rewrite getSortedLogHistory_unset.
  destruct (Close_same_files (currentFile (rf h)) w) as (Hd & _ & _ & Hf & Hc).
  apply getSortedLogHistory_ext; [done | done |]. intros s _. by rewrite Hf.
Qed.

(** Property X9.  A roll that returns an error has changed no file: the
    directory is as before, nothing was renamed, no removal was tried and
    nothing was printed.  What it leaves in the hook depends on the step
    that failed.  When closing failed, the hook is unchanged: the handle
    stays set.  When the scan failed, the handle is nil and the
    remembered label is unchanged.  When the rename failed, the handle is
    nil and the remembered label has moved on to the label of the current
    time, although the active file was not rolled. *)
Theorem failed_roll_changes_no_file (h : RollingFileTimeHook) (w : World)
  (e : error) (h' : RollingFileTimeHook) (w' : World) :
  roll (h, w) = (Some e, (h', w')) ->
  w_dir w' = w_dir w
  /\ renamed (w_trace w') = renamed (w_trace w)
  /\ remove_attempts (w_trace w') = remove_attempts (w_trace w)
  /\ w_stderr w' = w_stderr w
  /\ same_config h h'
  /\ currentName (rf h') = currentName (rf h)
  /\ ((fst (OS.Close (currentFile (rf h)) w) = Some e /\ h' = h)
      \/ (fst (OS.Close (currentFile (rf h)) w) = None
          /\ currentFile (rf h') = None
          /\ ((snd (getSortedLogHistory (h, w)) = Some e
               /\ currentTimeFileName h' = currentTimeFileName h)
              \/ (snd (getSortedLogHistory (h, w)) = None
                  /\ currentTimeFileName h'
                     = time_Format (fst (OS.Now w)) (timePattern h))))).
Proof.
  rewrite roll_eq. intros H.
  pose proof (Close_same_files (currentFile (rf h)) w) as (Hd1 & Ht1 & Hs1 & Hf1 & Hc1).
  pose proof (scan_after_close h w) as Hscan.
  pose proof (Close_clock (currentFile (rf h)) w) as (Hnow & _).
  destruct (OS.Close (currentFile (rf h)) w) as [[err|] w1]; cbn [fst snd] in *.
  - injection H as <- <- <-. rewrite Hd1, Ht1, Hs1.
    do 4 (split; [done|]). split; [apply same_config_refl|]. split; [done|]. by left.
  - cbn zeta in H. rewrite Hscan in H.
    destruct (getSortedLogHistory (h, w)) as [history [err|]]; cbn [fst snd] in *.
    + injection H as <- <- <-. rewrite Hd1, Ht1, Hs1.
      do 4 (split; [done|]). split; [done|]. split; [done|].
      right. split; [done|]. split; [done|]. by left.
    + pose proof (Now_same_files w1) as (Hd2 & Ht2 & Hs2 & _).
      destruct (OS.Rename _ _ (snd (OS.Now w1))) as [[err|] w3] eqn:ER; [|discriminate].
      injection H as <- <- <-.
      destruct (Rename_entry _ _ _ _ _ ER) as (_ & _ & _ & Hd3).
      destruct (Rename_frame _ _ _ _ _ ER) as (Ht3 & Hs3 & _).
      rewrite Hd3 by done. rewrite Ht3, Hs3, Hd2, Ht2, Hs2, Hd1, Ht1, Hs1.
      unfold renamed, remove_attempts. rewrite !omap_app. cbn. rewrite !app_nil_r.
      do 4 (split; [done|]). split; [done|]. split; [done|].
      right. split; [done|]. split; [done|]. right. by rewrite Hnow.
Qed.

Lemma roll_ok_trace (h : RollingFileTimeHook) (w : World)
  (h' : RollingFileTimeHook) (w' : World) :
  roll (h, w) = (None, (h', w')) ->
  renamed (w_trace w')
  = renamed (w_trace w)
    ++ [(currentName (rf h), createFullFileName (fileName (rf h)) (currentTimeFileName h))]
  /\ h' = set_currentTimeFileName (time_Format (fst (OS.Now w)) (timePattern h))
             (set_rf (set_currentFile None (rf h)) h).
Proof.
  intros H.
  destruct (roll_ok_inv h w h' w' H) as (w1 & history & w3 & EC & EH & ER & -> & ->).
  pose proof (Close_clock (currentFile (rf h)) w) as (Hnow & _).
  rewrite EC in Hnow. cbn [snd] in Hnow. rewrite Hnow. split; [|done].
  destruct (Rename_frame _ _ _ _ _ ER) as (Ht3 & _).
  destruct (remove_loop_trace
              (to_delete (rf h) (history ++ [createFullFileName (fileName (rf h))
                                               (currentTimeFileName h)])) w3)
    as (_ & Hren & _).
  cbn zeta in Hren. rewrite Hren, Ht3. unfold renamed. rewrite omap_app. cbn.
  pose proof (Close_same_files (currentFile (rf h)) w) as (_ & Ht1 & _).
  rewrite EC in Ht1. cbn in Ht1.
  pose proof (Now_same_files w1) as (_ & Ht2 & _). by rewrite Ht2, Ht1.
Qed.

Lemma roll_ok_entries (h : RollingFileTimeHook) (w : World)
  (h' : RollingFileTimeHook) (w' : World) :
  roll (h, w) = (None, (h', w')) ->
  let newHistoryName := createFullFileName (fileName (rf h)) (currentTimeFileName h) in
  let history := fst (getSortedLogHistory (h, w)) in
  is_Some (entry w (currentName (rf h)))
  /\ (newHistoryName ∉ history ->
      entry w' newHistoryName = entry w (currentName (rf h)))
  /\ (currentName (rf h) <> newHistoryName -> entry w' (currentName (rf h)) = None)
  /\ (forall other, other <> currentName (rf h) -> other <> newHistoryName ->
                    other ∉ history -> entry w' other = entry w other).
Proof.
  intros H. cbn zeta.
  destruct (roll_ok_inv h w h' w' H) as (w1 & history & w3 & EC & EH & ER & -> & ->).
  rewrite EH. cbn [fst].
  set (new := createFullFileName (fileName (rf h)) (currentTimeFileName h)) in *.
  set (names := to_delete (rf h) (history ++ [new])).
  assert (Hsame : forall name, entry (snd (OS.Now w1)) name = entry w name).
  { intros name. apply entry_same_files.
    apply (same_files_trans _ w1); [|apply Now_same_files].
    pose proof (Close_same_files (currentFile (rf h)) w) as Hc. by rewrite EC in Hc. }
  destruct (Rename_entry _ _ _ _ _ ER) as (Hother & Hnew & Hold & _).
  destruct (Rename_result (currentName (rf h)) new (snd (OS.Now w1))) as (res & ER' & Hsrc).
  rewrite ER in ER'. injection ER' as <- _.
  split; [rewrite <- Hsame; by apply Hsrc|].
  split; [|split].
  - intros Hnot.
    destruct (remove_loop_entry names w3 new) as [E|[Hin _]].
    + cbn zeta in E. rewrite E, Hnew by done. apply Hsame.
    + by apply to_delete_front in Hin as [Hin _].
  - intros Hne.
    destruct (remove_loop_entry names w3 (currentName (rf h))) as [E|[_ E]]; [|exact E].
    cbn zeta in E. rewrite E. by apply Hold.
  - intros other Hn1 Hn2 Hnot.
    destruct (remove_loop_entry names w3 other) as [E|[Hin _]].
    + cbn zeta in E. rewrite E, Hother by done. apply Hsame.
    + by apply to_delete_front in Hin as [Hin _].
Qed.

(** Property X10.  A roll that returns nil has moved the active file: the
    file existed under its current name, that name is gone afterwards
    (when the history name differs from it), and the history name, which
    is base name, delimiter and the remembered label, holds what the
    active file held, provided the scan had not found a history file of
    that very name.  Every file that is neither of the two nor in the
    scanned history is left as it was.  The handle is nil afterwards. *)
Theorem roll_moves_the_active_file (h : RollingFileTimeHook) (w : World)
  (h' : RollingFileTimeHook) (w' : World) :
  roll (h, w) = (None, (h', w')) ->
  let newHistoryName := createFullFileName (fileName (rf h)) (currentTimeFileName h) in
  let history := fst (getSortedLogHistory (h, w)) in
  is_Some (entry w (currentName (rf h)))
  /\ (newHistoryName ∉ history ->
      entry w' newHistoryName = entry w (currentName (rf h)))
  /\ (currentName (rf h) <> newHistoryName -> entry w' (currentName (rf h)) = None)
  /\ (forall other, other <> currentName (rf h) -> other <> newHistoryName ->
                    other ∉ history -> entry w' other = entry w other)
  /\ currentFile (rf h') = None
  /\ renamed (w_trace w')
     = renamed (w_trace w) ++ [(currentName (rf h), newHistoryName)].
Proof.
  intros H. cbn zeta.
  destruct (roll_ok_entries h w h' w' H) as (H1 & H2 & H3 & H4).
  destruct (roll_ok_trace h w h' w' H) as (H5 & H6).
  do 4 (split; [done|]). split; [by rewrite H6 | done].
Qed.

End RollOutcomes.

Lemma failed_roll_changes_no_file_witness :
  let h := fst (fourth_day 5) in
  let w := set_fault (failing SysRename ErrPermission) (snd (fourth_day 5)) in
  let h' := fst (snd (roll (h, w))) in
  let w' := snd (snd (roll (h, w))) in
  fst (roll (h, w)) = Some ErrPermission
  /\ listing w' = ["test.log.2024-01-01"; "test.log.2024-01-02"; "test.log"]
  /\ currentTimeFileName h = "2024-01-03"
  /\ currentTimeFileName h' = "2024-01-04"
  /\ w_dir w' = w_dir w
  /\ renamed (w_trace w') = renamed (w_trace w)
  /\ remove_attempts (w_trace w') = remove_attempts (w_trace w)
  /\ w_stderr w' = w_stderr w
  /\ same_config h h'
  /\ currentName (rf h') = currentName (rf h)
  /\ ((fst (OS.Close (currentFile (rf h)) w) = Some ErrPermission /\ h' = h)
      \/ (fst (OS.Close (currentFile (rf h)) w) = None
          /\ currentFile (rf h') = None
          /\ ((snd (getSortedLogHistory (h, w)) = Some ErrPermission
               /\ currentTimeFileName h' = currentTimeFileName h)
              \/ (snd (getSortedLogHistory (h, w)) = None
                  /\ currentTimeFileName h'
                     = time_Format (fst (OS.Now w)) (timePattern h))))).
Proof.
  split; [vm_compute; reflexivity|]. split; [vm_compute; reflexivity|].
  split; [vm_compute; reflexivity|]. split; [vm_compute; reflexivity|].
  apply (failed_roll_changes_no_file
           (fst (fourth_day 5))
           (set_fault (failing SysRename ErrPermission) (snd (fourth_day 5)))
           ErrPermission).
  vm_compute. reflexivity.
Defined.

Lemma roll_moves_the_active_file_witness :
  let h := fst (fourth_day 5) in
  let w := snd (fourth_day 5) in
  let h' := fst (snd (roll (h, w))) in
  let w' := snd (snd (roll (h, w))) in
  let history := fst (getSortedLogHistory (h, w)) in
  fst (roll (h, w)) = None
  /\ history = ["test.log.2024-01-01"; "test.log.2024-01-02"]
  /\ entry w' "test.log.2024-01-03" = Some (regular ("three" +:+ String "010"%char ""))
  /\ is_Some (entry w "test.log")
  /\ ("test.log.2024-01-03" ∉ history -> entry w' "test.log.2024-01-03" = entry w "test.log")
  /\ ("test.log" <> "test.log.2024-01-03" -> entry w' "test.log" = None)
  /\ (forall other, other <> "test.log" -> other <> "test.log.2024-01-03" ->
                    other ∉ history -> entry w' other = entry w other)
  /\ currentFile (rf h') = None
  /\ renamed (w_trace w') = renamed (w_trace w) ++ [("test.log", "test.log.2024-01-03")].
Proof.
  split; [vm_compute; reflexivity|]. split; [vm_compute; reflexivity|].
  split; [vm_compute; reflexivity|].
  apply (roll_moves_the_active_file (fst (fourth_day 5)) (snd (fourth_day 5))).
  vm_compute. reflexivity.
Defined.

Section Wedges.

Context {TP : TimePkg} {SP : SortPkg}.

Lemma Fire_closed_wedged (e : Entry) (h : RollingFileTimeHook) (w : World) (fd : nat) :
  currentFile (rf h) = Some fd ->
  w_open w !! fd = None ->
  currentTimeFileName h <> "" ->
  time_Format (fst (OS.Now w)) (timePattern h) <> currentTimeFileName h ->
  Fire e (h, w) = (Some ErrClosed, (h, snd (OS.Now w))).
Proof.
  intros Hfd Hclosed Hc Hl. unfold Fire. rewrite needsToRoll_inv. cbn zeta.
  rewrite (proj2 (String.eqb_neq _ _) Hc), (proj2 (String.eqb_neq _ _) Hl). cbn.
  rewrite roll_eq, Hfd. unfold OS.Close.
  assert (Ho : w_open (snd (OS.Now w)) = w_open w).
  { unfold OS.Now. by destruct (w_ticks w). }
  by rewrite Ho, Hclosed.
Qed.

Lemma emit_all_closed_wedged (es : list (Z * Entry)) (h : RollingFileTimeHook) (fd : nat) :
  currentFile (rf h) = Some fd ->
  currentTimeFileName h <> "" ->
  Forall (fun te => time_Format (fst te) (timePattern h) <> currentTimeFileName h) es ->
  forall w,
    w_open w !! fd = None ->
    let r := emit_all es (h, w) in
    fst r = map (fun _ => Some ErrClosed) es
    /\ fst (snd r) = h
    /\ w_open (snd (snd r)) = w_open w
    /\ w_trace (snd (snd r)) = w_trace w
    /\ (w_out w = Some fd -> w_dir (snd (snd r)) = w_dir w).
Proof.
  intros Hfd Hc.
  induction es as [|[t e] es IH]; intros Hall w Hclosed; cbn zeta; [done|].
  apply Forall_cons in Hall as [Ht Hall]. cbn in Ht.
  cbn [emit_all]. unfold emit_at. cbn [fst snd].
  rewrite (Fire_closed_wedged e h _ fd) by done.
  change (snd (OS.Now (set_clock t [] w))) with (set_clock t [] w).
  destruct (Logger_write_frame e (set_clock t [] w)) as (Ho & _ & Hout & Htr & _).
  cbn zeta in Ho, Hout, Htr.
  assert (Hlost : w_out w = Some fd ->
                  w_dir (Logger_write e (set_clock t [] w)) = w_dir w).
  { intros Hw. unfold Logger_write.
    destruct (Formatter_Format _ _) as [b [err|]]; [done|].
    unfold OS.Write. cbn. by rewrite Hw, Hclosed. }
  assert (Hclosed' : w_open (Logger_write e (set_clock t [] w)) !! fd = None)
    by (by rewrite Ho).
  specialize (IH Hall (Logger_write e (set_clock t [] w)) Hclosed').
  cbn zeta in IH. destruct (emit_all es _) as [errs st]. cbn [fst snd] in *.
  destruct IH as (-> & -> & -> & -> & Hd).
  rewrite Ho, Htr. do 4 (split; [done|]).
  intros Hw. rewrite Hd by (by rewrite Hout). by apply Hlost.
Qed.

(** Property X11.  When closing the active file fails during a roll, the
    roll returns the error of the close and keeps the handle, which is
    closed all the same.  From then on, whatever the file system does,
    every log call whose label differs from the remembered one rolls
    again, closes the closed handle and fails with [os.ErrClosed]; the
    hook does not change, nothing is opened, renamed or removed, and, when
    the logger's output is that handle, nothing is written either. *)
Theorem close_failure_wedges_the_hook (es : list (Z * Entry))
  (h : RollingFileTimeHook) (w : World) (fd : nat) (e : error) :
  currentFile (rf h) = Some fd ->
  is_Some (w_open w !! fd) ->
  w_fault w SysClose = Some e ->
  currentTimeFileName h <> "" ->
  Forall (fun te => time_Format (fst te) (timePattern h) <> currentTimeFileName h) es ->
  let w1 := snd (snd (roll (h, w))) in
  roll (h, w) = (Some e, (h, w1))
  /\ w_open w1 !! fd = None
  /\ w_dir w1 = w_dir w
  /\ forall f,
       let r := emit_all es (h, set_fault f w1) in
       fst r = map (fun _ => Some ErrClosed) es
       /\ fst (snd r) = h
       /\ w_open (snd (snd r)) = w_open w1
       /\ w_trace (snd (snd r)) = w_trace w
       /\ (w_out w = Some fd -> w_dir (snd (snd r)) = w_dir w).
Proof.
  intros Hfd [name Hopen] Hfault Hc Hall.
  assert (ER : roll (h, w) = (Some e, (h, set_open (delete fd (w_open w)) w))).
  { rewrite roll_eq, Hfd. unfold OS.Close. by rewrite Hopen, Hfault. }
  rewrite ER. cbn [fst snd]. split; [done|].
  split; [cbn; apply lookup_delete_eq|]. split; [done|].
  intros f.
  apply (emit_all_closed_wedged es h fd Hfd Hc Hall
           (set_fault f (set_open (delete fd (w_open w)) w))).
  cbn. apply lookup_delete_eq.
Qed.

(** Property X12.  A log call that rolls reads the clock twice: once to
    decide, once when it names the history file.  The history file gets
    the label that was remembered before the call; the label remembered
    after the call is that of the second reading, whatever the first
    was. *)
Theorem roll_remembers_the_second_clock_reading (e : Entry)
  (h : RollingFileTimeHook) (w : World) (t1 t2 : Z) (ts : list Z)
  (h' : RollingFileTimeHook) (w' : World) :
  w_ticks w = t1 :: t2 :: ts ->
  currentTimeFileName h <> "" ->
  time_Format t1 (timePattern h) <> currentTimeFileName h ->
  Fire e (h, w) = (None, (h', w')) ->
  currentTimeFileName h' = time_Format t2 (timePattern h)
  /\ renamed (w_trace w')
     = renamed (w_trace w)
       ++ [(currentName (rf h),
            createFullFileName (fileName (rf h)) (currentTimeFileName h))].
Proof.
  intros Hticks Hc Hl. unfold Fire. rewrite needsToRoll_inv. cbn zeta.
  assert (EN : OS.Now w = (t1, set_clock t1 (t2 :: ts) w)).
  { unfold OS.Now. by rewrite Hticks. }
  rewrite EN. cbn [fst snd].
  rewrite (proj2 (String.eqb_neq _ _) Hc), (proj2 (String.eqb_neq _ _) Hl). cbn [negb].
  set (w0 := set_clock t1 (t2 :: ts) w).
  assert (EN0 : fst (OS.Now w0) = t2) by done.
  destruct (roll (h, w0)) as [[err|] [h1 w1]] eqn:ER; [discriminate|].
  destruct (roll_ok_trace h w0 h1 w1 ER) as (Hren & Hh1). rewrite EN0 in Hh1.
  assert (Hnil : currentFile (rf h1) = None) by (by rewrite Hh1).
  destruct (open_if_unset (h1, w1)) as [[err|] [h2 w2]] eqn:EO; [discriminate|].
  destruct (open_if_unset_ok h1 w1 h2 w2 Hnil EO)
    as (fd & _ & _ & _ & _ & _ & _ & _ & _ & Hl2 & Ht2 & _).
  destruct (count_serialized_frame e h2 w2) as (Hw3 & _ & _ & Hl3 & _).
  cbn zeta in Hw3, Hl3. intros H. rewrite H in Hw3, Hl3. cbn [fst snd] in Hw3, Hl3.
  subst w'. rewrite Hl3, Hl2, Ht2, Hren. split; [by rewrite Hh1 | done].
Qed.

End Wedges.

Lemma close_failure_wedges_the_hook_witness :
  let st := snd (emit_at (text_entry "one") day1
                         (new_hook "./test.log" "2006-01-02" 5, world_at None day1)) in
  let h := fst st in
  let w := set_fault (failing SysClose ErrIO) (set_clock (day1 + day) [] (snd st)) in
  let es := [(day1 + day, text_entry "two"); (day1 + 2 * day, text_entry "three")] in
  let w1 := snd (snd (roll (h, w))) in
  fst (emit_all es (h, set_fault no_fault w1)) = [Some ErrClosed; Some ErrClosed]
  /\ listing (snd (snd (emit_all es (h, set_fault no_fault w1)))) = ["test.log"]
  /\ roll (h, w) = (Some ErrIO, (h, w1))
  /\ w_open w1 !! 3%nat = None
  /\ w_dir w1 = w_dir w
  /\ forall f,
       let r := emit_all es (h, set_fault f w1) in
       fst r = map (fun _ => Some ErrClosed) es
       /\ fst (snd r) = h
       /\ w_open (snd (snd r)) = w_open w1
       /\ w_trace (snd (snd r)) = w_trace w
       /\ (w_out w = Some 3%nat -> w_dir (snd (snd r)) = w_dir w).
Proof.
  split; [vm_compute; reflexivity|]. split; [vm_compute; reflexivity|].
  apply (close_failure_wedges_the_hook
           [(day1 + day, text_entry "two"); (day1 + 2 * day, text_entry "three")]
           (fst (snd (emit_at (text_entry "one") day1
                              (new_hook "./test.log" "2006-01-02" 5, world_at None day1))))
           (set_fault (failing SysClose ErrIO)
              (set_clock (day1 + day) []
                 (snd (snd (emit_at (text_entry "one") day1
                                    (new_hook "./test.log" "2006-01-02" 5,
                                     world_at None day1))))))
           3%nat ErrIO).
  - vm_compute. reflexivity.
  - eexists. vm_compute. reflexivity.
  - reflexivity.
  - vm_compute. discriminate.
  - repeat constructor; vm_compute; discriminate.
Defined.

Lemma roll_remembers_the_second_clock_reading_witness :
  let h := fst (fourth_day 5) in
  let w := set_clock (day1 + 2 * day) [day1 + 3 * day; day1 + 4 * day] (snd (fourth_day 5)) in
  let r := Fire (text_entry "four") (h, w) in
  fst r = None
  /\ currentTimeFileName h = "2024-01-03"
  /\ currentTimeFileName (fst (snd r)) = "2024-01-05"
  /\ currentTimeFileName (fst (snd r)) = time_Format (day1 + 4 * day) (timePattern h)
  /\ renamed (w_trace (snd (snd r)))
     = renamed (w_trace w)
       ++ [(currentName (rf h),
            createFullFileName (fileName (rf h)) (currentTimeFileName h))].
Proof.
  split; [vm_compute; reflexivity|]. split; [vm_compute; reflexivity|].
  split; [vm_compute; reflexivity|].
  apply (roll_remembers_the_second_clock_reading (text_entry "four")
           (fst (fourth_day 5))
           (set_clock (day1 + 2 * day) [day1 + 3 * day; day1 + 4 * day]
                      (snd (fourth_day 5)))
           (day1 + 3 * day) (day1 + 4 * day) []).
  - reflexivity.
  - vm_compute. discriminate.
  - vm_compute. discriminate.
  - vm_compute. reflexivity.
Defined.

(** ** Closing and reopening *)

(** Property X13.  [Close] never changes the directory.  On a hook
    without a handle it does nothing and returns nil.  When it returns
    nil the handle is nil, and a second [Close] returns nil and changes
    nothing.  When it returns an error the hook keeps its handle, the
    descriptor is closed all the same, and every further [Close] fails
    with [os.ErrClosed] without changing anything. *)
Theorem Close_twice (h : RollingFileTimeHook) (w : World) :
  let r1 := Close (h, w) in
  let r2 := Close (snd r1) in
  w_dir (snd (snd r1)) = w_dir w
  /\ (currentFile (rf h) = None -> r1 = (None, (h, w)))
  /\ (forall fd, currentFile (rf h) = Some fd -> w_open (snd (snd r1)) !! fd = None)
  /\ (fst r1 = None -> currentFile (rf (fst (snd r1))) = None /\ r2 = (None, snd r1))
  /\ (forall e, fst r1 = Some e -> fst (snd r1) = h /\ r2 = (Some ErrClosed, snd r1)).
Proof.
  cbn zeta.
  destruct (currentFile (rf h)) as [fd|] eqn:Hfd.
  - destruct (w_open w !! fd) as [name|] eqn:Ho.
    + set (w1 := set_open (delete fd (w_open w)) w).
      assert (Hgone : w_open w1 !! fd = None) by apply lookup_delete_eq.
      destruct (w_fault w SysClose) as [e|] eqn:Hf.
      * assert (E1 : Close (h, w) = (Some e, (h, w1))).
        { unfold Close, OS.Close. by rewrite Hfd, Ho, Hf. }
        assert (E2 : Close (h, w1) = (Some ErrClosed, (h, w1))).
        { unfold Close, OS.Close. by rewrite Hfd, Hgone. }
        rewrite E1. cbn [fst snd]. rewrite E2.
        split; [done|]. split; [done|]. split; [by intros ? [= <-]|].
        split; [done|]. by intros e' [= <-].
      * assert (E1 : Close (h, w)
                     = (None, (set_rf (set_currentFile None (rf h)) h, w1))).
        { unfold Close, OS.Close. by rewrite Hfd, Ho, Hf. }
        rewrite E1. cbn [fst snd].
        split; [done|]. split; [done|]. split; [by intros ? [= <-]|].
        split; [|done]. intros _. split; [done|]. done.
    + assert (E1 : Close (h, w) = (Some ErrClosed, (h, w))).
      { unfold Close, OS.Close. by rewrite Hfd, Ho. }
      rewrite E1. cbn [fst snd]. rewrite E1.
      split; [done|]. split; [done|]. split; [by intros ? [= <-]|].
      split; [done|]. by intros e' [= <-].
  - assert (E1 : Close (h, w) = (None, (h, w))).
    { unfold Close. by rewrite Hfd. }
    rewrite E1. cbn [fst snd]. rewrite E1.
    split; [done|]. split; [done|]. split; [done|]. split; [done|]. done.
Qed.

Lemma Logger_write_other (e : Entry) (w : World) (fd : nat) (base other : string) :
  w_out w = Some fd ->
  w_open w !! fd = Some base ->
  other <> base ->
  entry (Logger_write e w) other = entry w other.
Proof.
  intros Hout Hopen Hne. unfold Logger_write.
  destruct (Formatter_Format _ _) as [b [err|]]; [done|].
  unfold OS.Write. rewrite Hout, Hopen. unfold entry.
  destruct (w_dir w) as [d|] eqn:Hd; [|cbn; by rewrite Hd].
  destruct (d !! base) as [n|]; [|cbn; by rewrite Hd].
  cbn. by rewrite lookup_insert_ne.
Qed.

Lemma Logger_write_closed (e : Entry) (w : World) (fd : nat) :
  w_out w = Some fd ->
  w_open w !! fd = None ->
  Logger_write e w = w.
Proof.
  intros Hout Hopen. unfold Logger_write.
  destruct (Formatter_Format _ _) as [b [err|]]; [done|].
  unfold OS.Write. by rewrite Hout, Hopen.
Qed.

Section Reopening.

Context {TP : TimePkg} {SP : SortPkg}.

Lemma createFileAndFolderIfNeeded_opens (h : RollingFileTimeHook) (w : World) :
  can_open h w ->
  exists h' w', createFileAndFolderIfNeeded (h, w) = (None, (h', w')).
Proof.
  intros (Hfm & Hfo & Hfs & Hp & Hdir). unfold createFileAndFolderIfNeeded.
  assert (Hlen : negb (GoString.len (currentDirPath (rf h)) =? 0) = true).
  { unfold GoString.len. destruct (currentDirPath (rf h)); [done|]. cbn. done. }
  rewrite Hlen.
  destruct (OS.MkdirAll w) as [err w1] eqn:EM.
  destruct (MkdirAll_entry _ _ _ EM) as (He1 & _ & _ & _ & _ & Hf1 & _ & Hd1).
  assert (err = None) as ->.
  { unfold OS.MkdirAll in EM. rewrite Hfm in EM.
    destruct (w_dir w); by injection EM as <- _. }
  destruct (Hd1 eq_refl) as [d Hd].
  unfold getCurrentFileName. cbn [rf set_rf currentName set_currentName].
  unfold OS.OpenFile. rewrite Hf1, Hfo, Hd.
  change (Z.land (Z.lor O_WRONLY (Z.lor O_APPEND O_CREATE)) O_CREATE =? 0) with false.
  change (Z.land (Z.lor O_WRONLY (Z.lor O_APPEND O_CREATE)) O_TRUNC =? 0) with true.
  assert (Hstat : forall d' ds, OS.StatSize (w_next w1)
                    (set_desc ds
                       (set_next (S (w_next w1))
                          (set_open (<[w_next w1 := fileName (rf h)]> (w_open w1))
                             (set_dir (Some d') w1))))
                  = (match d' !! fileName (rf h) with
                     | Some n => Z.of_nat (length (n_data n))
                     | None => 0
                     end, None)).
  { intros d' ds. unfold OS.StatSize. cbn. rewrite Hf1, Hfs, lookup_insert_eq.
    by destruct (d' !! fileName (rf h)). }
  destruct (d !! fileName (rf h)) as [n|] eqn:Hn.
  - assert (Hnd : OS.isDir n = false).
    { apply Hdir. rewrite <- He1. unfold entry. by rewrite Hd. }
    rewrite Hnd. cbn. rewrite Hstat. eauto.
  - cbn. rewrite Hstat. eauto.
Qed.

(** Opening the active file, counting the entry and the framework's
    write, on a hook without a handle. *)
Lemma open_count_write (e : Entry) (h : RollingFileTimeHook) (w : World) :
  can_open h w ->
  currentFile (rf h) = None ->
  snd (Formatter_Format (entry_Logger e) (entry_Message e)) = None ->
  let r := match open_if_unset (h, w) with
           | (Some err, st) => (Some err, st)
           | (None, st) => count_serialized e st
           end in
  let w' := Logger_write e (snd (snd r)) in
  let base := fileName (rf h) in
  let n0 := opened_node (entry w base) in
  fst r = None
  /\ entry w' base = Some (mkNode (n_mode n0) (n_data n0 ++ serialized e))
  /\ (forall other, other <> base -> entry w' other = entry w other)
  /\ (exists fd, currentFile (rf (fst (snd r))) = Some fd
                 /\ w_out w' = Some fd
                 /\ w_open w' !! fd = Some base
                 /\ appends w' fd = true)
  /\ currentFileSize (rf (fst (snd r)))
     = wrap_int64 (Z.of_nat (length (n_data n0)) + Z.of_nat (length (serialized e)))
  /\ currentTimeFileName (fst (snd r)) = currentTimeFileName h
  /\ same_config h (fst (snd r))
  /\ w_trace w' = w_trace w
  /\ w_fault w' = w_fault w.
Proof.
  intros Hcan Hnil Hfmt. cbn zeta.
  destruct (createFileAndFolderIfNeeded_opens h w Hcan) as (h1 & w1 & EC).
  assert (EO : open_if_unset (h, w) = (None, (h1, set_out (currentFile (rf h1)) w1))).
  { unfold open_if_unset. by rewrite Hnil, EC. }
  destruct (open_if_unset_ok _ _ _ _ Hnil EO)
    as (fd & O1 & O2 & O3 & O4 & O5 & O6 & O7 & O8 & O9 & O10 & O11 & _).
  pose proof (open_if_unset_appends _ _ _ _ fd Hnil EO O1) as Happ.
  assert (ECount : count_serialized e (h1, set_out (currentFile (rf h1)) w1)
                   = (None, (set_rf (set_currentFileSize
                               (wrap_int64 (currentFileSize (rf h1)
                                            + Z.of_nat (length (serialized e))))
                               (rf h1)) h1,
                             set_out (currentFile (rf h1)) w1))).
  { unfold count_serialized, serialized.
    destruct (Formatter_Format _ _) as [b [err|]]; [done|]. done. }
  rewrite EO, ECount. cbn [fst snd rf set_rf currentFile currentFileSize
                           set_currentFileSize currentTimeFileName].
  set (w2 := set_out (currentFile (rf h1)) w1) in *.
  destruct (Logger_write_frame e w2) as (Ho & _ & Hout & Htr & Hf & _).
  cbn zeta in Ho, Hout, Htr, Hf.
  split; [done|]. split; [|split; [|split; [|split; [|split; [|split; [|split]]]]]].
  - rewrite (Logger_write_appends e w2 fd (fileName (rf h)) _ Hfmt O3 O4 Happ O5). done.
  - intros other Hne. rewrite (Logger_write_other e w2 fd (fileName (rf h))) by done.
    by apply O6.
  - exists fd. rewrite Hout, Ho, Logger_write_flags. done.
  - by rewrite O7.
  - by rewrite O9.
  - done.
  - by rewrite Htr, O10.
  - by rewrite Hf, O11.
Qed.

(** A log call on a hook without a handle that does not roll: the active
    file is opened and the entry appended. *)
Lemma reopen_and_append (e : Entry) (t : Z) (h : RollingFileTimeHook) (w : World) :
  can_open h w ->
  currentFile (rf h) = None ->
  currentTimeFileName h = "" \/ currentTimeFileName h = time_Format t (timePattern h) ->
  snd (Formatter_Format (entry_Logger e) (entry_Message e)) = None ->
  let r := emit_at e t (h, w) in
  let base := fileName (rf h) in
  let n0 := opened_node (entry w base) in
  fst r = None
  /\ entry (snd (snd r)) base = Some (mkNode (n_mode n0) (n_data n0 ++ serialized e))
  /\ (forall other, other <> base -> entry (snd (snd r)) other = entry w other)
  /\ (exists fd, currentFile (rf (fst (snd r))) = Some fd
                 /\ w_out (snd (snd r)) = Some fd
                 /\ w_open (snd (snd r)) !! fd = Some base
                 /\ appends (snd (snd r)) fd = true)
  /\ currentFileSize (rf (fst (snd r)))
     = wrap_int64 (Z.of_nat (length (n_data n0)) + Z.of_nat (length (serialized e)))
  /\ currentTimeFileName (fst (snd r)) = time_Format t (timePattern h)
  /\ same_config h (fst (snd r))
  /\ w_trace (snd (snd r)) = w_trace w
  /\ w_fault (snd (snd r)) = w_fault w.
Proof.
  intros Hcan Hnil Hlabel Hfmt. cbn zeta. unfold emit_at, Fire. cbn [fst snd].
  rewrite needsToRoll_inv. cbn zeta.
  assert (EN : OS.Now (set_clock t [] w) = (t, set_clock t [] w)) by done.
  rewrite EN. cbn [fst snd].
  destruct (String.eqb (currentTimeFileName h) "") eqn:E.
  - set (h0 := set_currentTimeFileName _ h).
    destruct (open_count_write e h0 (set_clock t [] w))
      as (G1 & G2 & G3 & G4 & G5 & G6 & G7 & G8 & G9); try done.
    cbn zeta in *.
    destruct (match open_if_unset _ with (Some err, st) => _ | (None, st) => _ end)
      as [err [h' w']].
    cbn [fst snd] in *. done.
  - apply String.eqb_neq in E. destruct Hlabel as [?|Hl]; [done|].
    rewrite <- Hl, String.eqb_refl. cbn [negb].
    destruct (open_count_write e h (set_clock t [] w))
      as (G1 & G2 & G3 & G4 & G5 & G6 & G7 & G8 & G9); try done.
    cbn zeta in *.
    destruct (match open_if_unset _ with (Some err, st) => _ | (None, st) => _ end)
      as [err [h' w']].
    cbn [fst snd] in *. done.
Qed.

End Reopening.

Section Recovery.

Context {TP : TimePkg} {SP : SortPkg}.

Lemma getSortedLogHistory_scannable (h : RollingFileTimeHook) (w : World)
  (d : gmap string Node) :
  w_dir w = Some d ->
  can_scan w ->
  exists history, getSortedLogHistory (h, w) = (history, None).
Proof.
  intros Hd Hs. unfold getSortedLogHistory.
  rewrite (getDirFilePaths_scannable _ None w d Hd Hs).
  unfold sortFileRollNamesAsc. eauto.
Qed.

(** Property X14.  After a [Close] that succeeded, the next log call in
    the bucket the hook remembers, when the active file can be opened and
    the formatter does not fail, returns nil: it opens the active file
    again, with [O_APPEND] and without truncating it, and the entry is
    appended to what the file held; the logger's output is the new
    handle, no other file changes, and nothing is renamed or removed. *)
Theorem Fire_reopens_after_Close (e : Entry) (t : Z)
  (h : RollingFileTimeHook) (w : World) (fd : nat) :
  currentFile (rf h) = Some fd ->
  is_Some (w_open w !! fd) ->
  w_fault w SysClose = None ->
  can_open h w ->
  currentTimeFileName h = time_Format t (timePattern h) ->
  snd (Formatter_Format (entry_Logger e) (entry_Message e)) = None ->
  let st1 := Close (h, w) in
  let r := emit_at e t (snd st1) in
  let base := fileName (rf h) in
  let n0 := opened_node (entry w base) in
  fst st1 = None
  /\ currentFile (rf (fst (snd st1))) = None
  /\ fst r = None
  /\ entry (snd (snd r)) base = Some (mkNode (n_mode n0) (n_data n0 ++ serialized e))
  /\ (forall other, other <> base -> entry (snd (snd r)) other = entry w other)
  /\ (exists fd', currentFile (rf (fst (snd r))) = Some fd'
                  /\ w_out (snd (snd r)) = Some fd'
                  /\ w_open (snd (snd r)) !! fd' = Some base
                  /\ appends (snd (snd r)) fd' = true)
  /\ w_trace (snd (snd r)) = w_trace w.
Proof.
  intros Hfd [name Hopen] Hf Hcan Hl Hfmt. cbn zeta.
  set (w1 := set_open (delete fd (w_open w)) w).
  assert (E1 : Close (h, w) = (None, (set_rf (set_currentFile None (rf h)) h, w1))).
  { unfold Close, OS.Close. by rewrite Hfd, Hopen, Hf. }
  rewrite E1. cbn [fst snd].
  split; [done|]. split; [done|].
  destruct (reopen_and_append e t (set_rf (set_currentFile None (rf h)) h) w1)
    as (G1 & G2 & G3 & G4 & _ & _ & _ & G8 & _);
    [exact Hcan | done | by right | done |].
  cbn zeta in *. cbn [rf set_rf fileName set_currentFile] in *. done.
Qed.

(** Property X15.  A hook in step with its active file makes a log call
    in a new bucket, and the rename fails while closing, scanning and
    opening work.  The log call returns the error of the rename and its
    entry is written nowhere: the directory is unchanged.  The next log
    call with the same label (its formatter not failing) does not roll:
    it opens the active file again and appends its entry to what the file
    held before the failed roll.  No other file changes, so that no
    history file is made for the bucket that had ended, and the hook
    remembers the new bucket. *)
Theorem rename_failure_is_recovered_in_the_bucket (e1 e2 : Entry) (t1 t2 : Z)
  (h : RollingFileTimeHook) (w : World) (n : Node) (err : error) :
  in_sync h w ->
  entry w (fileName (rf h)) = Some n ->
  currentTimeFileName h <> "" ->
  time_Format t1 (timePattern h) <> currentTimeFileName h ->
  time_Format t2 (timePattern h) = time_Format t1 (timePattern h) ->
  w_fault w SysRename = Some err ->
  w_fault w SysClose = None ->
  can_scan w ->
  can_open h w ->
  snd (Formatter_Format (entry_Logger e2) (entry_Message e2)) = None ->
  let r1 := emit_at e1 t1 (h, w) in
  let r2 := emit_at e2 t2 (snd r1) in
  let base := fileName (rf h) in
  fst r1 = Some err
  /\ w_dir (snd (snd r1)) = w_dir w
  /\ fst r2 = None
  /\ entry (snd (snd r2)) base = Some (mkNode (n_mode n) (n_data n ++ serialized e2))
  /\ (forall other, other <> base -> entry (snd (snd r2)) other = entry w other)
  /\ renamed (w_trace (snd (snd r2))) = renamed (w_trace w)
  /\ currentTimeFileName (fst (snd r2)) = time_Format t1 (timePattern h).
Proof.
  intros (fd & n' & Hfd & Hout & Hopen & Hn' & _ & _) Hn Hc Hl1 Hl2 Hren Hclose Hscan Hcan Hfmt.
  cbn zeta.
  set (w0 := set_clock t1 [] w).
  set (w1 := set_open (delete fd (w_open w0)) w0).
  set (new := createFullFileName (fileName (rf h)) (currentTimeFileName h)).
  set (w3 := log_event (EvRename (currentName (rf h)) new (Some err)) (set_dir (w_dir w1) w1)).
  set (h2 := set_currentTimeFileName (time_Format t1 (timePattern h))
               (set_rf (set_currentFile None (rf h)) h)).
  assert (Hd : exists d, w_dir w = Some d).
  { unfold entry in Hn. destruct (w_dir w); [eauto | done]. }
  destruct Hd as [d Hd].
  assert (ER : roll (h, w0) = (Some err, (h2, w3))).
  { rewrite roll_eq.
    assert (EC : OS.Close (currentFile (rf h)) w0 = (None, w1)).
    { unfold OS.Close, w1, w0. rewrite Hfd. cbn. by rewrite Hopen, Hclose. }
    pose proof (scan_after_close h w0) as Hsc. rewrite EC in Hsc. cbn [snd] in Hsc.
    rewrite EC. cbn zeta. rewrite Hsc.
    destruct (getSortedLogHistory_scannable h w0 d Hd Hscan) as [history ->].
    assert (EN : OS.Now w1 = (t1, w1)) by done.
    rewrite EN. cbn [fst snd].
    unfold OS.Rename, w3, w1, w0. cbn. by rewrite Hren. }
  assert (E1 : emit_at e1 t1 (h, w) = (Some err, (h2, w3))).
  { unfold emit_at, Fire. cbn [fst snd]. rewrite needsToRoll_inv. cbn zeta.
    assert (EN : OS.Now (set_clock t1 [] w) = (t1, w0)) by done.
    rewrite EN. cbn [fst snd].
    rewrite (proj2 (String.eqb_neq _ _) Hc), (proj2 (String.eqb_neq _ _) Hl1).
    cbn [negb]. rewrite ER.
    rewrite (Logger_write_closed e1 w3 fd); [done | done |].
    cbn. apply lookup_delete_eq. }
  rewrite E1. cbn [fst snd].
  split; [done|]. split; [done|].
  destruct (reopen_and_append e2 t2 h2 w3)
    as (G1 & G2 & G3 & _ & _ & G6 & _ & G8 & _);
    [exact Hcan | done | right; cbn; by rewrite Hl2 | done |].
  cbn zeta in *. cbn [rf set_rf fileName set_currentFile h2 set_currentTimeFileName
                      timePattern] in *.
  assert (He : forall name, entry w3 name = entry w name) by done.
  rewrite He, Hn in G2. cbn [opened_node] in G2.
  split; [done|]. split; [done|].
  split; [intros other Hne; by rewrite G3, He|].
  split; [|by rewrite G6, Hl2].
  rewrite G8. cbn. unfold renamed. rewrite omap_app. cbn. by rewrite app_nil_r.
Qed.

End Recovery.

(** ** What the active file holds *)

Section ActiveFile.

Context {TP : TimePkg} {SP : SortPkg}.

(** A log call in the bucket of a hook that holds its file: nothing but
    the count and the file's content changes. *)
Lemma same_bucket_step (e : Entry) (t : Z) (h : RollingFileTimeHook) (w : World)
  (fd : nat) (n : Node) :
  currentFile (rf h) = Some fd ->
  w_out w = Some fd ->
  w_open w !! fd = Some (fileName (rf h)) ->
  appends w fd = true ->
  entry w (fileName (rf h)) = Some n ->
  currentTimeFileName h <> "" ->
  time_Format t (timePattern h) = currentTimeFileName h ->
  snd (Formatter_Format (entry_Logger e) (entry_Message e)) = None ->
  let w' := Logger_write e (set_clock t [] w) in
  emit_at e t (h, w)
  = (None, (set_rf (set_currentFileSize
                      (wrap_int64 (currentFileSize (rf h) + Z.of_nat (length (serialized e))))
                      (rf h)) h, w'))
  /\ entry w' (fileName (rf h)) = Some (mkNode (n_mode n) (n_data n ++ serialized e))
  /\ (forall other, other <> fileName (rf h) -> entry w' other = entry w other)
  /\ w_out w' = Some fd /\ w_open w' !! fd = Some (fileName (rf h))
  /\ w_trace w' = w_trace w
  /\ appends w' fd = true.
Proof.
  intros Hfd Hout Hopen Happ Hn Hc Hl Hfmt. cbn zeta.
  destruct (Logger_write_frame e (set_clock t [] w)) as (Ho & _ & Hout' & Htr & _).
  cbn zeta in Ho, Hout', Htr.
  split; [|split; [|split; [|split; [|split; [|split]]]]];
    [| | | | | | by rewrite Logger_write_flags].
  - unfold emit_at, Fire. cbn [fst snd]. rewrite needsToRoll_inv. cbn zeta.
    assert (EN : OS.Now (set_clock t [] w) = (t, set_clock t [] w)) by done.
    rewrite EN. cbn [fst snd].
    rewrite (proj2 (String.eqb_neq _ _) Hc), Hl, String.eqb_refl. cbn [negb].
    unfold open_if_unset. rewrite Hfd.
    unfold count_serialized, serialized.
    destruct (Formatter_Format _ _) as [b [err|]]; [done|]. done.
  - by rewrite (Logger_write_appends e (set_clock t [] w) fd (fileName (rf h)) n).
  - intros other Hne.
    by rewrite (Logger_write_other e (set_clock t [] w) fd (fileName (rf h))).
  - by rewrite Hout'.
  - by rewrite Ho.
  - by rewrite Htr.
Qed.

(** Once the roll is decided: open if unset, count, and the framework's
    write leave the hook's count equal to the length of the file. *)
Lemma open_count_in_sync (e : Entry) (h : RollingFileTimeHook) (w : World)
  (h' : RollingFileTimeHook) (w' : World) :
  currentFile (rf h) = None \/ in_sync h w ->
  match open_if_unset (h, w) with
  | (Some err, st) => (Some err, st)
  | (None, st) => count_serialized e st
  end = (None, (h', w')) ->
  (forall n', entry (Logger_write e w') (fileName (rf h)) = Some n' ->
              Z.of_nat (length (n_data n')) < 2 ^ 63) ->
  in_sync h' (Logger_write e w') /\ fileName (rf h') = fileName (rf h).
Proof.
  intros Hstate H Hbound.
  assert (Hattached : exists h1 fd n,
             open_if_unset (h, w) = (None, (h1, w'))
             /\ currentFile (rf h1) = Some fd /\ w_out w' = Some fd
             /\ w_open w' !! fd = Some (fileName (rf h))
             /\ entry w' (fileName (rf h)) = Some n
             /\ currentFileSize (rf h1) = Z.of_nat (length (n_data n))
             /\ fileName (rf h1) = fileName (rf h)
             /\ appends w' fd = true
             /\ count_serialized e (h1, w') = (None, (h', w'))).
  { destruct (open_if_unset (h, w)) as [[err|] [h1 w1]] eqn:EO; [done|].
    pose proof (count_serialized_ok e h1 w1 h' w' H) as (_ & -> & _).
    destruct Hstate as [Hnil|(fd & n & Hfd & Hout & Hopen & Hn & Hsize & Hmode)].
    - destruct (open_if_unset_ok _ _ _ _ Hnil EO)
        as (fd & O1 & O2 & O3 & O4 & O5 & O6 & O7 & (O8 & _) & _).
      pose proof (open_if_unset_appends _ _ _ _ fd Hnil EO O1) as Hmode.
      by exists h1, fd, (opened_node (entry w (fileName (rf h)))).
    - unfold open_if_unset in EO. rewrite Hfd in EO. injection EO as <- <-.
      by exists h, fd, n. }
  destruct Hattached
    as (h1 & fd & n & _ & Hfd & Hout & Hopen & Hn & Hsize & Hname & Hmode & EC).
  destruct (count_serialized_ok e h1 w' h' w' EC) as (Hfmt & _ & ->).
  destruct (Logger_write_frame e w') as (Ho & _ & Hout' & _). cbn zeta in Ho, Hout'.
  pose proof (Logger_write_appends e w' fd (fileName (rf h)) n Hfmt Hout Hopen Hmode Hn)
    as Happ.
  specialize (Hbound _ Happ). cbn [n_data] in Hbound. rewrite length_app in Hbound.
  split; [|done].
  exists fd, (mkNode (n_mode n) (n_data n ++ serialized e)).
  cbn [rf set_rf currentFile set_currentFileSize fileName currentFileSize n_data].
  rewrite Hout', Ho, Hname, Logger_write_flags. unfold serialized.
  split; [done|]. split; [done|]. split; [done|]. split; [done|].
  split; [|done].
  rewrite Hsize, length_app. rewrite wrap_int64_small by lia. lia.
Qed.

(** Property X16.  After a log call that the hook let pass, the hook and
    the framework write to the same open descriptor of the active file,
    and the size the hook tracks is the length of that file, provided
    this was so before the call or the hook had no handle, and the file
    stays shorter than [2^63] bytes.  This holds whether the call rolled,
    opened the file, or only counted. *)
Theorem tracked_size_is_the_file_size (e : Entry) (t : Z)
  (h : RollingFileTimeHook) (w : World) (h' : RollingFileTimeHook) (w' : World) :
  emit_at e t (h, w) = (None, (h', w')) ->
  currentFile (rf h) = None \/ in_sync h w ->
  (forall n', entry w' (fileName (rf h)) = Some n' ->
              Z.of_nat (length (n_data n')) < 2 ^ 63) ->
  in_sync h' w' /\ fileName (rf h') = fileName (rf h).
Proof.
  unfold emit_at. cbn [fst snd].
  destruct (Fire e (h, set_clock t [] w)) as [err [h1 w1]] eqn:EF.
  intros [= -> <- <-] Hstate Hbound.
  unfold Fire in EF. rewrite needsToRoll_inv in EF. cbn zeta in EF.
  assert (EN : OS.Now (set_clock t [] w) = (t, set_clock t [] w)) by done.
  rewrite EN in EF. cbn [fst snd] in EF.
  destruct (String.eqb (currentTimeFileName h) "") eqn:E.
  - apply (open_count_in_sync e (set_currentTimeFileName (time_Format t (timePattern h)) h)
                               (set_clock t [] w) h1 w1);
      [exact Hstate | exact EF | done].
  - destruct (negb (String.eqb (time_Format t (timePattern h)) (currentTimeFileName h))).
    + destruct (roll (h, set_clock t [] w)) as [[err|] [h2 w2]] eqn:ER; [done|].
      destruct (roll_ok_trace _ _ _ _ ER) as (_ & Hh2).
      assert (Hname : fileName (rf h2) = fileName (rf h)) by (by rewrite Hh2).
      rewrite <- Hname in *.
      apply (open_count_in_sync e h2 w2 h1 w1); [left; by rewrite Hh2 | exact EF | done].
    + apply (open_count_in_sync e h (set_clock t [] w) h1 w1);
        [exact Hstate | exact EF | done].
Qed.

Lemma same_bucket_run (c : string) (es : list (Z * Entry)) :
  forall (h : RollingFileTimeHook) (w : World) (fd : nat) (n : Node),
    currentFile (rf h) = Some fd ->
    w_out w = Some fd ->
    w_open w !! fd = Some (fileName (rf h)) ->
    appends w fd = true ->
    entry w (fileName (rf h)) = Some n ->
    currentTimeFileName h = c -> c <> "" ->
    Forall (fun te => time_Format (fst te) (timePattern h) = c
                      /\ snd (Formatter_Format (entry_Logger (snd te))
                                               (entry_Message (snd te))) = None) es ->
    let r := emit_all es (h, w) in
    let all := concat (map (fun te => serialized (snd te)) es) in
    fst r = map (fun _ => None) es
    /\ entry (snd (snd r)) (fileName (rf h)) = Some (mkNode (n_mode n) (n_data n ++ all))
    /\ (forall other, other <> fileName (rf h) -> entry (snd (snd r)) other = entry w other)
    /\ w_trace (snd (snd r)) = w_trace w
    /\ currentFile (rf (fst (snd r))) = Some fd
    /\ w_out (snd (snd r)) = Some fd
    /\ w_open (snd (snd r)) !! fd = Some (fileName (rf h))
    /\ appends (snd (snd r)) fd = true
    /\ fileName (rf (fst (snd r))) = fileName (rf h)
    /\ (currentFileSize (rf h) = Z.of_nat (length (n_data n)) ->
        Z.of_nat (length (n_data n ++ all)) < 2 ^ 63 ->
        currentFileSize (rf (fst (snd r))) = Z.of_nat (length (n_data n ++ all))).
Proof.
  induction es as [|[t e] es IH]; intros h w fd n Hfd Hout Hopen Hmode Hn Hc Hne Hall;
    cbn zeta.
  - cbn. rewrite app_nil_r. destruct n. done.
  - apply Forall_cons in Hall as [[Hl Hfmt] Hall]. cbn [fst snd] in Hl, Hfmt.
    rewrite <- Hc in Hl, Hne.
    destruct (same_bucket_step e t h w fd n Hfd Hout Hopen Hmode Hn Hne Hl Hfmt)
      as (E & S2 & S3 & S4 & S5 & S6 & S7).
    cbn zeta in *. cbn [emit_all]. rewrite E.
    set (h1 := set_rf _ h) in *. set (w1 := Logger_write e (set_clock t [] w)) in *.
    specialize (IH h1 w1 fd (mkNode (n_mode n) (n_data n ++ serialized e))
                   Hfd S4 S5 S7 S2 Hc).
    rewrite <- Hc in IH. specialize (IH Hne). rewrite Hc in IH. specialize (IH Hall).
    cbn zeta in IH. destruct (emit_all es (h1, w1)) as [errs [h2 w2]].
    cbn [fst snd map concat n_mode n_data] in *.
    destruct IH as (-> & I2 & I3 & I4 & I5 & I6 & I7 & I7' & I8 & I9).
    rewrite <- app_assoc in I2, I9.
    split; [done|]. split; [done|].
    split; [intros other Ho; by rewrite I3, S3|].
    split; [by rewrite I4|]. do 5 (split; [done|]).
    intros Hsize Hbound. apply I9; [|done].
    subst h1. cbn. rewrite Hsize, length_app. rewrite !length_app in Hbound.
    rewrite wrap_int64_small by lia. lia.
Qed.

(** Property X17.  While the log calls stay in the bucket of a hook that
    holds its file and the formatter does not fail, every call is let
    pass, and the active file grows by the serialized entries, in the
    order of the calls, after what it held; no other file changes,
    nothing is renamed or removed, and the size the hook tracks stays
    the length of the file (below [2^63] bytes). *)
Theorem bucket_entries_are_appended_in_order (es : list (Z * Entry))
  (h : RollingFileTimeHook) (w : World) (n : Node) :
  in_sync h w ->
  entry w (fileName (rf h)) = Some n ->
  currentTimeFileName h <> "" ->
  Forall (fun te => time_Format (fst te) (timePattern h) = currentTimeFileName h
                    /\ snd (Formatter_Format (entry_Logger (snd te))
                                             (entry_Message (snd te))) = None) es ->
  let r := emit_all es (h, w) in
  let all := concat (map (fun te => serialized (snd te)) es) in
  fst r = map (fun _ => None) es
  /\ entry (snd (snd r)) (fileName (rf h)) = Some (mkNode (n_mode n) (n_data n ++ all))
  /\ (forall other, other <> fileName (rf h) -> entry (snd (snd r)) other = entry w other)
  /\ w_trace (snd (snd r)) = w_trace w
  /\ (Z.of_nat (length (n_data n ++ all)) < 2 ^ 63 -> in_sync (fst (snd r)) (snd (snd r))).
Proof.
  intros (fd & n' & Hfd & Hout & Hopen & Hn' & Hsize & Hmode) Hn Hc Hall.
  rewrite Hn in Hn'. injection Hn' as <-.
  destruct (same_bucket_run (currentTimeFileName h) es h w fd n)
    as (R1 & R2 & R3 & R4 & R5 & R6 & R7 & R7' & R8 & R9); try done.
  cbn zeta in *. do 4 (split; [done|]).
  intros Hbound. eexists fd, _. rewrite R8.
  split; [done|]. split; [done|]. split; [done|]. split; [exact R2|].
  split; [by apply R9 | done].
Qed.

End ActiveFile.

(** ** Opening that fails, labels that are empty, buckets that end *)

Section OpeningOutcomes.

Context {TP : TimePkg} {SP : SortPkg}.

(** What [createFileAndFolderIfNeeded] leaves alone, whatever it
    returns. *)
Lemma createFileAndFolderIfNeeded_frame (h : RollingFileTimeHook) (w : World) :
  let r := createFileAndFolderIfNeeded (h, w) in
  w_trace (snd (snd r)) = w_trace w
  /\ w_out (snd (snd r)) = w_out w
  /\ currentTimeFileName (fst (snd r)) = currentTimeFileName h
  /\ same_config h (fst (snd r))
  /\ (forall other, other <> fileName (rf h) -> entry (snd (snd r)) other = entry w other)
  /\ (fst r <> None ->
      (currentFile (rf h) = None -> currentFile (rf (fst (snd r))) = None)
      /\ currentFileSize (rf (fst (snd r))) = currentFileSize (rf h)
      /\ (w_open w !! w_next w = None -> w_open (snd (snd r)) = w_open w)).
Proof.
  cbn zeta. unfold createFileAndFolderIfNeeded.
  set (mk := if negb _ then OS.MkdirAll w else (None, w)).
  assert (Hmk : (forall name, entry (snd mk) name = entry w name)
                /\ w_out (snd mk) = w_out w /\ w_trace (snd mk) = w_trace w
                /\ w_open (snd mk) = w_open w /\ w_next (snd mk) = w_next w).
  { subst mk. destruct (negb _); [|done].
    destruct (OS.MkdirAll w) as [err w1] eqn:E.
    destruct (MkdirAll_entry _ _ _ E) as (H1 & H2 & H3 & H4 & H5 & _). done. }
  destruct mk as [[e|] w1]; cbn [fst snd] in Hmk;
    destruct Hmk as (He1 & Ho1 & Ht1 & Hop1 & Hn1).
  { cbn [fst snd]. rewrite Ht1, Ho1, Hop1.
    split; [done|]. split; [done|]. split; [done|]. split; [apply same_config_refl|].
    split; [by intros other _|]. by intros _. }
  unfold getCurrentFileName. cbn [rf set_rf currentName set_currentName].
  destruct (OS.OpenFile _ _ _ w1) as [[f err] w2] eqn:EO.
  destruct (OpenFile_append_create _ _ _ _ _ EO) as (Hok & Hfail & Ho2 & Ht2 & _).
  destruct err as [e|].
  { destruct (Hfail ltac:(done)) as [-> ->]. cbn [fst snd].
    rewrite Ht1, Ho1, Hop1.
    split; [done|]. split; [done|]. split; [done|]. split; [done|].
    split; [by intros other _|]. by intros _. }
  destruct (Hok eq_refl) as (-> & Hopen & _ & _ & Hoth).
  destruct (OS.StatSize (w_next w1) w2) as [size [e|]] eqn:ES.
  - assert (EC : OS.Close (Some (w_next w1)) w2
                 = (w_fault w2 SysClose, set_open (delete (w_next w1) (w_open w2)) w2)).
    { unfold OS.Close. by rewrite Hopen, lookup_insert_eq. }
    rewrite EC. cbn [fst snd rf set_rf currentFile set_currentFile currentFileSize
                     currentTimeFileName w_trace w_out set_open w_open].
    rewrite Ht2, Ht1, Ho2, Ho1.
    split; [done|]. split; [done|]. split; [done|]. split; [done|].
    split; [intros other Hne; by rewrite <- He1, <- Hoth|].
    intros _. split; [done|]. split; [done|].
    intros Hfresh. rewrite Hopen, Hop1, Hn1. by apply delete_insert_id.
  - cbn [fst snd rf set_rf currentFile set_currentFile currentFileSize
             currentTimeFileName set_currentFileSize].
    rewrite Ht2, Ht1, Ho2, Ho1.
    split; [done|]. split; [done|]. split; [done|]. split; [done|].
    split; [intros other Hne; by rewrite <- He1, <- Hoth|]. by intros ?.
Qed.

(** Property X18.  When [createFileAndFolderIfNeeded] returns an error on
    a hook without a handle, the hook still has no handle, so that the
    next log call tries to open the file again; the descriptor that may
    have been opened is closed (the open descriptors are those of before,
    the next descriptor having been unused), the logger's output, the
    tracked size and the remembered label are unchanged, no file other
    than the active file is touched, and nothing is renamed or
    removed. *)
Theorem failed_open_leaves_no_handle (h : RollingFileTimeHook) (w : World)
  (e : error) (h' : RollingFileTimeHook) (w' : World) :
  createFileAndFolderIfNeeded (h, w) = (Some e, (h', w')) ->
  currentFile (rf h) = None ->
  w_open w !! w_next w = None ->
  currentFile (rf h') = None
  /\ w_open w' = w_open w
  /\ w_out w' = w_out w
  /\ w_trace w' = w_trace w
  /\ currentFileSize (rf h') = currentFileSize (rf h)
  /\ currentTimeFileName h' = currentTimeFileName h
  /\ same_config h h'
  /\ (forall other, other <> fileName (rf h) -> entry w' other = entry w other).
Proof.
  intros E Hnil Hfresh.
  destruct (createFileAndFolderIfNeeded_frame h w) as (F1 & F2 & F3 & F4 & F5 & F6).
  cbn zeta in *. rewrite E in *. cbn [fst snd] in *.
  destruct (F6 ltac:(done)) as (G1 & G2 & G3).
  split; [by apply G1|]. split; [by apply G3|]. done.
Qed.

(** Once the roll is decided, the rest of a log call renames and removes
    nothing and keeps the label and the configuration. *)
Lemma open_count_frame (e : Entry) (h : RollingFileTimeHook) (w : World) :
  let r := match open_if_unset (h, w) with
           | (Some err, st) => (Some err, st)
           | (None, st) => count_serialized e st
           end in
  w_trace (Logger_write e (snd (snd r))) = w_trace w
  /\ currentTimeFileName (fst (snd r)) = currentTimeFileName h
  /\ same_config h (fst (snd r)).
Proof.
  cbn zeta.
  assert (Hopen : let o := open_if_unset (h, w) in
                  w_trace (snd (snd o)) = w_trace w
                  /\ currentTimeFileName (fst (snd o)) = currentTimeFileName h
                  /\ same_config h (fst (snd o))).
  { cbn zeta. unfold open_if_unset.
    destruct (currentFile (rf h)); [split; [done|]; split; [done|apply same_config_refl]|].
    destruct (createFileAndFolderIfNeeded_frame h w) as (F1 & _ & F3 & F4 & _).
    cbn zeta in *.
    destruct (createFileAndFolderIfNeeded (h, w)) as [[err|] [h1 w1]]; done. }
  cbn zeta in Hopen.
  destruct (open_if_unset (h, w)) as [[err|] [h1 w1]]; cbn [fst snd] in *.
  - destruct (Logger_write_frame e w1) as (_ & _ & _ & Htr & _). cbn zeta in Htr.
    by rewrite Htr.
  - destruct (count_serialized_frame e h1 w1) as (Hw & _ & _ & Hl & Hc).
    cbn zeta in *. destruct (count_serialized e (h1, w1)) as [err [h2 w2]].
    cbn [fst snd] in *. subst w2.
    destruct (Logger_write_frame e w1) as (_ & _ & _ & Htr & _). cbn zeta in Htr.
    destruct Hopen as (H1 & H2 & H3).
    rewrite Htr, H1, Hl, H2. split; [done|]. split; [done|].
    by apply (same_config_trans h h1 h2).
Qed.

(** Property X19.  A hook with no remembered label whose pattern renders
    every time of the log calls as the empty string never rolls: each
    call takes the remembered label, which stays empty, for that of a
    first run.  Whatever else happens, no file is renamed and none is
    removed. *)
Theorem empty_label_never_rolls (es : list (Z * Entry))
  (h : RollingFileTimeHook) (w : World) :
  currentTimeFileName h = "" ->
  Forall (fun l => l = "") (labels_of h es) ->
  let r := emit_all es (h, w) in
  currentTimeFileName (fst (snd r)) = ""
  /\ w_trace (snd (snd r)) = w_trace w
  /\ same_config h (fst (snd r)).
Proof.
  revert h w. induction es as [|[t e] es IH]; intros h w Hc Hall; cbn zeta.
  { cbn. split; [done|]. split; [done|]. apply same_config_refl. }
  apply Forall_cons in Hall as [Hl Hall]. cbn [fst] in Hl.
  cbn [emit_all]. unfold emit_at, Fire. cbn [fst snd].
  rewrite needsToRoll_inv. cbn zeta.
  assert (EN : OS.Now (set_clock t [] w) = (t, set_clock t [] w)) by done.
  rewrite EN, Hc. cbn [fst snd String.eqb]. rewrite Hl.
  set (h0 := set_currentTimeFileName "" h).
  destruct (open_count_frame e h0 (set_clock t [] w)) as (F1 & F2 & F3).
  cbn zeta in *.
  destruct (match open_if_unset _ with (Some err, st) => _ | (None, st) => _ end)
    as [err [h1 w1]].
  cbn [fst snd] in *.
  assert (Hall1 : Forall (fun l => l = "") (labels_of h1 es)).
  { destruct F3 as (_ & _ & _ & Hp). unfold labels_of in *. by rewrite Hp. }
  specialize (IH h1 (Logger_write e w1) F2 Hall1). cbn zeta in IH.
  destruct (emit_all es (h1, Logger_write e w1)) as [errs [h2 w2]].
  cbn [fst snd] in *. destruct IH as (I1 & I2 & I3).
  split; [done|]. split; [by rewrite I2, F1|].
  apply (same_config_trans h h1 h2); [exact F3 | exact I3].
Qed.

Lemma healthy_can_open (h : RollingFileTimeHook) (w : World) :
  healthy h w -> can_open h w.
Proof.
  intros (Hf & Hp & Hdir). repeat split; try done.
  intros n Hn. apply (Hdir _ n Hn). by left.
Qed.

(** The first log call of a new bucket, on a healthy file system. *)
Lemma seal_step (e : Entry) (t : Z) (c : string)
  (h : RollingFileTimeHook) (w : World) (n : Node) :
  SortContract SP ->
  healthy h w ->
  writing c h w ->
  entry w (fileName (rf h)) = Some n ->
  entry w (createFullFileName (fileName (rf h)) c) = None ->
  time_Format t (timePattern h) <> c ->
  snd (Formatter_Format (entry_Logger e) (entry_Message e)) = None ->
  let r := emit_at e t (h, w) in
  fst r = None
  /\ entry (snd (snd r)) (createFullFileName (fileName (rf h)) c) = Some n
  /\ entry (snd (snd r)) (fileName (rf h))
     = Some (mkNode defaultFilePermissions (serialized e))
  /\ currentFileSize (rf (fst (snd r))) = wrap_int64 (Z.of_nat (length (serialized e)))
  /\ currentTimeFileName (fst (snd r)) = time_Format t (timePattern h)
  /\ (exists fd, currentFile (rf (fst (snd r))) = Some fd
                 /\ w_out (snd (snd r)) = Some fd
                 /\ w_open (snd (snd r)) !! fd = Some (fileName (rf h))
                 /\ appends (snd (snd r)) fd = true)
  /\ fileName (rf (fst (snd r))) = fileName (rf h)
  /\ renamed (w_trace (snd (snd r)))
     = renamed (w_trace w)
       ++ [(fileName (rf h), createFullFileName (fileName (rf h)) c)].
Proof.
  intros HS Hh Hw Hn Hfree Hl Hfmt. cbn zeta. unfold emit_at, Fire. cbn [fst snd].
  rewrite needsToRoll_inv. cbn zeta.
  assert (EN : OS.Now (set_clock t [] w) = (t, set_clock t [] w)) by done.
  rewrite EN. cbn [fst snd].
  pose proof Hw as (fd & H1 & H2 & H3 & H4 & H5 & H6).
  rewrite H5, (proj2 (String.eqb_neq _ _) H6), (proj2 (String.eqb_neq _ _) Hl). cbn [negb].
  set (w0 := set_clock t [] w).
  destruct (roll_healthy c h w0) as (h1 & w1 & ER & R1 & R2 & R3 & R4 & R5); try done.
  rewrite ER. cbn in R3.
  destruct (roll_ok_entries h w0 h1 w1 ER) as (_ & E2 & E3 & _). cbn zeta in E2, E3.
  rewrite H3, H5 in E2, E3.
  assert (Hd : exists d, w_dir w = Some d).
  { unfold entry in Hn. destruct (w_dir w); [eauto | done]. }
  destruct Hd as [d Hd].
  assert (Hnot : createFullFileName (fileName (rf h)) c ∉ fst (getSortedLogHistory (h, w0))).
  { destruct Hh as (Hf & _).
    destruct (getSortedLogHistory_healthy h w0 d HS Hd Hf) as (history & -> & Hperm & _).
    cbn [fst]. rewrite Hperm. intros [_ Hin]%list_elem_of_filter.
    destruct (regular_names_entry w d _ Hd Hin) as [n' Hn'].
    by rewrite Hfree in Hn'. }
  specialize (E2 Hnot). specialize (E3 (fun E => createFullFileName_neq _ _ (eq_sym E))).
  destruct R4 as (Hname & Hdir & Hmax & Hpat).
  destruct (open_count_write e h1 w1 (healthy_can_open h1 w1 R1) R2 Hfmt)
    as (G1 & G2 & G3 & G4 & G5 & G6 & (G7 & _) & G8 & _).
  cbn zeta in *.
  destruct (match open_if_unset _ with (Some err, st) => _ | (None, st) => _ end)
    as [err [h' w']].
  cbn [fst snd] in *. rewrite Hname in *.
  change (entry w0 (fileName (rf h))) with (entry w (fileName (rf h))) in E2.
  rewrite E3 in G2, G5. cbn in G2, G5.
  split; [done|]. split; [|split; [done|split; [done|split; [by rewrite G6|]]]].
  - rewrite G3 by apply createFullFileName_neq. by rewrite E2.
  - split; [done|]. split; [done|]. by rewrite G8, R5.
Qed.

(** Property X20.  On a healthy file system, with a [sort.Sort] that
    keeps its contract, a formatter that does not fail and an entry
    shorter than [2^63] bytes, the first log call of a new bucket returns
    nil and seals the bucket that ended: the active file is renamed, once,
    to the history name (base name, delimiter and the ended bucket's
    label, a name that was free), which then holds exactly what the
    active file held; the active file is a new file that holds the entry
    of this call and nothing else.  The hook remembers the new bucket,
    and it is in step with the new file: hook and logger write to the same
    open descriptor, and the tracked size is the length of the file. *)
Theorem new_bucket_seals_the_old (e : Entry) (t : Z) (c : string)
  (h : RollingFileTimeHook) (w : World) (n : Node) :
  SortContract SP ->
  healthy h w ->
  writing c h w ->
  entry w (fileName (rf h)) = Some n ->
  entry w (createFullFileName (fileName (rf h)) c) = None ->
  time_Format t (timePattern h) <> c ->
  snd (Formatter_Format (entry_Logger e) (entry_Message e)) = None ->
  Z.of_nat (length (serialized e)) < 2 ^ 63 ->
  let r := emit_at e t (h, w) in
  fst r = None
  /\ renamed (w_trace (snd (snd r)))
     = renamed (w_trace w)
       ++ [(fileName (rf h), createFullFileName (fileName (rf h)) c)]
  /\ entry (snd (snd r)) (createFullFileName (fileName (rf h)) c) = Some n
  /\ entry (snd (snd r)) (fileName (rf h))
     = Some (mkNode defaultFilePermissions (serialized e))
  /\ currentTimeFileName (fst (snd r)) = time_Format t (timePattern h)
  /\ in_sync (fst (snd r)) (snd (snd r)).
Proof.
  intros HS Hh Hw Hn Hfree Hl Hfmt Hbound.
  destruct (seal_step e t c h w n HS Hh Hw Hn Hfree Hl Hfmt)
    as (S1 & S2 & S3 & S4 & S5 & (fd & S6 & S7 & S8 & S8') & S9 & S10).
  cbn zeta in *. do 5 (split; [done|]).
  exists fd, (mkNode defaultFilePermissions (serialized e)).
  rewrite S9. do 4 (split; [done|]). split; [|done].
  rewrite S4. apply wrap_int64_small. cbn [n_data]. lia.
Qed.

End OpeningOutcomes.

(** ** The further properties on the scenario of the tests *)

(** The directory after the first log call holds the active file and
    nothing else. *)
Ltac only_the_active_file Hn :=
  let Hd := fresh "Hd" in
  assert (Hd : w_dir (snd after_first_call)
               = Some {[ "test.log" := regular ("one" +:+ LF) ]})
    by (vm_compute; reflexivity);
  unfold entry in Hn; cbn [w_dir set_fault] in Hn; rewrite Hd in Hn;
  apply lookup_singleton_Some in Hn as [_ <-]; reflexivity.

Lemma Fire_reopens_after_Close_witness :
  let h := fst after_first_call in
  let w := snd after_first_call in
  let e := text_entry "b" in
  let st1 := Close (h, w) in
  let r := emit_at e (day1 + 60) (snd st1) in
  entry (snd (snd r)) "test.log" = Some (regular ("one" +:+ LF +:+ "b" +:+ LF))
  /\ fst st1 = None
  /\ currentFile (rf (fst (snd st1))) = None
  /\ fst r = None
  /\ entry (snd (snd r)) (fileName (rf h))
     = Some (mkNode (n_mode (opened_node (entry w (fileName (rf h)))))
                    (n_data (opened_node (entry w (fileName (rf h)))) ++ serialized e))
  /\ (forall other, other <> fileName (rf h) -> entry (snd (snd r)) other = entry w other)
  /\ (exists fd', currentFile (rf (fst (snd r))) = Some fd'
                  /\ w_out (snd (snd r)) = Some fd'
                  /\ w_open (snd (snd r)) !! fd' = Some (fileName (rf h))
                  /\ appends (snd (snd r)) fd' = true)
  /\ w_trace (snd (snd r)) = w_trace w.
Proof.
  split; [vm_compute; reflexivity|].
  apply (Fire_reopens_after_Close (text_entry "b") (day1 + 60)
           (fst after_first_call) (snd after_first_call) 3%nat).
  - vm_compute. reflexivity.
  - eexists. vm_compute. reflexivity.
  - reflexivity.
  - split; [reflexivity|]. split; [reflexivity|]. split; [reflexivity|].
    split; [vm_compute; discriminate|]. intros n Hn. only_the_active_file Hn.
  - vm_compute. reflexivity.
  - reflexivity.
Defined.

Lemma rename_failure_is_recovered_in_the_bucket_witness :
  let h := fst after_first_call in
  let w := set_fault (failing SysRename ErrPermission) (snd after_first_call) in
  let e1 := text_entry "two" in
  let e2 := text_entry "three" in
  let r1 := emit_at e1 (day1 + day) (h, w) in
  let r2 := emit_at e2 (day1 + day + 60) (snd r1) in
  listing (snd (snd r2)) = ["test.log"]
  /\ entry (snd (snd r2)) "test.log" = Some (regular ("one" +:+ LF +:+ "three" +:+ LF))
  /\ fst r1 = Some ErrPermission
  /\ w_dir (snd (snd r1)) = w_dir w
  /\ fst r2 = None
  /\ entry (snd (snd r2)) (fileName (rf h))
     = Some (mkNode (n_mode (regular ("one" +:+ LF)))
                    (n_data (regular ("one" +:+ LF)) ++ serialized e2))
  /\ (forall other, other <> fileName (rf h) -> entry (snd (snd r2)) other = entry w other)
  /\ renamed (w_trace (snd (snd r2))) = renamed (w_trace w)
  /\ currentTimeFileName (fst (snd r2)) = time_Format (day1 + day) (timePattern h).
Proof.
  split; [vm_compute; reflexivity|]. split; [vm_compute; reflexivity|].
  apply (rename_failure_is_recovered_in_the_bucket
           (text_entry "two") (text_entry "three") (day1 + day) (day1 + day + 60)
           (fst after_first_call)
           (set_fault (failing SysRename ErrPermission) (snd after_first_call))
           (regular ("one" +:+ LF)) ErrPermission).
  - exists 3%nat, (regular ("one" +:+ LF)). repeat split; vm_compute; reflexivity.
  - vm_compute. reflexivity.
  - vm_compute. discriminate.
  - vm_compute. discriminate.
  - vm_compute. reflexivity.
  - reflexivity.
  - reflexivity.
  - split; [reflexivity|]. split; [reflexivity|]. intros k. reflexivity.
  - split; [reflexivity|]. split; [reflexivity|]. split; [reflexivity|].
    split; [vm_compute; discriminate|]. intros n Hn. only_the_active_file Hn.
  - reflexivity.
Defined.

Lemma tracked_size_is_the_file_size_witness :
  let h := fst after_first_call in
  let w := snd after_first_call in
  let r := emit_at (text_entry "day two") (day1 + day) (h, w) in
  fst r = None
  /\ currentFileSize (rf (fst (snd r))) = 8
  /\ entry (snd (snd r)) "test.log" = Some (regular ("day two" +:+ LF))
  /\ in_sync (fst (snd r)) (snd (snd r))
  /\ fileName (rf (fst (snd r))) = fileName (rf h).
Proof.
  split; [vm_compute; reflexivity|]. split; [vm_compute; reflexivity|].
  split; [vm_compute; reflexivity|].
  apply (tracked_size_is_the_file_size (text_entry "day two") (day1 + day)
           (fst after_first_call) (snd after_first_call)).
  - vm_compute. reflexivity.
  - right. exists 3%nat, (regular ("one" +:+ LF)). repeat split; vm_compute; reflexivity.
  - intros n' Hn'. vm_compute in Hn'. injection Hn' as <-. vm_compute. reflexivity.
Defined.

Lemma bucket_entries_are_appended_in_order_witness :
  let h := fst after_first_call in
  let w := snd after_first_call in
  let es := [(day1 + 60, text_entry "b"); (day1 + 7200, text_entry "c")] in
  let r := emit_all es (h, w) in
  let all := concat (map (fun te => serialized (snd te)) es) in
  entry (snd (snd r)) "test.log"
  = Some (regular ("one" +:+ LF +:+ "b" +:+ LF +:+ "c" +:+ LF))
  /\ currentFileSize (rf (fst (snd r))) = 8
  /\ fst r = map (fun _ => None) es
  /\ entry (snd (snd r)) (fileName (rf h))
     = Some (mkNode (n_mode (regular ("one" +:+ LF)))
                    (n_data (regular ("one" +:+ LF)) ++ all))
  /\ (forall other, other <> fileName (rf h) -> entry (snd (snd r)) other = entry w other)
  /\ w_trace (snd (snd r)) = w_trace w
  /\ (Z.of_nat (length (n_data (regular ("one" +:+ LF)) ++ all)) < 2 ^ 63 ->
      in_sync (fst (snd r)) (snd (snd r))).
Proof.
  split; [vm_compute; reflexivity|]. split; [vm_compute; reflexivity|].
  apply (bucket_entries_are_appended_in_order
           [(day1 + 60, text_entry "b"); (day1 + 7200, text_entry "c")]
           (fst after_first_call) (snd after_first_call) (regular ("one" +:+ LF))).
  - exists 3%nat, (regular ("one" +:+ LF)). repeat split; vm_compute; reflexivity.
  - vm_compute. reflexivity.
  - vm_compute. discriminate.
  - repeat constructor; vm_compute; reflexivity.
Defined.

Lemma new_bucket_seals_the_old_witness :
  let h := fst after_first_call in
  let w := snd after_first_call in
  let e := text_entry "two" in
  let r := emit_at e (day1 + day) (h, w) in
  listing (snd (snd r)) = ["test.log.2024-01-01"; "test.log"]
  /\ entry (snd (snd r)) "test.log.2024-01-01" = Some (regular ("one" +:+ LF))
  /\ entry (snd (snd r)) "test.log" = Some (regular ("two" +:+ LF))
  /\ fst r = None
  /\ renamed (w_trace (snd (snd r)))
     = renamed (w_trace w)
       ++ [(fileName (rf h), createFullFileName (fileName (rf h)) "2024-01-01")]
  /\ entry (snd (snd r)) (createFullFileName (fileName (rf h)) "2024-01-01")
     = Some (regular ("one" +:+ LF))
  /\ entry (snd (snd r)) (fileName (rf h))
     = Some (mkNode defaultFilePermissions (serialized e))
  /\ currentTimeFileName (fst (snd r)) = time_Format (day1 + day) (timePattern h)
  /\ in_sync (fst (snd r)) (snd (snd r)).
Proof.
  split; [vm_compute; reflexivity|]. split; [vm_compute; reflexivity|].
  split; [vm_compute; reflexivity|].
  apply (new_bucket_seals_the_old (text_entry "two") (day1 + day) "2024-01-01"
           (fst after_first_call) (snd after_first_call) (regular ("one" +:+ LF))).
  - exact GoSort_contract.
  - split; [intros s; reflexivity|]. split; [vm_compute; discriminate|].
    intros name n Hn _. only_the_active_file Hn.
  - exists 3%nat. repeat split; try (vm_compute; reflexivity).
    + eexists. vm_compute. reflexivity.
    + discriminate.
  - vm_compute. reflexivity.
  - vm_compute. reflexivity.
  - vm_compute. discriminate.
  - reflexivity.
  - vm_compute. reflexivity.
Defined.

Lemma empty_label_never_rolls_witness :
  let h := new_hook "./test.log" "" 5 in
  let w := world_at None day1 in
  let es := [(day1, text_entry "one"); (day1 + day, text_entry "two");
             (day1 + 2 * day, text_entry "three")] in
  let r := emit_all es (h, w) in
  fst r = [None; None; None]
  /\ listing (snd (snd r)) = ["test.log"]
  /\ currentTimeFileName (fst (snd r)) = ""
  /\ w_trace (snd (snd r)) = w_trace w
  /\ same_config h (fst (snd r)).
Proof.
  split; [vm_compute; reflexivity|]. split; [vm_compute; reflexivity|].
  apply (empty_label_never_rolls
           [(day1, text_entry "one"); (day1 + day, text_entry "two");
            (day1 + 2 * day, text_entry "three")]
           (new_hook "./test.log" "" 5) (world_at None day1)).
  - reflexivity.
  - repeat constructor; vm_compute; reflexivity.
Defined.

Lemma failed_open_leaves_no_handle_witness :
  let h := new_hook "./test.log" "2006-01-02" 5 in
  let w := set_fault (failing SysStat ErrIO) (world_at None day1) in
  let r := createFileAndFolderIfNeeded (h, w) in
  fst r = Some ErrIO
  /\ listing (snd (snd r)) = ["test.log"]
  /\ fst (Fire (text_entry "one") (fst (snd r), set_fault no_fault (snd (snd r)))) = None
  /\ currentFile (rf (fst (snd r))) = None
  /\ w_open (snd (snd r)) = w_open w
  /\ w_out (snd (snd r)) = w_out w
  /\ w_trace (snd (snd r)) = w_trace w
  /\ currentFileSize (rf (fst (snd r))) = currentFileSize (rf h)
  /\ currentTimeFileName (fst (snd r)) = currentTimeFileName h
  /\ same_config h (fst (snd r))
  /\ (forall other, other <> fileName (rf h) -> entry (snd (snd r)) other = entry w other).
Proof.
  split; [vm_compute; reflexivity|]. split; [vm_compute; reflexivity|].
  split; [vm_compute; reflexivity|].
  apply (failed_open_leaves_no_handle
           (new_hook "./test.log" "2006-01-02" 5)
           (set_fault (failing SysStat ErrIO) (world_at None day1)) ErrIO).
  - vm_compute. reflexivity.
  - reflexivity.
  - reflexivity.
Defined.

(** ** Retention, restarts and the files of others *)

Lemma regular_names_elem (d : gmap string Node) (name : string) :
  name ∈ regular_names d
  <-> exists n, d !! name = Some n /\ isRegular (n_mode n) = true.
Proof.
  unfold regular_names. rewrite list_elem_of_fmap. split.
  - intros ([k n] & -> & Hin). apply list_elem_of_filter in Hin as [Hreg Hin].
    apply elem_of_map_to_list in Hin. by exists n.
  - intros (n & Hn & Hreg). exists (name, n). split; [done|].
    apply list_elem_of_filter. split; [done|]. by apply elem_of_map_to_list.
Qed.

Lemma read_loop_regular (fuel : nat) (absDirPath : string)
  (fpFilter : option (string -> bool)) (w : World) :
  forall (chunk : nat) (rest : list FileInfo) (acc files : list string),
    read_loop fuel absDirPath fpFilter true chunk rest acc w = Some (files, None) ->
    forall f, f ∈ files ->
              f ∈ acc
              \/ f ∈ map fi_Name (filter (fun fi => isRegular (fi_Mode fi) = true) rest).
Proof.
  induction fuel as [|fuel IH]; intros chunk rest acc files H f Hf; [done|].
  rewrite read_loop_S in H. unfold OS.Readdir in H.
  destruct (w_fault w (SysReaddir chunk)) as [e|].
  - destruct (is_EOF e); [|done]. injection H as <-. by left.
  - destruct rest as [|fi rest]; [injection H as <-; by left|].
    cbv iota in H. destruct (IH _ _ _ _ H f Hf) as [Hin|Hin].
    + rewrite collect_chunk_filtered in Hin.
      apply elem_of_app in Hin as [Hin|Hin]; [by left|]. right.
      apply list_elem_of_filter in Hin as [_ Hin].
      rewrite <- (firstn_skipn rbs (fi :: rest)), filter_app, map_app.
      apply elem_of_app. by left.
    + right. rewrite <- (firstn_skipn rbs (fi :: rest)), filter_app, map_app.
      apply elem_of_app. by right.
Qed.

(** Whatever fails, a scan in name-only mode that returns no error
    returns names of regular entries of the directory. *)
Lemma scan_regular (dirPath : string) (fpFilter : option (string -> bool))
  (w : World) (files : list string) (f : string) :
  getDirFilePaths dirPath fpFilter true w = (files, None) ->
  f ∈ files ->
  exists n, entry w f = Some n /\ isRegular (n_mode n) = true.
Proof.
  unfold getDirFilePaths, OS.OpenDir.
  destruct (w_fault w SysOpenDir); [done|].
  destruct (w_dir w) as [d|] eqn:Hd; [|done].
  set (dfi := map _ (map_to_list d)).
  assert (Hloop : forall absDirPath,
             match read_loop (S (length dfi)) absDirPath fpFilter true 0 dfi [] w with
             | Some r => r
             | None => ([], Some ErrIO)
             end = (files, None) ->
             f ∈ files -> exists n, entry w f = Some n /\ isRegular (n_mode n) = true).
  { intros absDirPath H Hf.
    destruct (read_loop _ _ _ _ _ _ _ _) as [r|] eqn:ER; [|done]. subst r.
    destruct (read_loop_regular _ _ _ _ _ _ _ _ ER f Hf) as [Hin|Hin];
      [by apply elem_of_nil in Hin|].
    subst dfi. rewrite listing_names in Hin. apply regular_names_elem in Hin.
    unfold entry. by rewrite Hd. }
  destruct (negb (OS.IsAbs dirPath)).
  - destruct (OS.Abs dirPath w) as [a [e|]]; [done|]. apply Hloop.
  - apply Hloop.
Qed.

Section Retention.

Context {TP : TimePkg} {SP : SortPkg}.

Lemma history_is_history (h : RollingFileTimeHook) (w : World)
  (history : list string) (name : string) :
  SortContract SP ->
  getSortedLogHistory (h, w) = (history, None) ->
  name ∈ history ->
  is_history h name /\ exists n, entry w name = Some n /\ isRegular (n_mode n) = true.
Proof.
  intros HS EH Hin.
  destruct (getDirFilePaths (currentDirPath (rf h)) None true w) as [files [err|]] eqn:ES.
  { unfold getSortedLogHistory in EH. by rewrite ES in EH. }
  destruct (getSortedLogHistory_spec h w files HS ES) as (tails & E & Hperm & _).
  rewrite EH in E. injection E as ->.
  apply (history_member h files tails name Hperm) in Hin as (Hfile & Hhas & Hvalid).
  split; [|by apply (scan_regular _ _ _ _ _ ES)].
  unfold is_history, validRollName. rewrite Hhas, Hvalid. eauto.
Qed.

Lemma roll_failed_dir (h : RollingFileTimeHook) (w : World) (e : error)
  (h' : RollingFileTimeHook) (w' : World) :
  roll (h, w) = (Some e, (h', w')) -> w_dir w' = w_dir w.
Proof.
  rewrite roll_eq. intros H.
  pose proof (Close_same_files (currentFile (rf h)) w) as (Hd1 & _).
  destruct (OS.Close (currentFile (rf h)) w) as [[err|] w1]; cbn [fst snd] in *.
  - by injection H as <- <- <-.
  - cbn zeta in H.
    destruct (getSortedLogHistory _) as [history [err|]]; [by injection H as <- <- <-|].
    pose proof (Now_same_files w1) as (Hd2 & _).
    destruct (OS.Rename _ _ (snd (OS.Now w1))) as [[err|] w3] eqn:ER; [|discriminate].
    injection H as <- <- <-.
    destruct (Rename_entry _ _ _ _ _ ER) as (_ & _ & _ & Hd3).
    by rewrite Hd3, Hd2, Hd1.
Qed.

(** Property X21.  With a [sort.Sort] that keeps its contract, a roll,
    whether it succeeds or fails, and whatever fails in it, leaves alone
    every entry of the directory that is neither the active file nor the
    new history name and that is not a history file of the policy: a name
    without the roll name prefix or with a suffix that is not valid, an
    entry that is not a regular file, or a name that is not in the
    directory. *)
Theorem roll_never_touches_foreign_files (h : RollingFileTimeHook) (w : World)
  (err : option error) (h' : RollingFileTimeHook) (w' : World) (name : string) :
  SortContract SP ->
  roll (h, w) = (err, (h', w')) ->
  name <> currentName (rf h) ->
  name <> createFullFileName (fileName (rf h)) (currentTimeFileName h) ->
  ~ is_history h name
  \/ (exists n, entry w name = Some n /\ isRegular (n_mode n) = false)
  \/ entry w name = None ->
  entry w' name = entry w name.
Proof.
  intros HS E Hcur Hnew Hforeign.
  destruct err as [e|].
  { unfold entry. by rewrite (roll_failed_dir _ _ _ _ _ E). }
  destruct (roll_ok_entries h w h' w' E) as (_ & _ & _ & Hother). cbn zeta in Hother.
  apply Hother; [done | done |].
  destruct (roll_ok_inv h w h' w' E) as (_ & history & _ & _ & EH & _).
  rewrite EH. cbn [fst]. intros Hin.
  destruct (history_is_history h w history name HS EH Hin) as (Hh & n & Hn & Hreg).
  destruct Hforeign as [Hnot|[(n' & Hn' & Hreg')|Hnone]]; [done | | congruence].
  rewrite Hn in Hn'. injection Hn' as <-. congruence.
Qed.

(** Property X22.  The retention limit holds after a roll.  On a file
    system without failures, with a [sort.Sort] that keeps its contract
    and a positive limit, when the active file
    is a regular file under its base name, the remembered label is a
    valid suffix and the new history name is free, a roll that returns
    nil leaves a directory whose history, scanned again, is what the roll
    kept: the new history file and the history files found before, but
    for those in front that exceed the limit.  It has the new history
    file in it and at most [maxRolls] names. *)
Theorem retention_limit_holds_after_a_roll (h : RollingFileTimeHook) (w : World)
  (h' : RollingFileTimeHook) (w' : World) (n : Node) :
  SortContract SP ->
  (forall s, w_fault w s = None) ->
  0 < maxRolls (rf h) ->
  currentName (rf h) = fileName (rf h) ->
  entry w (fileName (rf h)) = Some n ->
  isRegular (n_mode n) = true ->
  isFileRollNameValid h (currentTimeFileName h) = true ->
  entry w (createFullFileName (fileName (rf h)) (currentTimeFileName h)) = None ->
  roll (h, w) = (None, (h', w')) ->
  let newHistoryName := createFullFileName (fileName (rf h)) (currentTimeFileName h) in
  let before := fst (getSortedLogHistory (h, w)) in
  let k := (S (length before) - Z.to_nat (maxRolls (rf h)))%nat in
  exists after,
    getSortedLogHistory (h', w') = (after, None)
    /\ Permutation after (drop k before ++ [newHistoryName])
    /\ newHistoryName ∈ after
    /\ length after = Nat.min (S (length before)) (Z.to_nat (maxRolls (rf h)))
    /\ (length after <= Z.to_nat (maxRolls (rf h)))%nat.
Proof.
  intros HS Hf HL Hcur Hn Hreg Hvalid Hfree E. cbn zeta.
  destruct (roll_ok_inv _ _ _ _ E) as (w1 & history & w3 & EC & EH & ER & Hh' & ->).
  rewrite EH. cbn [fst].
  set (new := createFullFileName (fileName (rf h)) (currentTimeFileName h)) in *.
  set (k := (S (length history) - Z.to_nat (maxRolls (rf h)))%nat).
  destruct (getSortedLogHistory_needs_dir _ _ _ EH) as [d Hd].
  destruct (getSortedLogHistory_healthy h w d HS Hd Hf) as (history0 & EH0 & Hperm & _).
  rewrite EH in EH0. injection EH0 as <-.
  fold (regular_names d) in Hperm.
  (* the history names *)
  assert (Hnd : NoDup history).
  { rewrite Hperm. apply NoDup_filter, regular_names_NoDup. }
  assert (Hmem : forall name, name ∈ history
                   <-> is_history h name
                       /\ exists n0, entry w name = Some n0 /\ isRegular (n_mode n0) = true).
  { intros name. rewrite Hperm, list_elem_of_filter, regular_names_elem.
    unfold entry. by rewrite Hd. }
  assert (Hnew : new ∉ history).
  { intros (_ & n0 & Hn0 & _)%Hmem. by rewrite Hfree in Hn0. }
  assert (Hact : forall name, is_history h name -> name <> fileName (rf h)).
  { intros name [tail Hv]. unfold validRollName in Hv.
    destruct (hasRollName (rf h) name) eqn:Ehas; [|done].
    apply hasRollName_iff in Ehas as [suffix ->]. apply createFullFileName_neq. }
  assert (Hnewh : is_history h new).
  { unfold is_history, validRollName, new.
    rewrite (proj2 (hasRollName_iff _ _)) by eauto.
    rewrite getFileRollName_full, Hvalid. eauto. }
  (* the world after close, clock and rename *)
  pose proof (Close_same_files (currentFile (rf h)) w) as Hs1. rewrite EC in Hs1.
  pose proof (same_files_trans _ _ _ Hs1 (Now_same_files w1)) as Hs2. cbn in Hs2.
  pose proof (Rename_entry _ _ _ _ _ ER) as (Hother & Hmoved & Hold & _).
  pose proof (Rename_frame _ _ _ _ _ ER) as (_ & _ & Hf3 & _).
  specialize (Hmoved eq_refl). rewrite (entry_same_files _ _ _ Hs2), Hcur, Hn in Hmoved.
  rewrite Hcur in Hold, Hother.
  specialize (Hold eq_refl (fun E0 => createFullFileName_neq _ _ (eq_sym E0))).
  assert (Hother' : forall name, name <> fileName (rf h) -> name <> new ->
                                 entry w3 name = entry w name).
  { intros name H1 H2. rewrite Hother by done. apply (entry_same_files _ _ _ Hs2). }
  assert (Hfault3 : forall s, w_fault w3 s = None).
  { intros s. rewrite Hf3. destruct Hs2 as (_ & _ & _ & -> & _). apply Hf. }
  (* the names to delete *)
  assert (Hk : (k <= length history)%nat) by (subst k; lia).
  assert (Hdel : to_delete (rf h) (history ++ [new]) = take k history).
  { unfold to_delete. rewrite (proj2 (Z.leb_gt _ _)) by lia.
    rewrite length_app. cbn [length].
    replace (Z.to_nat (Z.of_nat (length history + 1) - maxRolls (rf h))) with k
      by (subst k; lia).
    by apply take_app_le. }
  rewrite Hdel.
  set (w' := fold_left remove_step (take k history) w3).
  destruct (remove_loop_removed (take k history) w3) as (_ & Hgone & Hkeep & _).
  { eapply sublist_NoDup; [exact Hnd | apply sublist_take]. }
  { intros name Hin. assert (Hin' : name ∈ history) by (by eapply subseteq_take).
    apply Hmem in Hin' as (Hh & n0 & Hn0 & _).
    rewrite Hother'; [eauto | by apply Hact | intros ->; by rewrite Hfree in Hn0]. }
  { intros name _. apply Hfault3. }
  fold w' in Hgone, Hkeep.
  destruct (remove_loop_frame (take k history) w3) as (_ & _ & _ & _ & _ & Hf').
  fold w' in Hf'.
  assert (Hnewk : new ∉ take k history).
  { intros Hin. apply Hnew. by eapply subseteq_take. }
  assert (Hnew' : entry w' new = Some n) by (by rewrite Hkeep).
  assert (Hd' : exists d', w_dir w' = Some d').
  { unfold entry in Hnew'. destruct (w_dir w'); [eauto | done]. }
  destruct Hd' as [d' Hd'].
  destruct (getSortedLogHistory_healthy h' w' d' HS Hd') as (after & EA & Hperm' & _).
  { intros s. rewrite Hf'. apply Hfault3. }
  fold (regular_names d') in Hperm'.
  assert (Hperm'' : Permutation after (filter (is_history h) (regular_names d'))).
  { rewrite Hperm'. subst h'. done. }
  assert (Hsplit : forall name, name ∈ history ->
                                name ∈ take k history \/ name ∈ drop k history).
  { intros name Hin. rewrite <- (take_drop k history) in Hin.
    by apply elem_of_app in Hin. }
  assert (Hdisj : forall name, name ∈ take k history -> name ∈ drop k history -> False).
  { pose proof Hnd as Hnd'. rewrite <- (take_drop k history) in Hnd'.
    apply NoDup_app in Hnd' as (_ & Hdisj & _). intros name H1 H2. by apply (Hdisj name). }
  assert (Hafter : Permutation after (drop k history ++ [new])).
  { apply NoDup_Permutation.
    - rewrite Hperm''. apply NoDup_filter, regular_names_NoDup.
    - apply NoDup_app. split; [|split; [|apply NoDup_singleton]].
      + eapply sublist_NoDup; [exact Hnd | apply sublist_drop].
      + intros x Hx Hx'%list_elem_of_singleton. subst x.
        apply Hnew. by eapply subseteq_drop.
    - intros name. rewrite Hperm'', list_elem_of_filter, regular_names_elem, elem_of_app,
        list_elem_of_singleton.
      assert (He : forall n0, d' !! name = Some n0 <-> entry w' name = Some n0).
      { intros n0. unfold entry. by rewrite Hd'. }
      split.
      + intros (Hh & n0 & Hn0 & Hreg0). apply He in Hn0.
        destruct (decide (name = new)) as [->|Hne]; [by right|]. left.
        destruct (decide (name ∈ take k history)) as [Hin|Hnin].
        { by rewrite (Hgone _ Hin) in Hn0. }
        rewrite Hkeep in Hn0 by done.
        rewrite Hother' in Hn0 by (try done; by apply Hact).
        destruct (Hsplit name) as [?|?]; [|done|done].
        apply Hmem. eauto.
      + intros [Hin| ->].
        * assert (Hin' : name ∈ history) by (by eapply subseteq_drop).
          apply Hmem in Hin' as (Hh & n0 & Hn0 & Hreg0).
          split; [done|]. exists n0. split; [|done]. apply He.
          rewrite Hkeep by (intros Hin'; by apply (Hdisj name)).
          rewrite Hother'; [done | by apply Hact | intros ->; by apply Hnew, Hmem; eauto].
        * split; [done|]. exists n. split; [|done]. by apply He. }
  exists after. split; [done|]. split; [done|].
  split; [rewrite Hafter; apply elem_of_app; right; by apply list_elem_of_singleton|].
  rewrite Hafter, length_app, length_drop. cbn [length]. subst k. lia.
Qed.

(** Property X23.  On a healthy file system, with a [sort.Sort] that
    keeps its contract and a formatter that does not fail, a fresh hook
    that starts on a directory where the active file is left from an
    earlier run does not roll that file on its first log call, whatever
    the time: it appends to it and remembers the bucket of the call,
    whose label is not empty and names no history file yet.  What the file held before the start is
    rolled with that bucket: after the first call of the next bucket the
    history file of the first bucket holds the old content followed by
    the entry of the first call, and the active file holds the entry of
    the second call only. *)
Theorem restart_continues_the_active_file (e1 e2 : Entry) (t1 t2 : Z)
  (h : RollingFileTimeHook) (w : World) (n : Node) :
  SortContract SP ->
  fresh h ->
  healthy h w ->
  entry w (fileName (rf h)) = Some n ->
  time_Format t1 (timePattern h) <> "" ->
  time_Format t2 (timePattern h) <> time_Format t1 (timePattern h) ->
  entry w (createFullFileName (fileName (rf h)) (time_Format t1 (timePattern h))) = None ->
  snd (Formatter_Format (entry_Logger e1) (entry_Message e1)) = None ->
  snd (Formatter_Format (entry_Logger e2) (entry_Message e2)) = None ->
  let r1 := emit_at e1 t1 (h, w) in
  let r2 := emit_at e2 t2 (snd r1) in
  let base := fileName (rf h) in
  let first := createFullFileName base (time_Format t1 (timePattern h)) in
  fst r1 = None
  /\ renamed (w_trace (snd (snd r1))) = renamed (w_trace w)
  /\ entry (snd (snd r1)) base = Some (mkNode (n_mode n) (n_data n ++ serialized e1))
  /\ fst r2 = None
  /\ entry (snd (snd r2)) first = Some (mkNode (n_mode n) (n_data n ++ serialized e1))
  /\ entry (snd (snd r2)) base = Some (mkNode defaultFilePermissions (serialized e2)).
Proof.
  intros HS Hfresh Hh Hn Hl1 Hl2 Hfree Hf1 Hf2. cbn zeta.
  pose proof Hfresh as [Hnil Hc].
  destruct (reopen_and_append e1 t1 h w (healthy_can_open h w Hh) Hnil (or_introl Hc) Hf1)
    as (G1 & G2 & G3 & _ & _ & _ & _ & _ & _).
  destruct (emit_fresh e1 t1 h w Hh Hfresh Hl1) as (F1 & F2 & (Fn & _ & _ & Fp) & F4).
  cbn zeta in *. rewrite Hn in G2. cbn [opened_node] in G2.
  destruct (emit_at e1 t1 (h, w)) as [err1 [h1 w1]]. cbn [fst snd] in *.
  split; [done|]. split; [done|]. split; [done|].
  rewrite <- Fn, <- Fp in *.
  destruct (seal_step e2 t2 (time_Format t1 (timePattern h1)) h1 w1
              (mkNode (n_mode n) (n_data n ++ serialized e1)))
    as (S1 & S2 & S3 & _); try done.
  rewrite G3 by apply createFullFileName_neq. done.
Qed.

End Retention.

Lemma retention_limit_holds_after_a_roll_witness :
  let h := fst (fourth_day 2) in
  let w := snd (fourth_day 2) in
  let h' := fst (snd (roll (h, w))) in
  let w' := snd (snd (roll (h, w))) in
  let before := fst (getSortedLogHistory (h, w)) in
  let k := (S (length before) - Z.to_nat (maxRolls (rf h)))%nat in
  before = ["test.log.2024-01-01"; "test.log.2024-01-02"]
  /\ getSortedLogHistory (h', w') = (["test.log.2024-01-02"; "test.log.2024-01-03"], None)
  /\ exists after,
       getSortedLogHistory (h', w') = (after, None)
       /\ Permutation after
            (drop k before
             ++ [createFullFileName (fileName (rf h)) (currentTimeFileName h)])
       /\ createFullFileName (fileName (rf h)) (currentTimeFileName h) ∈ after
       /\ length after = Nat.min (S (length before)) (Z.to_nat (maxRolls (rf h)))
       /\ (length after <= Z.to_nat (maxRolls (rf h)))%nat.
Proof.
  split; [vm_compute; reflexivity|]. split; [vm_compute; reflexivity|].
  apply (retention_limit_holds_after_a_roll
           (fst (fourth_day 2)) (snd (fourth_day 2))
           (fst (snd (roll (fst (fourth_day 2), snd (fourth_day 2)))))
           (snd (snd (roll (fst (fourth_day 2), snd (fourth_day 2)))))
           (regular ("three" +:+ LF))).
  - exact GoSort_contract.
  - intros s. reflexivity.
  - reflexivity.
  - vm_compute. reflexivity.
  - vm_compute. reflexivity.
  - reflexivity.
  - vm_compute. reflexivity.
  - vm_compute. reflexivity.
  - vm_compute. reflexivity.
Defined.

Lemma restart_continues_the_active_file_witness :
  let h := new_hook "./test.log" "2006-01-02" 5 in
  let w := world_at (Some {[ "test.log" := regular ("old" +:+ LF) ]}) (day1 + 3600) in
  let e1 := text_entry "one" in
  let e2 := text_entry "two" in
  let r1 := emit_at e1 (day1 + 3600) (h, w) in
  let r2 := emit_at e2 (day1 + day) (snd r1) in
  listing (snd (snd r2)) = ["test.log.2024-01-01"; "test.log"]
  /\ entry (snd (snd r2)) "test.log.2024-01-01"
     = Some (regular ("old" +:+ LF +:+ "one" +:+ LF))
  /\ fst r1 = None
  /\ renamed (w_trace (snd (snd r1))) = renamed (w_trace w)
  /\ entry (snd (snd r1)) (fileName (rf h))
     = Some (mkNode (n_mode (regular ("old" +:+ LF)))
                    (n_data (regular ("old" +:+ LF)) ++ serialized e1))
  /\ fst r2 = None
  /\ entry (snd (snd r2))
           (createFullFileName (fileName (rf h))
                               (time_Format (day1 + 3600) (timePattern h)))
     = Some (mkNode (n_mode (regular ("old" +:+ LF)))
                    (n_data (regular ("old" +:+ LF)) ++ serialized e1))
  /\ entry (snd (snd r2)) (fileName (rf h))
     = Some (mkNode defaultFilePermissions (serialized e2)).
Proof.
  split; [vm_compute; reflexivity|]. split; [vm_compute; reflexivity|].
  apply (restart_continues_the_active_file (text_entry "one") (text_entry "two")
           (day1 + 3600) (day1 + day)
           (new_hook "./test.log" "2006-01-02" 5)
           (world_at (Some {[ "test.log" := regular ("old" +:+ LF) ]}) (day1 + 3600))
           (regular ("old" +:+ LF))).
  - exact GoSort_contract.
  - split; reflexivity.
  - split; [intros s; reflexivity|]. split; [vm_compute; discriminate|].
    intros name n Hn _. unfold entry in Hn. cbn [w_dir world_at] in Hn.
    apply lookup_singleton_Some in Hn as [_ <-]. reflexivity.
  - vm_compute. reflexivity.
  - vm_compute. discriminate.
  - vm_compute. discriminate.
  - vm_compute. reflexivity.
  - reflexivity.
  - reflexivity.
Defined.

Lemma roll_never_touches_foreign_files_witness :
  let h := fst (fourth_day 2) in
  let w := set_dir (insert "test.log.bak" (regular "keep") <$> w_dir (snd (fourth_day 2)))
                   (snd (fourth_day 2)) in
  let w' := snd (snd (roll (h, w))) in
  fst (roll (h, w)) = None
  /\ removed (w_trace w') = ["test.log.2024-01-01"]
  /\ entry w "test.log.bak" = Some (regular "keep")
  /\ entry w' "test.log.bak" = entry w "test.log.bak".
Proof.
  split; [vm_compute; reflexivity|]. split; [vm_compute; reflexivity|].
  split; [vm_compute; reflexivity|].
  apply (roll_never_touches_foreign_files
           (fst (fourth_day 2))
           (set_dir (insert "test.log.bak" (regular "keep") <$> w_dir (snd (fourth_day 2)))
                    (snd (fourth_day 2)))
           None
           (fst (snd (roll (fst (fourth_day 2),
                            set_dir (insert "test.log.bak" (regular "keep")
                                       <$> w_dir (snd (fourth_day 2)))
                                    (snd (fourth_day 2))))))).
  - exact GoSort_contract.
  - vm_compute. reflexivity.
  - vm_compute. discriminate.
  - vm_compute. discriminate.
  - left. intros [suffix Hs]. vm_compute in Hs. discriminate.
Defined.

(** ** The first call, and a formatter that fails *)

Section FirstCall.

Context {TP : TimePkg} {SP : SortPkg}.

(** Property X24.  The first log call of a fresh hook whose directory
    does not exist, when making the directory, opening the file and its
    [Stat] do not fail and neither does the formatter, returns nil and
    creates the directory and the active file: afterwards the
    directory holds the active file and nothing else, the file holds the
    serialized entry, with the default file permissions, and the hook
    tracks its length and remembers the bucket of the call. *)
Theorem first_call_creates_directory_and_file (e : Entry) (t : Z)
  (h : RollingFileTimeHook) (w : World) :
  fresh h ->
  w_dir w = None ->
  w_fault w SysMkdirAll = None ->
  w_fault w SysOpenFile = None ->
  w_fault w SysStat = None ->
  currentDirPath (rf h) <> "" ->
  snd (Formatter_Format (entry_Logger e) (entry_Message e)) = None ->
  let r := emit_at e t (h, w) in
  fst r = None
  /\ w_dir (snd (snd r))
     = Some {[ fileName (rf h) := mkNode defaultFilePermissions (serialized e) ]}
  /\ currentFileSize (rf (fst (snd r))) = wrap_int64 (Z.of_nat (length (serialized e)))
  /\ currentTimeFileName (fst (snd r)) = time_Format t (timePattern h).
Proof.
  intros [Hnil Hc] Hd Hfm Hfo Hfs Hp Hfmt. cbn zeta.
  assert (Hnone : forall name, entry w name = None) by (intros; unfold entry; by rewrite Hd).
  assert (Hcan : can_open h w).
  { repeat split; try done. intros n Hn. by rewrite Hnone in Hn. }
  destruct (reopen_and_append e t h w Hcan Hnil (or_introl Hc) Hfmt)
    as (G1 & G2 & G3 & _ & G5 & G6 & _).
  cbn zeta in *. rewrite Hnone in G2, G5. cbn in G2, G5.
  split; [done|]. split; [|done].
  unfold entry in G2, G3.
  destruct (w_dir (snd (snd (emit_at e t (h, w))))) as [d'|]; [|done].
  f_equal. apply map_eq. intros name.
  destruct (decide (name = fileName (rf h))) as [->|Hne].
  - by rewrite lookup_singleton_eq.
  - rewrite lookup_singleton_ne by done. rewrite G3 by done. apply Hnone.
Qed.

(** Property X25.  When the formatter fails, [Fire] never returns nil.
    On a hook that holds its file and does not have to roll, [Fire]
    returns the error of the formatter and changes nothing but the
    clock reading.  On a hook without a handle that does not have to
    roll and can open its file, [Fire] returns the error of the
    formatter after it has opened the active file and made it the
    logger's output: the error does not undo that, and the size is that
    of the file, the entry not counted. *)
Theorem formatter_error_is_returned (e : Entry) (h : RollingFileTimeHook) (w : World)
  (b : list Byte.byte) (err : error) :
  Formatter_Format (entry_Logger e) (entry_Message e) = (b, Some err) ->
  let r := Fire e (h, w) in
  fst r <> None
  /\ (forall fd, currentFile (rf h) = Some fd -> fst (needsToRoll (h, w)) = false ->
                 r = (Some err, snd (needsToRoll (h, w))))
  /\ (currentFile (rf h) = None -> fst (needsToRoll (h, w)) = false ->
      can_open h w ->
      fst r = Some err
      /\ exists fd, currentFile (rf (fst (snd r))) = Some fd
                    /\ w_out (snd (snd r)) = Some fd
                    /\ w_open (snd (snd r)) !! fd = Some (fileName (rf h))
                    /\ entry (snd (snd r)) (fileName (rf h))
                       = Some (opened_node (entry w (fileName (rf h))))
                    /\ currentFileSize (rf (fst (snd r)))
                       = Z.of_nat (length (n_data (opened_node (entry w (fileName (rf h))))))).
Proof.
  intros Hfmt. cbn zeta.
  assert (Hcount : forall st, count_serialized e st = (Some err, st)).
  { intros [h0 w0]. unfold count_serialized. by rewrite Hfmt. }
  unfold Fire.
  assert (Hsnd : rf (fst (snd (needsToRoll (h, w)))) = rf h
                 /\ snd (snd (needsToRoll (h, w))) = snd (OS.Now w)).
  { rewrite needsToRoll_inv. cbn zeta.
    by destruct (String.eqb (currentTimeFileName h) ""). }
  destruct (needsToRoll (h, w)) as [need [h0 w0]] eqn:EN. cbn [fst snd] in *.
  destruct Hsnd as [Hrf ->].
  split; [|split].
  - assert (Hrest : forall st1,
               fst (match open_if_unset st1 with
                    | (Some err0, st2) => (Some err0, st2)
                    | (None, st2) => count_serialized e st2
                    end) <> None).
    { intros st1. destruct (open_if_unset st1) as [[e2|] st2]; [done|].
      by rewrite Hcount. }
    destruct need; [|apply Hrest].
    destruct (roll (h0, _)) as [[e1|] st1]; [done | apply Hrest].
  - intros fd Hfd ->.
    unfold open_if_unset. rewrite Hrf, Hfd. apply Hcount.
  - intros Hnil -> Hcan.
    assert (Hent : forall name, entry (snd (OS.Now w)) name = entry w name).
    { intros name. apply entry_same_files, Now_same_files. }
    assert (Hcan0 : can_open h0 (snd (OS.Now w))).
    { destruct Hcan as (C1 & C2 & C3 & C4 & C5).
      destruct (Now_same_files w) as (_ & _ & _ & Hf & _).
      unfold can_open. rewrite Hf, Hrf, Hent. done. }
    assert (Hnil0 : currentFile (rf h0) = None) by (by rewrite Hrf).
    destruct (createFileAndFolderIfNeeded_opens h0 _ Hcan0) as (h1 & w1 & EC).
    assert (EO : open_if_unset (h0, snd (OS.Now w))
                 = (None, (h1, set_out (currentFile (rf h1)) w1))).
    { unfold open_if_unset. by rewrite Hnil0, EC. }
    destruct (open_if_unset_ok _ _ _ _ Hnil0 EO)
      as (fd & O1 & O2 & O3 & O4 & O5 & O6 & O7 & _).
    rewrite EO, Hcount. cbn [fst snd]. rewrite Hrf, Hent in *.
    split; [done|]. by exists fd.
Qed.

End FirstCall.

Lemma first_call_creates_directory_and_file_witness :
  let h := new_hook "logs/app.log" "2006-01-02" 5 in
  let w := world_at None day1 in
  let r := emit_at (text_entry "one") day1 (h, w) in
  currentDirPath (rf h) = "logs/"
  /\ listing (snd (snd r)) = ["app.log"]
  /\ fst r = None
  /\ w_dir (snd (snd r))
     = Some {[ fileName (rf h)
               := mkNode defaultFilePermissions (serialized (text_entry "one")) ]}
  /\ currentFileSize (rf (fst (snd r)))
     = wrap_int64 (Z.of_nat (length (serialized (text_entry "one"))))
  /\ currentTimeFileName (fst (snd r)) = time_Format day1 (timePattern h).
Proof.
  split; [vm_compute; reflexivity|]. split; [vm_compute; reflexivity|].
  apply (first_call_creates_directory_and_file (text_entry "one") day1
           (new_hook "logs/app.log" "2006-01-02" 5) (world_at None day1)).
  - split; reflexivity.
  - reflexivity.
  - reflexivity.
  - reflexivity.
  - reflexivity.
  - vm_compute. discriminate.
  - reflexivity.
Defined.

Lemma formatter_error_is_returned_witness :
  let failing_entry :=
    mkEntry (mkLogger (fun _ => ([], Some (ErrText "cannot marshal")))) "one" in
  let h := fst after_first_call in
  let w := set_clock (day1 + 60) [] (snd after_first_call) in
  let r := Fire failing_entry (h, w) in
  r = (Some (ErrText "cannot marshal"), (h, w))
  /\ fst r <> None
  /\ (forall fd, currentFile (rf h) = Some fd -> fst (needsToRoll (h, w)) = false ->
                 r = (Some (ErrText "cannot marshal"), snd (needsToRoll (h, w))))
  /\ (currentFile (rf h) = None -> fst (needsToRoll (h, w)) = false ->
      can_open h w ->
      fst r = Some (ErrText "cannot marshal")
      /\ exists fd, currentFile (rf (fst (snd r))) = Some fd
                    /\ w_out (snd (snd r)) = Some fd
                    /\ w_open (snd (snd r)) !! fd = Some (fileName (rf h))
                    /\ entry (snd (snd r)) (fileName (rf h))
                       = Some (opened_node (entry w (fileName (rf h))))
                    /\ currentFileSize (rf (fst (snd r)))
                       = Z.of_nat (length (n_data (opened_node (entry w (fileName (rf h))))))).
Proof.
  split; [vm_compute; reflexivity|].
  apply (formatter_error_is_returned
           (mkEntry (mkLogger (fun _ => ([], Some (ErrText "cannot marshal")))) "one")
           (fst after_first_call) (set_clock (day1 + 60) [] (snd after_first_call))
           [] (ErrText "cannot marshal")).
  reflexivity.
Defined.
